(** * Vision: the dashboard's filter/sort pipeline and the OTP auth flow

    A shallow embedding of the client code of the Vision repository
    (React/TypeScript): the repository dashboard (both variants of
    [components/dashboard]), [services/api.ts], [AuthForm.onSubmit],
    [OTPModal.handleSubmit] / [handleResendOtp] and [PrivateRoute], the
    controls around the dashboard's pipeline, the form's schema, and the
    variant of the form that runs over a mock API.

    Layout: the JavaScript host operations the code calls ([JS]), the
    dashboard ([Dashboard]), the auth flow ([Auth]), concrete sample data
    ([Samples]), the rest of the components ([DashboardUI],
    [AuthFormSchema], [MockAuth]), and then the lemmas and theorems. *)

From Stdlib Require Import ZArith String Ascii List Bool Lia.
From Stdlib Require Import Permutation Sorted DecimalString Decimal.
From stdpp Require Import base gmap strings.
Import ListNotations.

Local Open Scope string_scope.
Local Open Scope Z_scope.

(* ================================================================== *)
(** ** The JavaScript host: strings, numbers, dates, [Array.prototype.sort] *)
(* ================================================================== *)

Module JS.

(** A JavaScript string is modelled as a [string] whose characters are the
    code units; only code units below 256 are represented. *)

(** [ToBoolean] on a string: the empty string is the only falsy one. *)
Definition truthy (s : string) : bool :=
  match s with
  | EmptyString => false
  | String _ _ => true
  end.

(** [ToBoolean] on a value of type [string | null | undefined]. *)
Definition truthy_opt (o : option string) : bool :=
  match o with
  | Some s => truthy s
  | None => false
  end.

(** [a === s] for [a : string | undefined] and a string [s]. *)
Definition opt_is (a : option string) (s : string) : bool :=
  match a with
  | Some x => String.eqb x s
  | None => false
  end.

(** [String.prototype.toLowerCase], on the ASCII letters; other code units
    are left as they are. *)
Definition lower_char (c : ascii) : ascii :=
  let n := nat_of_ascii c in
  if (Nat.leb 65 n && Nat.leb n 90)%bool then ascii_of_nat (n + 32) else c.

Fixpoint toLowerCase (s : string) : string :=
  match s with
  | EmptyString => EmptyString
  | String c s' => String (lower_char c) (toLowerCase s')
  end.

(** [String.prototype.includes]: [sub] occurs somewhere in [s]. *)
Fixpoint includes (s sub : string) : bool :=
  String.prefix sub s ||
  match s with
  | EmptyString => false
  | String _ s' => includes s' sub
  end.

(** A JavaScript number as the code uses it: an integer, or NaN ([None]).
    Star counts, day counts and time values are integral; the fractional
    quotient [diffTime / msPerDay] only appears under [Math.floor]. *)
Definition number : Type := option Z.

Definition NaN : number := None.

Definition num_sub (a b : number) : number :=
  match a, b with
  | Some x, Some y => Some (x - y)
  | _, _ => None
  end.

(** [a > b] and [a >= b]: false as soon as one side is NaN. *)
Definition num_gt (a b : number) : bool :=
  match a, b with
  | Some x, Some y => y <? x
  | _, _ => false
  end.

Definition num_ge (a b : number) : bool :=
  match a, b with
  | Some x, Some y => y <=? x
  | _, _ => false
  end.

Definition num_lt (a b : number) : bool := num_gt b a.

(** [a === k] for a numeric literal [k]. *)
Definition num_eq (a : number) (k : Z) : bool :=
  match a with
  | Some x => x =? k
  | None => false
  end.

(** [Math.floor(a / k)] for a positive integer literal [k]. *)
Definition floor_div (a : number) (k : Z) : number :=
  match a with
  | Some x => Some (x / k)
  | None => None
  end.

(** [Number::toString] in radix 10, as a template literal applies it. *)
Definition Z_to_string (z : Z) : string := NilZero.string_of_int (Z.to_int z).

Definition num_to_string (a : number) : string :=
  match a with
  | Some z => Z_to_string z
  | None => "NaN"
  end.

(** *** [parseInt(string, 10)] *)

Definition isStrWhiteSpaceChar (c : ascii) : bool :=
  let n := nat_of_ascii c in
  (Nat.leb 9 n && Nat.leb n 13) || Nat.eqb n 32 || Nat.eqb n 160.

Fixpoint trimStart (s : string) : string :=
  match s with
  | EmptyString => EmptyString
  | String c s' => if isStrWhiteSpaceChar c then trimStart s' else s
  end.

Definition digit_of (c : ascii) : option Z :=
  let n := Z.of_nat (nat_of_ascii c) in
  if (48 <=? n) && (n <=? 57) then Some (n - 48) else None.

(** The value of the longest prefix of decimal digits; [acc] is the value
    read so far, [None] while no digit has been read. *)
Fixpoint digits_value (acc : option Z) (s : string) : option Z :=
  match s with
  | EmptyString => acc
  | String c s' =>
      match digit_of c with
      | Some d => digits_value (Some (10 * default 0 acc + d)) s'
      | None => acc
      end
  end.

Definition parseInt (s : string) : number :=
  let trimmed := trimStart s in
  let '(sign, rest) :=
    match trimmed with
    | String "-"%char r => (-1, r)
    | String "+"%char r => (1, r)
    | _ => (1, trimmed)
    end in
  match digits_value None rest with
  | Some n => Some (sign * n)
  | None => NaN
  end.

(** *** Dates: the time-value arithmetic of ECMA-262, section 21.4.1 *)

Definition msPerDay : Z := 86400000.
Definition maxTime : Z := 8640000000000000.

Definition Day (t : Z) : Z := t / msPerDay.
Definition TimeWithinDay (t : Z) : Z := t mod msPerDay.

Definition DaysInYear (y : Z) : Z :=
  if negb (y mod 4 =? 0) then 365
  else if negb (y mod 100 =? 0) then 366
  else if negb (y mod 400 =? 0) then 365
  else 366.

Definition DayFromYear (y : Z) : Z :=
  365 * (y - 1970) + (y - 1969) / 4 - (y - 1901) / 100 + (y - 1601) / 400.

Definition TimeFromYear (y : Z) : Z := msPerDay * DayFromYear y.

(** The largest year [y] with [TimeFromYear y <= t]: a 400-year cycle has
    146097 days, so the estimate is off by one year at most. *)
Definition YearFromDay (d : Z) : Z :=
  let y := 1970 + (400 * d) / 146097 in
  if DayFromYear (y + 1) <=? d then y + 1
  else if DayFromYear y <=? d then y
  else y - 1.

Definition YearFromTime (t : Z) : Z := YearFromDay (Day t).

Definition InLeapYear (t : Z) : Z :=
  if DaysInYear (YearFromTime t) =? 366 then 1 else 0.

Definition DayWithinYear (t : Z) : Z := Day t - DayFromYear (YearFromTime t).

(** Day number, within the year, of the first day of month [m] (0 to 11);
    [leap] is 1 in a leap year. *)
Definition monthStart (m leap : Z) : Z :=
  match m with
  | 0 => 0
  | 1 => 31
  | 2 => 59 + leap
  | 3 => 90 + leap
  | 4 => 120 + leap
  | 5 => 151 + leap
  | 6 => 181 + leap
  | 7 => 212 + leap
  | 8 => 243 + leap
  | 9 => 273 + leap
  | 10 => 304 + leap
  | 11 => 334 + leap
  | _ => 365 + leap
  end.

Definition MonthFromTime (t : Z) : Z :=
  let d := DayWithinYear t in
  let l := InLeapYear t in
  if d <? 31 then 0
  else if d <? 59 + l then 1
  else if d <? 90 + l then 2
  else if d <? 120 + l then 3
  else if d <? 151 + l then 4
  else if d <? 181 + l then 5
  else if d <? 212 + l then 6
  else if d <? 243 + l then 7
  else if d <? 273 + l then 8
  else if d <? 304 + l then 9
  else if d <? 334 + l then 10
  else 11.

Definition DateFromTime (t : Z) : Z :=
  DayWithinYear t - monthStart (MonthFromTime t) (InLeapYear t) + 1.

(** [MakeDay(year, month, date)] on integers: the day number of the first
    of the month, plus [date - 1]. *)
Definition MakeDay (year month date : Z) : Z :=
  let ym := year + month / 12 in
  let mn := month mod 12 in
  let leap := if DaysInYear ym =? 366 then 1 else 0 in
  DayFromYear ym + monthStart mn leap + date - 1.

Definition MakeTime (hour min sec ms : Z) : Z :=
  hour * 3600000 + min * 60000 + sec * 1000 + ms.

Definition MakeDate (day time : Z) : Z := day * msPerDay + time.

Definition TimeClip (t : Z) : number :=
  if maxTime <? Z.abs t then NaN else Some t.

(** What the code takes from its host: the clock, the local time zone and
    [Date.parse].  One handler run reads one instant [Date_now].
    [LocalTZA t isUTC] is the local time zone adjustment of ECMA-262, in
    milliseconds: the offset of local time from UTC in effect at the time
    value [t], which is a UTC time when [isUTC] is [true] and a local time
    when it is [false].  It changes with [t] where clocks are changed for
    daylight saving. *)
Record Host : Type := {
  Date_now : Z;
  LocalTZA : Z -> bool -> Z;
  Date_parse : string -> number;
}.

Definition LocalTime (h : Host) (t : Z) : Z := t + LocalTZA h t true.
Definition UTC (h : Host) (t : Z) : Z := t - LocalTZA h t false.

(** The offsets of the host's time zone differ from one another by at most
    [v] milliseconds: [v = 0] where the offset is fixed, one hour where
    clocks change for daylight saving. *)
Definition offsets_vary_by (h : Host) (v : Z) : Prop :=
  forall t t' b b', Z.abs (LocalTZA h t b - LocalTZA h t' b') <= v.

(** A [Date] object is its time value, NaN for an invalid date. *)
Definition Date : Type := number.

(** [new Date()] and [new Date(string)]. *)
Definition new_Date (h : Host) : Date := Some (Date_now h).

Definition new_Date_of (h : Host) (s : string) : Date :=
  match Date_parse h s with
  | Some t => TimeClip t
  | None => NaN
  end.

Definition getTime (d : Date) : number := d.

Definition getDate (h : Host) (d : Date) : number :=
  match d with
  | Some t => Some (DateFromTime (LocalTime h t))
  | None => NaN
  end.

Definition getMonth (h : Host) (d : Date) : number :=
  match d with
  | Some t => Some (MonthFromTime (LocalTime h t))
  | None => NaN
  end.

(** [d.setDate(date)] and [d.setMonth(month)]: the new time value of [d]. *)
Definition setDate (h : Host) (d : Date) (date : number) : Date :=
  match d, date with
  | Some t, Some dt =>
      let t := LocalTime h t in
      TimeClip (UTC h (MakeDate (MakeDay (YearFromTime t) (MonthFromTime t) dt)
                                (TimeWithinDay t)))
  | _, _ => NaN
  end.

Definition setMonth (h : Host) (d : Date) (month : number) : Date :=
  match d, month with
  | Some t, Some m =>
      let t := LocalTime h t in
      TimeClip (UTC h (MakeDate (MakeDay (YearFromTime t) m (DateFromTime t))
                                (TimeWithinDay t)))
  | _, _ => NaN
  end.

(** *** [Array.prototype.sort(comparefn)]

    The sort is stable, and a comparator result of NaN counts as [+0].
    Stable insertion: an element moves past exactly the elements it
    compares strictly greater than. *)
Definition cmp_value (v : number) : Z := default 0 v.

Fixpoint sort_insert {A : Type} (cmp : A -> A -> number) (x : A) (l : list A) : list A :=
  match l with
  | [] => [x]
  | y :: l' =>
      if 0 <? cmp_value (cmp x y) then y :: sort_insert cmp x l' else x :: l
  end.

Definition sort {A : Type} (cmp : A -> A -> number) (l : list A) : list A :=
  fold_right (sort_insert cmp) [] l.

(** The comparator [(a, b) => key(b) - key(a)], and the order it sorts
    into: descending [key]. *)
Definition by_key {A : Type} (key : A -> Z) : A -> A -> number :=
  fun a b => Some (key b - key a).

Definition descending {A : Type} (key : A -> Z) : A -> A -> Prop :=
  fun a b => key b <= key a.

(** *** A [Date.parse] for the format [toISOString] emits

    [YYYY-MM-DDTHH:mm:ss.sssZ]; every other string is not a date.  Used for
    concrete hosts; the theorems hold for any [Date_parse]. *)
Definition two (a b : ascii) : option Z :=
  match digit_of a, digit_of b with
  | Some x, Some y => Some (10 * x + y)
  | _, _ => None
  end.

Definition DaysInMonth (y m : Z) : Z :=
  let leap := if DaysInYear y =? 366 then 1 else 0 in
  monthStart m leap - monthStart (m - 1) leap.

Definition parse_iso (s : string) : number :=
  match list_ascii_of_string s with
  | [y1; y2; y3; y4; "-"%char; m1; m2; "-"%char; d1; d2; "T"%char;
     h1; h2; ":"%char; n1; n2; ":"%char; s1; s2; "."%char; f1; f2; f3; "Z"%char] =>
      match two y1 y2, two y3 y4, two m1 m2, two d1 d2,
            two h1 h2, two n1 n2, two s1 s2, digit_of f1, two f2 f3 with
      | Some yh, Some yl, Some mo, Some dd, Some hh, Some mi, Some ss, Some fh, Some fl =>
          let y := 100 * yh + yl in
          if (1 <=? mo) && (mo <=? 12) && (1 <=? dd) && (dd <=? DaysInMonth y mo)
             && (hh <=? 23) && (mi <=? 59) && (ss <=? 59)
          then TimeClip (MakeDate (MakeDay y (mo - 1) dd)
                                  (MakeTime hh mi ss (100 * fh + fl)))
          else NaN
      | _, _, _, _, _, _, _, _, _ => NaN
      end
  | _ => NaN
  end.

End JS.

(* ================================================================== *)
(** ** The dashboard: data model shared by the two variants *)
(* ================================================================== *)

Module Dashboard.

(** [interface RepositoryHealth] *)
Record RepositoryHealth : Type := {
  stars : Z;
  forks : Z;
  openIssues : Z;
  closedIssues : Z;
  watchers : Z;
  contributorsCount : Z;
  commitsLastMonth : Z;
  commitsLastYear : Z;
  lastCommitDate : option string;
  creationDate : option string;
}.

(** [interface RepositoryComplexity] *)
Record RepositoryComplexity : Type := {
  linesOfCode : Z;
  fileCount : Z;
  directoryDepth : Z;
  dependencyCount : Z;
  readmeLength : Z;
  hasContributingGuide : bool;
  hasCodeOfConduct : bool;
  hasLicense : bool;
}.

(** [interface Repository].  The four score fields ([difficultyScore],
    [qualityScore], [beginnerFriendlyScore], [overallScore]) are decimal
    fractions that no function below reads; they are kept in hundredths. *)
Record Repository : Type := {
  githubId : string;
  name : string;
  fullName : string;
  htmlUrl : string;
  description : option string;
  primaryLanguage : option string;
  languages : list (string * Z);
  topics : list string;
  health : RepositoryHealth;
  complexity : RepositoryComplexity;
  goodFirstIssues : Z;
  helpWantedIssues : Z;
  difficultyScore : Z;
  qualityScore : Z;
  beginnerFriendlyScore : Z;
  overallScore : Z;
  cachedAt : string;
}.

(** ['any' | 'week' | 'month'] and ['stars' | 'updated']. *)
Inductive RecentActivity : Type := any | week | month.
Inductive SortBy : Type := by_stars | by_updated.

(** [interface Filters] *)
Record Filters : Type := {
  language : string;
  minStars : string;
  recentActivity : RecentActivity;
  sortBy : SortBy;
}.

Definition initialFilters : Filters :=
  {| language := ""; minStars := ""; recentActivity := any; sortBy := by_stars |}.

(** The component state the pipeline reads. *)
Record State : Type := {
  repositories : list Repository;
  searchTerm : string;
  filters : Filters;
  activeQuickFilter : string;
}.

(** The change event of an advanced-filter control: the control's [name]
    with its [value]. *)
Inductive FilterInput : Type :=
| input_language (value : string)
| input_minStars (value : string)
| input_recentActivity (value : RecentActivity)
| input_sortBy (value : SortBy).

(** [{...prev, [name]: value}] *)
Definition set_filter (e : FilterInput) (prev : Filters) : Filters :=
  match e with
  | input_language v =>
      {| language := v; minStars := minStars prev;
         recentActivity := recentActivity prev; sortBy := sortBy prev |}
  | input_minStars v =>
      {| language := language prev; minStars := v;
         recentActivity := recentActivity prev; sortBy := sortBy prev |}
  | input_recentActivity v =>
      {| language := language prev; minStars := minStars prev;
         recentActivity := v; sortBy := sortBy prev |}
  | input_sortBy v =>
      {| language := language prev; minStars := minStars prev;
         recentActivity := recentActivity prev; sortBy := v |}
  end.

(** The quick-filter labels, as the buttons and the [switch] spell them. *)
Definition Trending : string := "üî• Trending".
Definition GoodFirstIssues : string := "üå± Good First Issues".
Definition ActiveToday : string := "‚ö° Active Today".
Definition HiddenGems : string := "üíé Hidden Gems".

End Dashboard.

(* ================================================================== *)
(** ** The dashboard, first variant (filtering in an effect) *)
(* ================================================================== *)

Module DashboardV1.
Import JS Dashboard.

Definition formatDate (h : Host) (dateString : option string) : string :=
  match dateString with
  | None => "N/A"
  | Some s =>
      if negb (truthy s) then "N/A" else
      let date := new_Date_of h s in
      let now := new_Date h in
      let diffTime := num_sub (getTime now) (getTime date) in
      let diffDays := floor_div diffTime (1000 * 60 * 60 * 24) in
      if num_eq diffDays 0 then "Today"
      else if num_eq diffDays 1 then "Yesterday"
      else if num_lt diffDays (Some 7) then num_to_string diffDays ++ " days ago"
      else if num_lt diffDays (Some 30)
           then num_to_string (floor_div diffDays 7) ++ " weeks ago"
      else num_to_string (floor_div diffDays 30) ++ " months ago"
  end.

(** [p.health.lastCommitDate && new Date(p.health.lastCommitDate) > cutoff] *)
Definition committedAfter (h : Host) (cutoff : Date) (p : Repository) : bool :=
  match lastCommitDate (health p) with
  | Some s => truthy s && num_gt (new_Date_of h s) cutoff
  | None => false
  end.

(** The body of the filtering effect; its result is what
    [setFilteredRepositories] stores. *)
Definition filteredRepositories (h : Host) (st : State) : list Repository :=
  let results := repositories st in
  let lowercasedSearch := toLowerCase (searchTerm st) in
  let results :=
    if truthy lowercasedSearch then
      List.filter (fun p =>
        includes (toLowerCase (name p)) lowercasedSearch
        || match description p with
           | Some d => truthy d && includes (toLowerCase d) lowercasedSearch
           | None => false
           end
        || includes (toLowerCase (fullName p)) lowercasedSearch
        || existsb (fun t => includes (toLowerCase t) lowercasedSearch) (topics p))
        results
    else results in
  let results :=
    if truthy (language (filters st)) then
      List.filter (fun p => opt_is (primaryLanguage p) (language (filters st))) results
    else results in
  let results :=
    if truthy (minStars (filters st)) then
      List.filter (fun p => num_ge (Some (stars (health p))) (parseInt (minStars (filters st))))
        results
    else results in
  let results :=
    match recentActivity (filters st) with
    | any => results
    | ra =>
        let days := match ra with week => 7 | _ => 30 end in
        let cutoffDate := new_Date h in
        let cutoffDate :=
          setDate h cutoffDate (num_sub (getDate h (new_Date h)) (Some days)) in
        List.filter (committedAfter h cutoffDate) results
    end in
  if truthy (activeQuickFilter st) then
    if String.eqb (activeQuickFilter st) Trending then
      let monthAgo := new_Date h in
      let monthAgo := setMonth h monthAgo (num_sub (getMonth h monthAgo) (Some 1)) in
      let results := List.filter (committedAfter h monthAgo) results in
      sort (fun a b => Some (stars (health b) - stars (health a))) results
    else if String.eqb (activeQuickFilter st) GoodFirstIssues then
      List.filter (fun p => 0 <? goodFirstIssues p) results
    else if String.eqb (activeQuickFilter st) ActiveToday then
      List.filter (fun p =>
        truthy_opt (lastCommitDate (health p))
        && String.eqb (formatDate h (lastCommitDate (health p))) "Today") results
    else if String.eqb (activeQuickFilter st) HiddenGems then
      List.filter (fun p => (1000 <? stars (health p)) && (stars (health p) <? 20000)) results
    else results
  else
    match sortBy (filters st) with
    | by_stars => sort (fun a b => Some (stars (health b) - stars (health a))) results
    | by_updated =>
        sort (fun a b =>
          let dateA := match lastCommitDate (health a) with
                       | Some s => if truthy s then getTime (new_Date_of h s) else Some 0
                       | None => Some 0
                       end in
          let dateB := match lastCommitDate (health b) with
                       | Some s => if truthy s then getTime (new_Date_of h s) else Some 0
                       | None => Some 0
                       end in
          num_sub dateB dateA) results
    end.

Definition handleFilterChange (e : FilterInput) (st : State) : State :=
  {| repositories := repositories st; searchTerm := searchTerm st;
     filters := set_filter e (filters st); activeQuickFilter := "" |}.

Definition handleQuickFilterClick (filterName : string) (st : State) : State :=
  {| repositories := repositories st; searchTerm := searchTerm st;
     filters := filters st;
     activeQuickFilter :=
       if String.eqb (activeQuickFilter st) filterName then "" else filterName |}.

Definition handleClearFilters (st : State) : State :=
  {| repositories := repositories st; searchTerm := "";
     filters := initialFilters; activeQuickFilter := "" |}.

End DashboardV1.

(* ================================================================== *)
(** ** The dashboard, second variant (filtering in a memo) *)
(* ================================================================== *)

Module DashboardV2.
Import JS Dashboard.

Definition formatDate (h : Host) (dateString : option string) : string :=
  match dateString with
  | None => "N/A"
  | Some s =>
      if negb (truthy s) then "N/A" else
      let date := new_Date_of h s in
      let now := new_Date h in
      let diffTime := num_sub (getTime now) (getTime date) in
      let diffDays := floor_div diffTime (1000 * 60 * 60 * 24) in
      if num_eq diffDays 0 then "Today"
      else if num_eq diffDays 1 then "Yesterday"
      else if num_lt diffDays (Some 7) then num_to_string diffDays ++ " days ago"
      else if num_lt diffDays (Some 30)
           then num_to_string (floor_div diffDays 7) ++ " weeks ago"
      else num_to_string (floor_div diffDays 30) ++ " months ago"
  end.

Definition committedAfter (h : Host) (cutoff : Date) (p : Repository) : bool :=
  match lastCommitDate (health p) with
  | Some s => truthy s && num_gt (new_Date_of h s) cutoff
  | None => false
  end.

(** The body of the [filteredRepositories] memo. *)
Definition filteredRepositories (h : Host) (st : State) : list Repository :=
  let results := repositories st in
  let lowercasedSearch := toLowerCase (searchTerm st) in
  (* 1. Apply search term filter *)
  let results :=
    if truthy lowercasedSearch then
      List.filter (fun p =>
        includes (toLowerCase (name p)) lowercasedSearch
        || match description p with
           | Some d => truthy d && includes (toLowerCase d) lowercasedSearch
           | None => false
           end
        || includes (toLowerCase (fullName p)) lowercasedSearch
        || existsb (fun t => includes (toLowerCase t) lowercasedSearch) (topics p))
        results
    else results in
  (* 2. Apply advanced filters *)
  let results :=
    if truthy (language (filters st)) then
      List.filter (fun p => opt_is (primaryLanguage p) (language (filters st))) results
    else results in
  let results :=
    if truthy (minStars (filters st)) then
      List.filter (fun p => num_ge (Some (stars (health p))) (parseInt (minStars (filters st))))
        results
    else results in
  let results :=
    match recentActivity (filters st) with
    | any => results
    | ra =>
        let days := match ra with week => 7 | _ => 30 end in
        let cutoffDate := new_Date h in
        let cutoffDate :=
          setDate h cutoffDate (num_sub (getDate h (new_Date h)) (Some days)) in
        List.filter (committedAfter h cutoffDate) results
    end in
  (* 3. Apply quick filters (if active, they override sorting) *)
  if truthy (activeQuickFilter st) then
    if String.eqb (activeQuickFilter st) Trending then
      let monthAgo := new_Date h in
      let monthAgo := setMonth h monthAgo (num_sub (getMonth h monthAgo) (Some 1)) in
      let results := List.filter (committedAfter h monthAgo) results in
      sort (fun a b => Some (commitsLastMonth (health b) - commitsLastMonth (health a)))
        results
    else if String.eqb (activeQuickFilter st) GoodFirstIssues then
      sort (fun a b => Some (goodFirstIssues b - goodFirstIssues a))
        (List.filter (fun p => 0 <? goodFirstIssues p) results)
    else if String.eqb (activeQuickFilter st) ActiveToday then
      List.filter (fun p =>
        truthy_opt (lastCommitDate (health p))
        && String.eqb (formatDate h (lastCommitDate (health p))) "Today") results
    else if String.eqb (activeQuickFilter st) HiddenGems then
      sort (fun a b => Some (stars (health b) - stars (health a)))
        (List.filter (fun p => (1000 <? stars (health p)) && (stars (health p) <? 20000))
           results)
    else results
  else
    (* 4. Apply default sorting if no quick filter is active *)
    match sortBy (filters st) with
    | by_stars => sort (fun a b => Some (stars (health b) - stars (health a))) results
    | by_updated =>
        sort (fun a b =>
          let dateA := match lastCommitDate (health a) with
                       | Some s => if truthy s then getTime (new_Date_of h s) else Some 0
                       | None => Some 0
                       end in
          let dateB := match lastCommitDate (health b) with
                       | Some s => if truthy s then getTime (new_Date_of h s) else Some 0
                       | None => Some 0
                       end in
          num_sub dateB dateA) results
    end.

Definition handleFilterChange (e : FilterInput) (st : State) : State :=
  {| repositories := repositories st; searchTerm := searchTerm st;
     filters := set_filter e (filters st); activeQuickFilter := "" |}.

Definition handleQuickFilterClick (filterName : string) (st : State) : State :=
  {| repositories := repositories st; searchTerm := searchTerm st;
     filters := filters st;
     activeQuickFilter :=
       if String.eqb (activeQuickFilter st) filterName then "" else filterName |}.

Definition handleClearFilters (st : State) : State :=
  {| repositories := repositories st; searchTerm := "";
     filters := initialFilters; activeQuickFilter := "" |}.

End DashboardV2.

(* ================================================================== *)
(** ** The browser side of the auth flow: storage, network, effects *)
(* ================================================================== *)

(** [AxiosError], as the [catch] blocks read it. *)
Module Axios.

(** [error.response.data]: the fields [detail] and [message]. *)
Record ErrorBody : Type := {
  detail : option string;
  body_message : option string;
}.

(** [error.response] *)
Record ErrorResponse : Type := {
  status : Z;
  data : option ErrorBody;
}.

Record AxiosError : Type := {
  response : option ErrorResponse;
  code : option string;
  message : string;
}.

(** [error.response?.data?.detail] and [error.response?.data?.message] *)
Definition response_detail (e : AxiosError) : option string :=
  match response e with
  | Some r => match data r with Some b => detail b | None => None end
  | None => None
  end.

Definition response_message (e : AxiosError) : option string :=
  match response e with
  | Some r => match data r with Some b => body_message b | None => None end
  | None => None
  end.

(** [error.response?.status === k] *)
Definition status_is (e : AxiosError) (k : Z) : bool :=
  match response e with
  | Some r => status r =? k
  | None => false
  end.

(** [`${error}`]: [Error.prototype.toString] with the name [AxiosError]. *)
Definition to_string (e : AxiosError) : string :=
  if JS.truthy (message e) then "AxiosError: " ++ message e else "AxiosError".

(** The JSON object a request carries, and a request: [api.post(url, data)]. *)
Definition Json : Type := list (string * string).

Record Request : Type := {
  url : string;
  body : Json;
}.

End Axios.

Module Browser.
Import Axios.

(** What a handler does to the world outside its component, in order. *)
Inductive Effect : Type :=
| Post (r : Request)
| SetItem (key value : string)
| Navigate (to : string) (replace : bool)
| Callback (prop : string) (args : list string)
| SetTimeout (task : string) (ms : Z).

Record World : Type := {
  localStorage : gmap string string;
  trace : list Effect;
}.

(** The requests sent so far, oldest first. *)
Definition sent (w : World) : list Request :=
  flat_map (fun e => match e with Post r => [r] | _ => [] end) (trace w).

Definition emit (e : Effect) (w : World) : World :=
  {| localStorage := localStorage w; trace := trace w ++ [e] |}.

(** The outcome of a step of a handler: a value, or a thrown error. *)
Inductive Outcome (A : Type) : Type :=
| Returned (a : A)
| Thrown (e : AxiosError).

Arguments Returned {A} a.
Arguments Thrown {A} e.

(** A handler of a component with state [C]: it reads and updates the
    component state and the world, and may throw. *)
Definition Eff (C A : Type) : Type := C * World -> Outcome A * (C * World).

Section Eff.
Context {C : Type}.

#[export] Instance Eff_ret : MRet (Eff C) := fun A a s => (Returned a, s).

#[export] Instance Eff_bind : MBind (Eff C) := fun A B f m s =>
  match m s with
  | (Returned a, s') => f a s'
  | (Thrown e, s') => (Thrown e, s')
  end.

Definition throw {A : Type} (e : AxiosError) : Eff C A := fun s => (Thrown e, s).

(** A [useState] setter, given as the update of the component state. *)
Definition set_state (f : C -> C) : Eff C unit :=
  fun s => (Returned tt, (f (fst s), snd s)).

Definition get_state : Eff C C := fun s => (Returned (fst s), s).

Definition perform (e : Effect) : Eff C unit :=
  fun s => (Returned tt, (fst s, emit e (snd s))).

(** [try { body } catch (error) { handler }] *)
Definition try_catch {A : Type} (body : Eff C A) (handler : AxiosError -> Eff C A) : Eff C A :=
  fun s =>
    match body s with
    | (Thrown e, s') => handler e s'
    | (Returned a, s') => (Returned a, s')
    end.

(** [try { body } finally { fin }] *)
Definition try_finally {A : Type} (body : Eff C A) (fin : Eff C unit) : Eff C A :=
  fun s =>
    match body s with
    | (r, s') =>
        match fin s' with
        | (Returned _, s'') => (r, s'')
        | (Thrown e, s'') => (Thrown e, s'')
        end
    end.

(** [localStorage.getItem] and [localStorage.setItem] *)
Definition getItem (key : string) : Eff C (option string) :=
  fun s => (Returned (localStorage (snd s) !! key), s).

Definition setItem (key value : string) : Eff C unit :=
  fun s =>
    (Returned tt,
     (fst s, {| localStorage := <[key := value]> (localStorage (snd s));
                trace := trace (snd s) ++ [SetItem key value] |})).

(** [navigate(to)] and [navigate(to, { replace: true })] *)
Definition navigate (to : string) (replace : bool) : Eff C unit :=
  perform (Navigate to replace).

End Eff.

(** The state a handler leaves behind, whether it returned or threw. *)
Definition run {C A : Type} (m : Eff C A) (c : C) (w : World) : C * World :=
  snd (m (c, w)).

End Browser.

(* ================================================================== *)
(** ** services/api.ts *)
(* ================================================================== *)

Module SignupRequest.
Record t : Type := { name : string; email : string }.
Definition to_json (d : t) : Axios.Json := [("name", name d); ("email", email d)].
End SignupRequest.

Module LoginRequest.
Record t : Type := { email : string }.
Definition to_json (d : t) : Axios.Json := [("email", email d)].
End LoginRequest.

Module VerifyOTPRequest.
Record t : Type := { email : string; otp : string }.
Definition to_json (d : t) : Axios.Json := [("email", email d); ("otp", otp d)].
End VerifyOTPRequest.

Module AuthResponse.
Record t : Type := { message : string; status : Z; account_id : string }.
End AuthResponse.

Module VerifyResponse.
Record t : Type := { access_token : string; token_type : string }.
End VerifyResponse.

Module Api.
Import Axios Browser.

(** The remote API: what it answers to a request, given the requests it
    has received before.  [inl] is a rejected promise. *)
Record Backend : Type := {
  auth_reply : list Request -> Request -> AxiosError + AuthResponse.t;
  verify_reply : list Request -> Request -> AxiosError + VerifyResponse.t;
}.

Section WithState.
Context {C : Type}.

(** [await api.post<AuthResponse>(url, data)] and
    [await api.post<VerifyResponse>(url, data)] *)
Definition post_AuthResponse (api : Backend) (url : string) (data : Json)
  : Eff C AuthResponse.t :=
  fun s =>
    let r := {| url := url; body := data |} in
    let s' := (fst s, emit (Post r) (snd s)) in
    match auth_reply api (sent (snd s)) r with
    | inr response => (Returned response, s')
    | inl error => (Thrown error, s')
    end.

Definition post_VerifyResponse (api : Backend) (url : string) (data : Json)
  : Eff C VerifyResponse.t :=
  fun s =>
    let r := {| url := url; body := data |} in
    let s' := (fst s, emit (Post r) (snd s)) in
    match verify_reply api (sent (snd s)) r with
    | inr response => (Returned response, s')
    | inl error => (Thrown error, s')
    end.

Definition createUser (api : Backend) (data : SignupRequest.t) : Eff C AuthResponse.t :=
  response ← post_AuthResponse api "/signup" (SignupRequest.to_json data);
  mret response.

Definition login (api : Backend) (data : LoginRequest.t) : Eff C AuthResponse.t :=
  response ← post_AuthResponse api "/login" (LoginRequest.to_json data);
  mret response.

Definition verifySignup (api : Backend) (data : VerifyOTPRequest.t) : Eff C VerifyResponse.t :=
  response ← post_VerifyResponse api "/verify-signup" (VerifyOTPRequest.to_json data);
  mret response.

Definition verifyLogin (api : Backend) (data : VerifyOTPRequest.t) : Eff C VerifyResponse.t :=
  response ← post_VerifyResponse api "/verify-login" (VerifyOTPRequest.to_json data);
  mret response.

(** [formType: 'signup' | 'login'] *)
Inductive ResendType : Type := resend_signup | resend_login.

Definition resendOTP (api : Backend) (email : string) (formType : ResendType)
  : Eff C AuthResponse.t :=
  match formType with
  | resend_signup =>
      response ← post_AuthResponse api "/signup" [("name", "Resend"); ("email", email)];
      mret response
  | resend_login =>
      response ← post_AuthResponse api "/login" [("email", email)];
      mret response
  end.

End WithState.
End Api.

(** [type formType = 'signin' | 'signup'] *)
Inductive formType : Type := signin | signup.

Definition is_signup (t : formType) : bool :=
  match t with signup => true | signin => false end.

(* ================================================================== *)
(** ** components/OTPModal.tsx *)
(* ================================================================== *)

Module OTPModal.
Import JS Axios Browser Api.

(** [interface OTPModalProps].  The parent's callbacks are opaque to the
    modal: a call is recorded in the trace; the flag says whether the prop
    was passed. *)
Record Props : Type := {
  Email : option string;
  AccountId : option string;
  formtype : option formType;
  fullName : option string;
  onSuccess : bool;
  onClose : bool;
}.

Record State : Type := {
  isOpen : bool;
  password : string;
  isLoading : bool;
  isResending : bool;
  errorMessage : string;
  successMessage : string;
}.

Definition initialState : State :=
  {| isOpen := true; password := ""; isLoading := false; isResending := false;
     errorMessage := ""; successMessage := "" |}.

Definition setIsOpen (v : bool) : Eff State unit :=
  set_state (fun s =>
    {| isOpen := v; password := password s; isLoading := isLoading s;
       isResending := isResending s; errorMessage := errorMessage s;
       successMessage := successMessage s |}).

Definition setPassword (v : string) : Eff State unit :=
  set_state (fun s =>
    {| isOpen := isOpen s; password := v; isLoading := isLoading s;
       isResending := isResending s; errorMessage := errorMessage s;
       successMessage := successMessage s |}).

Definition setIsLoading (v : bool) : Eff State unit :=
  set_state (fun s =>
    {| isOpen := isOpen s; password := password s; isLoading := v;
       isResending := isResending s; errorMessage := errorMessage s;
       successMessage := successMessage s |}).

Definition setIsResending (v : bool) : Eff State unit :=
  set_state (fun s =>
    {| isOpen := isOpen s; password := password s; isLoading := isLoading s;
       isResending := v; errorMessage := errorMessage s;
       successMessage := successMessage s |}).

Definition setErrorMessage (v : string) : Eff State unit :=
  set_state (fun s =>
    {| isOpen := isOpen s; password := password s; isLoading := isLoading s;
       isResending := isResending s; errorMessage := v;
       successMessage := successMessage s |}).

Definition setSuccessMessage (v : string) : Eff State unit :=
  set_state (fun s =>
    {| isOpen := isOpen s; password := password s; isLoading := isLoading s;
       isResending := isResending s; errorMessage := errorMessage s;
       successMessage := v |}).

(** [a || b || c] on [string | undefined] operands: the first truthy one. *)
Definition first_truthy (a : option string) (b : string) (c : string) : string :=
  match a with
  | Some x => if truthy x then x else if truthy b then b else c
  | None => if truthy b then b else c
  end.

(** The [catch] block of [handleSubmit]. *)
Definition handleSubmit_catch (error : AxiosError) : Eff State unit :=
  if truthy_opt (response_detail error) then
    setErrorMessage (default "" (response_detail error))
  else if status_is error 401 then
    setErrorMessage "Invalid OTP. Please try again."
  else if status_is error 404 then
    setErrorMessage "User not found. Please sign up first."
  else if status_is error 400 then
    setErrorMessage "Email already verified. Please log in."
  else if status_is error 403 then
    setErrorMessage "Email not verified. Please complete signup first."
  else if opt_is (code error) "ERR_NETWORK" || includes (message error) "Network Error" then
    setErrorMessage "Network error. Please check your connection."
  else
    setErrorMessage
      (first_truthy (response_message error) (message error)
         "Failed to verify OTP. Please try again.").

(** [handleSubmit]; [e.preventDefault()] has no effect modelled here.  The
    handler closes over the [password] of the render it belongs to. *)
Definition handleSubmit (api : Backend) (props : Props) : Eff State unit :=
  st ← get_state;
  let password := password st in
  if negb (truthy_opt (Email props)) || negb (truthy password)
     || negb (Nat.eqb (String.length password) 6)
  then setErrorMessage "Please enter a valid 6-digit OTP"
  else
    let Email := default "" (Email props) in
    setIsLoading true;;
    setErrorMessage "";;
    setSuccessMessage "";;
    try_finally
      (try_catch
         (verify ←
            match formtype props with
            | Some signup =>
                verifySignup api {| VerifyOTPRequest.email := Email;
                                    VerifyOTPRequest.otp := password |}
            | _ =>
                verifyLogin api {| VerifyOTPRequest.email := Email;
                                   VerifyOTPRequest.otp := password |}
            end;
          let token := VerifyResponse.access_token verify in
          setItem "access_token" token;;
          setItem "token_type" (VerifyResponse.token_type verify);;
          setSuccessMessage "Verification successful! Redirecting...";;
          (if onSuccess props then perform (Callback "onSuccess" [token]) else mret tt);;
          perform (SetTimeout "closeModal" 1500))
         handleSubmit_catch)
      (setIsLoading false).

(** The task [handleSubmit] schedules, and [handleClose]. *)
Definition handleClose (props : Props) : Eff State unit :=
  setIsOpen false;;
  (if onClose props then perform (Callback "onClose" []) else mret tt).

Definition handleResendOtp (api : Backend) (props : Props) : Eff State unit :=
  if negb (truthy_opt (Email props)) then mret tt
  else
    let Email := default "" (Email props) in
    setIsResending true;;
    setErrorMessage "";;
    setSuccessMessage "";;
    try_finally
      (try_catch
         (let formTypeForResend :=
            match formtype props with
            | Some signup => resend_signup
            | _ => resend_login
            end in
          resendOTP api Email formTypeForResend;;
          setSuccessMessage "OTP resent successfully!";;
          setPassword "")
         (fun error =>
            setErrorMessage
              (first_truthy (response_detail error) (message error)
                 "Failed to resend OTP. Please try again.")))
      (setIsResending false).

(** The submit button's [disabled] attribute. *)
Definition submit_disabled (st : State) : bool :=
  isLoading st || negb (Nat.eqb (String.length (password st)) 6).

End OTPModal.

(* ================================================================== *)
(** ** components/AuthForm.tsx *)
(* ================================================================== *)

Module AuthForm.
Import JS Axios Browser Api.

(** The validated form values. *)
Record Values : Type := {
  FullName : option string;
  Email : string;
}.

Record AccountData : Type := {
  accountId : string;
  email : string;
  fullName : option string;
}.

Record State : Type := {
  isLoading : bool;
  errorMessage : string;
  accountData : option AccountData;
}.

Definition initialState : State :=
  {| isLoading := false; errorMessage := ""; accountData := None |}.

Definition setIsLoading (v : bool) : Eff State unit :=
  set_state (fun s =>
    {| isLoading := v; errorMessage := errorMessage s; accountData := accountData s |}).

Definition setErrorMessage (v : string) : Eff State unit :=
  set_state (fun s =>
    {| isLoading := isLoading s; errorMessage := v; accountData := accountData s |}).

Definition setAccountData (v : option AccountData) : Eff State unit :=
  set_state (fun s =>
    {| isLoading := isLoading s; errorMessage := errorMessage s; accountData := v |}).

(** The [catch] block of [onSubmit]. *)
Definition onSubmit_catch (type : formType) (error : AxiosError) : Eff State unit :=
  if truthy_opt (response_detail error) then
    setErrorMessage (default "" (response_detail error))
  else if status_is error 404 && negb (is_signup type) then
    setErrorMessage "Account not found. Please sign up first."
  else if status_is error 403 then
    setErrorMessage "Email not verified. Please complete signup first."
  else if status_is error 400 then
    setErrorMessage "User already exists. Please try logging in."
  else
    setErrorMessage
      ("Failed to " ++ (if is_signup type then "create account" else "sign in")
       ++ ". Please try again." ++ Axios.to_string error).

Definition onSubmit (api : Backend) (type : formType) (values : Values) : Eff State unit :=
  setIsLoading true;;
  setErrorMessage "";;
  try_finally
    (try_catch
       (user ←
          (if is_signup type && truthy_opt (FullName values) then
             createUser api {| SignupRequest.name := default "" (FullName values);
                               SignupRequest.email := Email values |}
           else
             login api {| LoginRequest.email := Email values |});
        setAccountData
          (Some {| accountId := AuthResponse.account_id user;
                   email := Email values;
                   fullName := FullName values |}))
       (onSubmit_catch type))
    (setIsLoading false).

(** [handleOTPClose], and the [onSuccess] callback given to the modal. *)
Definition handleOTPClose : Eff State unit := setAccountData None.

Definition onOTPSuccess (token : string) : Eff State unit :=
  navigate "/dashboard" false.

(** [{accountData && <OTPModal ... />}]: the modal is rendered, with these
    props, exactly when [accountData] is set. *)
Definition renderedModal (type : formType) (st : State) : option OTPModal.Props :=
  match accountData st with
  | Some a =>
      Some {| OTPModal.Email := Some (email a);
              OTPModal.AccountId := Some (accountId a);
              OTPModal.formtype := Some type;
              OTPModal.fullName := fullName a;
              OTPModal.onSuccess := true;
              OTPModal.onClose := true |}
  | None => None
  end.

End AuthForm.

(* ================================================================== *)
(** ** components/PrivateRoute.tsx and the router of App.tsx *)
(* ================================================================== *)

Module PrivateRoute.
Import JS Browser.

(** What the component returns: [<Outlet />] or [null]. *)
Inductive Element : Type := Outlet | null.

Definition token (w : World) : option string := localStorage w !! "access_token".

Definition render (w : World) : Element :=
  if truthy_opt (token w) then Outlet else null.

(** The [useEffect] that runs after the render. *)
Definition effect (w : World) : Eff unit unit :=
  if negb (truthy_opt (token w)) then navigate "/signin" true else mret tt.

End PrivateRoute.

Module App.
Import Browser.

Inductive Page : Type := Feature | Hero | SignUp | SignIn.

(** How the router matches a pathname against the [path] of a route:
    the path, which holds no pattern character in this router, is compiled
    to a regular expression that matches the path, then any number of
    slashes, then the end of the pathname, with the flag [i].

    [Canonicalize] is the case folding of that flag: a character is
    compared by its upper case.  Only the ASCII letters fold onto ASCII
    characters, and the paths of this router are ASCII, so the other
    characters are left as they are. *)
Definition Canonicalize (c : ascii) : ascii :=
  let n := nat_of_ascii c in
  if (Nat.leb 97 n && Nat.leb n 122)%bool then ascii_of_nat (n - 32) else c.

Fixpoint only_slashes (s : string) : bool :=
  match s with
  | EmptyString => true
  | String c s' => Ascii.eqb c "/" && only_slashes s'
  end.

Fixpoint matchPath (path pathname : string) : bool :=
  match path, pathname with
  | EmptyString, rest => only_slashes rest
  | String c path', String d pathname' =>
      Ascii.eqb (Canonicalize c) (Canonicalize d) && matchPath path' pathname'
  | String _ _, EmptyString => false
  end.

(** The page the router shows at [pathname], the pathname of the location
    as the router matches it, with its percent-escapes decoded; [None]
    when no page of the application is shown.  The index route shows
    [Hero] inside the outlet of [PrivateRoute]. *)
Definition route (pathname : string) (w : World) : option Page :=
  if matchPath "/feature" pathname then Some Feature
  else if matchPath "/dashboard" pathname then
    match PrivateRoute.render w with
    | PrivateRoute.Outlet => Some Hero
    | PrivateRoute.null => None
    end
  else if matchPath "/signup" pathname then Some SignUp
  else if matchPath "/signin" pathname then Some SignIn
  else None.

End App.

(* ================================================================== *)
(** ** The stages of the pipeline, and the claims' predicates *)
(* ================================================================== *)

(** The two bodies of [filteredRepositories] read stage by stage: the
    search and advanced filters, then either a quick filter or the default
    sort.  [V1_stages] and [V2_stages] below show that the bodies are these
    stages composed. *)
Module Stages.
Import JS Dashboard.

Definition matchesSearch (lowercasedSearch : string) (p : Repository) : bool :=
  includes (toLowerCase (name p)) lowercasedSearch
  || match description p with
     | Some d => truthy d && includes (toLowerCase d) lowercasedSearch
     | None => false
     end
  || includes (toLowerCase (fullName p)) lowercasedSearch
  || existsb (fun t => includes (toLowerCase t) lowercasedSearch) (topics p).

Definition matchesLanguage (lang : string) (p : Repository) : bool :=
  opt_is (primaryLanguage p) lang.

Definition matchesMinStars (minStars : string) (p : Repository) : bool :=
  num_ge (Some (stars (health p))) (parseInt minStars).

Definition committedAfter (h : Host) (cutoff : Date) (p : Repository) : bool :=
  match lastCommitDate (health p) with
  | Some s => truthy s && num_gt (new_Date_of h s) cutoff
  | None => false
  end.

Definition cutoffDate (h : Host) (days : Z) : Date :=
  setDate h (new_Date h) (num_sub (getDate h (new_Date h)) (Some days)).

Definition monthAgo (h : Host) : Date :=
  setMonth h (new_Date h) (num_sub (getMonth h (new_Date h)) (Some 1)).

Definition when {A : Type} (b : bool) (f : A -> bool) (l : list A) : list A :=
  if b then List.filter f l else l.

(** Stages 1 and 2: the search term and the advanced filters. *)
Definition advanced (h : Host) (st : State) : list Repository :=
  let lowercasedSearch := toLowerCase (searchTerm st) in
  let results := when (truthy lowercasedSearch) (matchesSearch lowercasedSearch)
                   (repositories st) in
  let results := when (truthy (language (filters st)))
                   (matchesLanguage (language (filters st))) results in
  let results := when (truthy (minStars (filters st)))
                   (matchesMinStars (minStars (filters st))) results in
  match recentActivity (filters st) with
  | any => results
  | week => List.filter (committedAfter h (cutoffDate h 7)) results
  | month => List.filter (committedAfter h (cutoffDate h 30)) results
  end.

(** The comparators of the [sort] calls. *)
Definition byStars (a b : Repository) : number :=
  Some (stars (health b) - stars (health a)).

Definition byCommitsLastMonth (a b : Repository) : number :=
  Some (commitsLastMonth (health b) - commitsLastMonth (health a)).

Definition byGoodFirstIssues (a b : Repository) : number :=
  Some (goodFirstIssues b - goodFirstIssues a).

(** [lastCommitDate ? new Date(lastCommitDate).getTime() : 0] *)
Definition commitTime (h : Host) (p : Repository) : number :=
  match lastCommitDate (health p) with
  | Some s => if truthy s then getTime (new_Date_of h s) else Some 0
  | None => Some 0
  end.

Definition byUpdated (h : Host) (a b : Repository) : number :=
  num_sub (commitTime h b) (commitTime h a).

(** Stage 4: the default sort. *)
Definition defaultSort (h : Host) (sb : SortBy) (l : list Repository) : list Repository :=
  match sb with
  | by_stars => sort byStars l
  | by_updated => sort (byUpdated h) l
  end.

(** Stage 3: a quick filter's predicate and its ordering, per variant.  A
    label that is none of the four has the predicate [true]; [None] is
    "no sort". *)
Definition isTrending (h : Host) (p : Repository) : bool :=
  committedAfter h (monthAgo h) p.

Definition hasGoodFirstIssues (p : Repository) : bool := 0 <? goodFirstIssues p.

Definition isActiveToday (formatDate : Host -> option string -> string)
  (h : Host) (p : Repository) : bool :=
  truthy_opt (lastCommitDate (health p))
  && String.eqb (formatDate h (lastCommitDate (health p))) "Today".

Definition isHiddenGem (p : Repository) : bool :=
  (1000 <? stars (health p)) && (stars (health p) <? 20000).

Definition quickPredicate (formatDate : Host -> option string -> string)
  (h : Host) (label : string) : Repository -> bool :=
  if String.eqb label Trending then isTrending h
  else if String.eqb label GoodFirstIssues then hasGoodFirstIssues
  else if String.eqb label ActiveToday then isActiveToday formatDate h
  else if String.eqb label HiddenGems then isHiddenGem
  else fun _ => true.

Definition quickOrderV1 (label : string) : option (Repository -> Repository -> number) :=
  if String.eqb label Trending then Some byStars else None.

Definition quickOrderV2 (label : string) : option (Repository -> Repository -> number) :=
  if String.eqb label Trending then Some byCommitsLastMonth
  else if String.eqb label GoodFirstIssues then Some byGoodFirstIssues
  else if String.eqb label ActiveToday then None
  else if String.eqb label HiddenGems then Some byStars
  else None.

Definition ordered (o : option (Repository -> Repository -> number))
  (l : list Repository) : list Repository :=
  match o with
  | Some cmp => sort cmp l
  | None => l
  end.

Definition quickV1 (h : Host) (label : string) (l : list Repository) : list Repository :=
  ordered (quickOrderV1 label) (List.filter (quickPredicate DashboardV1.formatDate h label) l).

Definition quickV2 (h : Host) (label : string) (l : list Repository) : list Repository :=
  ordered (quickOrderV2 label) (List.filter (quickPredicate DashboardV2.formatDate h label) l).

End Stages.

(** The predicates the claims about the dashboard are stated with. *)
Module Claims.
Import JS Dashboard.

(** [sub] occurs in [s]. *)
Definition occurs_in (sub s : string) : Prop :=
  exists pre post, s = pre ++ sub ++ post.

(** The search predicate: the lowercased term occurs in the name, the
    description, the full name or some topic, each compared in lower case. *)
Definition search_matches (term : string) (p : Repository) : Prop :=
  let t := toLowerCase term in
  occurs_in t (toLowerCase (name p))
  \/ (exists d, description p = Some d /\ occurs_in t (toLowerCase d))
  \/ occurs_in t (toLowerCase (fullName p))
  \/ (exists topic, In topic (topics p) /\ occurs_in t (toLowerCase topic)).

(** The language predicate: [primaryLanguage] equals the selected one. *)
Definition language_matches (lang : string) (p : Repository) : Prop :=
  primaryLanguage p = Some lang.

(** The star predicate: [stars] is at least the parsed minimum. *)
Definition stars_at_least (minStars : string) (p : Repository) : Prop :=
  exists m, parseInt minStars = Some m /\ m <= stars (health p).

(** The instant [days] calendar days before now at which the local clock
    read what it reads now. *)
Definition same_time_days_ago (h : Host) (days : Z) : Z :=
  UTC h (LocalTime h (Date_now h) - days * msPerDay).

(** The activity predicate: [lastCommitDate] is non-null and strictly
    after the same local time [days] days ago. *)
Definition committed_within (h : Host) (days : Z) (p : Repository) : Prop :=
  exists s t, lastCommitDate (health p) = Some s
              /\ new_Date_of h s = Some t
              /\ same_time_days_ago h days < t.

(** The conjunction of the active predicates; an inactive one (empty
    string, or ['any']) asks nothing. *)
Definition active_predicates (h : Host) (st : State) (p : Repository) : Prop :=
  (searchTerm st <> "" -> search_matches (searchTerm st) p)
  /\ (language (filters st) <> "" -> language_matches (language (filters st)) p)
  /\ (minStars (filters st) <> "" -> stars_at_least (minStars (filters st)) p)
  /\ (recentActivity (filters st) = week -> committed_within h 7 p)
  /\ (recentActivity (filters st) = month -> committed_within h 30 p).

(** "The filtered result contains exactly the repositories that satisfy
    the conjunction of all active predicates." *)
Definition exactly_the_matching (h : Host) (st : State) (result : list Repository) : Prop :=
  forall p, In p result <-> In p (repositories st) /\ active_predicates h st p.

(** The time a repository is sorted by under ['updated']: its last commit,
    0 when there is none. *)
Definition commitTimeOr0 (h : Host) (p : Repository) : Z :=
  default 0 (Stages.commitTime h p).

Definition starCount (p : Repository) : Z := stars (health p).

(** "Repositories whose [lastCommitDate] is null are ordered last": after
    such a repository only such repositories follow. *)
Definition nulls_ordered_last (l : list Repository) : Prop :=
  forall (l1 : list Repository) a l2, l = (l1 ++ a :: l2)%list ->
    lastCommitDate (health a) = None ->
    Forall (fun b => lastCommitDate (health b) = None) l2.

(** Two states that differ at most in the [sortBy] setting. *)
Definition same_but_sortBy (st st' : State) : Prop :=
  repositories st' = repositories st
  /\ searchTerm st' = searchTerm st
  /\ activeQuickFilter st' = activeQuickFilter st
  /\ language (filters st') = language (filters st)
  /\ minStars (filters st') = minStars (filters st)
  /\ recentActivity (filters st') = recentActivity (filters st).

End Claims.

(* ================================================================== *)
(** ** Concrete data *)
(* ================================================================== *)

Module Samples.
Import JS Dashboard.

(** A host whose clock reads 2024-02-29T12:34:56.789Z, always one hour
    east of Greenwich, parsing ISO dates. *)
Definition host : Host :=
  {| Date_now := 1709210096789; LocalTZA := fun _ _ => 3600000;
     Date_parse := parse_iso |}.

(** A host on Berlin time whose clock reads 2024-04-02T12:00:00.000Z, two
    days after the clocks went forward at 2024-03-31T01:00:00.000Z: one
    hour east of Greenwich before that instant, two hours after it.  A
    local time in the skipped hour is read with the offset before the
    change. *)
Definition berlin : Host :=
  {| Date_now := 1712059200000;
     LocalTZA := fun t isUTC =>
       if isUTC then (if t <? 1711846800000 then 3600000 else 7200000)
       else (if t <? 1711846800000 + 7200000 then 3600000 else 7200000);
     Date_parse := parse_iso |}.

Definition mkHealth (stars commits : Z) (lastCommit : option string) : RepositoryHealth :=
  {| stars := stars; forks := 0; openIssues := 0; closedIssues := 0; watchers := 0;
     contributorsCount := 1; commitsLastMonth := commits; commitsLastYear := commits;
     lastCommitDate := lastCommit; creationDate := Some "2013-05-29T16:14:20.000Z" |}.

Definition someComplexity : RepositoryComplexity :=
  {| linesOfCode := 1000; fileCount := 10; directoryDepth := 2; dependencyCount := 3;
     readmeLength := 100; hasContributingGuide := true; hasCodeOfConduct := true;
     hasLicense := true |}.

Definition mkRepo (name fullName : string) (lang : string) (stars commits gfi : Z)
  (lastCommit : option string) : Repository :=
  {| githubId := "1"; name := name; fullName := fullName;
     htmlUrl := "https://github.com/" ++ fullName;
     description := Some "A library"; primaryLanguage := Some lang;
     languages := [(lang, 1000)]; topics := ["ui"];
     health := mkHealth stars commits lastCommit; complexity := someComplexity;
     goodFirstIssues := gfi; helpWantedIssues := 0;
     difficultyScore := 80; qualityScore := 95; beginnerFriendlyScore := 40;
     overallScore := 90; cachedAt := "2024-02-29T12:00:00.000Z" |}.

(** Committed five hours before [host]'s clock. *)
Definition react : Repository :=
  mkRepo "React" "facebook/react" "JavaScript" 218000 150 45
    (Some "2024-02-29T07:30:00.000Z").

(** Committed ten days before; no good first issue. *)
Definition lobsters : Repository :=
  mkRepo "Lobsters" "lobsters/lobsters" "Ruby" 3800 50 0
    (Some "2024-02-19T12:00:00.000Z").

(** Committed three days before; more good first issues than [react]. *)
Definition fastapi : Repository :=
  mkRepo "FastAPI" "tiangolo/fastapi" "Python" 68000 400 120
    (Some "2024-02-26T12:00:00.000Z").

(** No commit recorded. *)
Definition undated : Repository :=
  mkRepo "Empty" "someone/empty" "Go" 10 0 0 None.

(** Last commit dated one second before the Unix epoch. *)
Definition ancient : Repository :=
  mkRepo "Ancient" "someone/ancient" "C" 20 0 0 (Some "1969-12-31T23:59:59.000Z").

Definition state (repos : list Repository) (term : string) (f : Filters) (quick : string)
  : State :=
  {| repositories := repos; searchTerm := term; filters := f; activeQuickFilter := quick |}.

Definition byUpdatedFilters : Filters :=
  {| language := ""; minStars := ""; recentActivity := any; sortBy := by_updated |}.

Definition weekFilters : Filters :=
  {| language := ""; minStars := "1000"; recentActivity := week; sortBy := by_stars |}.

(** No filter set, the quick filter "Good First Issues" on. *)
Definition goodFirstIssuesState : State :=
  state [react; lobsters; fastapi] "" initialFilters GoodFirstIssues.

(** Sorted by last update, no quick filter. *)
Definition updatedState : State := state [ancient; undated; react] "" byUpdatedFilters "".

(** A search for "REACT" among the repositories of the past week. *)
Definition searchState : State := state [react; lobsters; fastapi] "REACT" weekFilters "".

End Samples.

(** The predicates the claims about the auth flow are stated with. *)
Module AuthClaims.
Import JS Axios Browser Api.

(** The [setItem] calls of a trace, in order. *)
Definition storage_writes (t : list Effect) : list (string * string) :=
  flat_map (fun e => match e with SetItem k v => [(k, v)] | _ => [] end) t.

(** "The email is present and the entered passcode has length exactly 6." *)
Definition submittable (props : OTPModal.Props) (st : OTPModal.State) : Prop :=
  (exists e, OTPModal.Email props = Some e /\ e <> "")
  /\ String.length (OTPModal.password st) = 6%nat.

(** The verification request of the OTP step: [verifySignup] for signup,
    [verifyLogin] otherwise, with the email and the entered passcode. *)
Definition verification_request (props : OTPModal.Props) (st : OTPModal.State) : Request :=
  {| url := match OTPModal.formtype props with
            | Some signup => "/verify-signup"
            | _ => "/verify-login"
            end;
     body := [("email", default "" (OTPModal.Email props));
              ("otp", OTPModal.password st)] |}.

(** "The verification request returns successfully", with its response. *)
Definition verified (api : Backend) (props : OTPModal.Props) (st : OTPModal.State)
  (w : World) (v : VerifyResponse.t) : Prop :=
  submittable props st
  /\ verify_reply api (sent w) (verification_request props st) = inr v.

(** "The access token and token type are written to storage." *)
Definition tokens_written (w w' : World) (v : VerifyResponse.t) : Prop :=
  storage_writes (trace w')
  = (storage_writes (trace w)
     ++ [("access_token", VerifyResponse.access_token v);
         ("token_type", VerifyResponse.token_type v)])%list
  /\ localStorage w'
     = <["token_type" := VerifyResponse.token_type v]>
         (<["access_token" := VerifyResponse.access_token v]> (localStorage w)).

(** The credential request of the first step: [createUser] with the name
    and the email for signup with a non-empty full name, [login] with the
    email only otherwise. *)
Definition credential_request (type : formType) (values : AuthForm.Values) : Request :=
  match type, AuthForm.FullName values with
  | signup, Some (String c n) =>
      {| url := "/signup";
         body := [("name", String c n); ("email", AuthForm.Email values)] |}
  | _, _ => {| url := "/login"; body := [("email", AuthForm.Email values)] |}
  end.

(** The resend request: to [/signup] with the constant name for signup, to
    [/login] with the email alone otherwise. *)
Definition resend_request (formtype : option formType) (email : string) : Request :=
  match formtype with
  | Some signup => {| url := "/signup"; body := [("name", "Resend"); ("email", email)] |}
  | _ => {| url := "/login"; body := [("email", email)] |}
  end.

End AuthClaims.

Module AuthSamples.
Import Axios Browser Api.

(** A backend that knows one account and one passcode. *)
Definition backend : Backend :=
  {| auth_reply := fun _ r =>
       if existsb (fun kv => String.eqb (snd kv) "ada@example.org") (body r)
       then inr {| AuthResponse.message := "OTP sent"; AuthResponse.status := 200;
                   AuthResponse.account_id := "acc_1" |}
       else inl {| response := Some {| status := 404; data := None |};
                   code := Some "ERR_BAD_REQUEST";
                   message := "Request failed with status code 404" |};
     verify_reply := fun _ r =>
       if existsb (fun kv => String.eqb (snd kv) "123456") (body r)
       then inr {| VerifyResponse.access_token := "jwt-1";
                   VerifyResponse.token_type := "bearer" |}
       else inl {| response := Some {| status := 401;
                                       data := Some {| detail := Some "Invalid OTP";
                                                       body_message := None |} |};
                   code := Some "ERR_BAD_REQUEST";
                   message := "Request failed with status code 401" |} |}.

Definition world : World := {| localStorage := ∅; trace := [] |}.

Definition loggedIn : World :=
  {| localStorage := {["access_token" := "jwt-1"]}; trace := [] |}.

Definition props : OTPModal.Props :=
  {| OTPModal.Email := Some "ada@example.org"; OTPModal.AccountId := Some "acc_1";
     OTPModal.formtype := Some signup; OTPModal.fullName := Some "Ada";
     OTPModal.onSuccess := true; OTPModal.onClose := true |}.

Definition typed (otp : string) : OTPModal.State :=
  {| OTPModal.isOpen := true; OTPModal.password := otp; OTPModal.isLoading := false;
     OTPModal.isResending := false; OTPModal.errorMessage := "";
     OTPModal.successMessage := "" |}.

Definition values : AuthForm.Values :=
  {| AuthForm.FullName := Some "Ada"; AuthForm.Email := "ada@example.org" |}.

Definition strangerValues : AuthForm.Values :=
  {| AuthForm.FullName := None; AuthForm.Email := "eve@example.org" |}.

End AuthSamples.

(* ================================================================== *)
(** ** The rest of the dashboard component *)
(* ================================================================== *)

(** What the dashboard does around the pipeline: the search box, the
    "Clear All Filters" control, the result counter and the list view. *)
Module DashboardUI.
Import JS Dashboard.

(** [onChange={(e) => setSearchTerm(e.target.value)}] *)
Definition setSearchTerm (value : string) (st : State) : State :=
  {| repositories := repositories st; searchTerm := value;
     filters := filters st; activeQuickFilter := activeQuickFilter st |}.

(** The first variant's fetch effect stores the loaded repositories and,
    as the first list to show, [[...sampleRepositories].sort(...)]. *)
Definition initialFilteredRepositories (sampleRepositories : list Repository)
  : list Repository :=
  sort (fun a b => Some (stars (health b) - stars (health a))) sampleRepositories.

(** [JSON.stringify] of a string (QuoteJSONString): the characters that
    are escaped, and the rest as they are. *)
Definition dquote : ascii := ascii_of_nat 34.
Definition backslash : ascii := ascii_of_nat 92.

Definition hexDigit (n : nat) : ascii :=
  if Nat.ltb n 10 then ascii_of_nat (48 + n) else ascii_of_nat (87 + n).

Definition quoteChar (c : ascii) : string :=
  let n := nat_of_ascii c in
  if Nat.eqb n 8 then String backslash "b"
  else if Nat.eqb n 9 then String backslash "t"
  else if Nat.eqb n 10 then String backslash "n"
  else if Nat.eqb n 12 then String backslash "f"
  else if Nat.eqb n 13 then String backslash "r"
  else if Nat.eqb n 34 then String backslash (String dquote "")
  else if Nat.eqb n 92 then String backslash (String backslash "")
  else if Nat.ltb n 32 then
    String backslash ("u00" ++ String (hexDigit (Nat.div n 16))
                                 (String (hexDigit (Nat.modulo n 16)) ""))
  else String c "".

Fixpoint quoteChars (s : string) : string :=
  match s with
  | EmptyString => EmptyString
  | String c s' => quoteChar c ++ quoteChars s'
  end.

Definition QuoteJSONString (s : string) : string :=
  String dquote (quoteChars s ++ String dquote "").

Definition RecentActivity_value (r : RecentActivity) : string :=
  match r with any => "any" | week => "week" | month => "month" end.

Definition SortBy_value (s : SortBy) : string :=
  match s with by_stars => "stars" | by_updated => "updated" end.

(** [JSON.stringify(filters)]: the four properties in the order the
    object was created with, which [{...prev, [name]: value}] keeps. *)
Definition stringify (f : Filters) : string :=
  "{" ++ QuoteJSONString "language" ++ ":" ++ QuoteJSONString (language f)
  ++ "," ++ QuoteJSONString "minStars" ++ ":" ++ QuoteJSONString (minStars f)
  ++ "," ++ QuoteJSONString "recentActivity" ++ ":"
  ++ QuoteJSONString (RecentActivity_value (recentActivity f))
  ++ "," ++ QuoteJSONString "sortBy" ++ ":"
  ++ QuoteJSONString (SortBy_value (sortBy f)) ++ "}".

(** [searchTerm || activeQuickFilter || JSON.stringify(filters) !==
    JSON.stringify(initialFilters)], as the condition it is used for. *)
Definition areFiltersActive (st : State) : bool :=
  truthy (searchTerm st) || truthy (activeQuickFilter st)
  || negb (String.eqb (stringify (filters st)) (stringify initialFilters)).

(** The list section: skeletons while loading, then the cards of the
    filtered repositories, or the "no results" panel when there is none. *)
Inductive ListView : Type :=
| LoadingSkeletons
| Cards (shown : list Repository)
| NoResults.

Definition listView (loading : bool) (filteredRepositories : list Repository) : ListView :=
  if loading then LoadingSkeletons
  else if (0 <? Z.of_nat (length filteredRepositories)) then Cards filteredRepositories
  else NoResults.

(** "Showing [n] of [m] projects" *)
Definition counter (filteredRepositories repositories : list Repository) : Z * Z :=
  (Z.of_nat (length filteredRepositories), Z.of_nat (length repositories)).

End DashboardUI.

(* ================================================================== *)
(** ** The rest of the auth form *)
(* ================================================================== *)

(** [AuthFormSchema(type)]: the validation [form.handleSubmit] applies
    before it calls [onSubmit].  [isEmail] stands for the email format
    check of [z.string().email()]. *)
Module AuthFormSchema.
Import JS Browser.

(** [z.string().min(2).max(50)] for signup, [z.string().optional()]
    otherwise. *)
Definition FullName_ok (type : formType) (FullName : option string) : bool :=
  match type with
  | signup =>
      match FullName with
      | Some n => Nat.leb 2 (String.length n) && Nat.leb (String.length n) 50
      | None => false
      end
  | signin => true
  end.

Definition safeParse (isEmail : string -> bool) (type : formType)
  (values : AuthForm.Values) : bool :=
  FullName_ok type (AuthForm.FullName values) && isEmail (AuthForm.Email values).

(** [form.handleSubmit(onSubmit)]: [onSubmit] runs on valid values only. *)
Definition handleSubmit (isEmail : string -> bool) (api : Api.Backend)
  (type : formType) (values : AuthForm.Values) : Eff AuthForm.State unit :=
  if safeParse isEmail type values then AuthForm.onSubmit api type values
  else mret tt.

End AuthFormSchema.

(* ================================================================== *)
(** ** client/src/components/AuthForm.tsx: the form over a mock API *)
(* ================================================================== *)

(** The self-contained variant of the form: the API calls and the passcode
    check are simulated with timers.  [console.log] and [alert] are not
    modelled; a timer is recorded in the trace, and the body of a promise's
    timer runs where the promise is awaited. *)
Module MockAuth.
Import JS Axios Browser.

(** [interface AuthResponse] of this file *)
Module AuthResponse.
Record t : Type := { account_id : string; message : string }.
End AuthResponse.

(** [await p]: the value of a settled promise, or its rejection thrown. *)
Definition await {C A : Type} (p : AxiosError + A) : Eff C A :=
  match p with
  | inr a => mret a
  | inl error => throw error
  end.

(** The [Error] the mock rejects with, which carries a [response]. *)
Definition rejection (msg : string) (status : Z) (detail : string) : AxiosError :=
  {| response := Some {| status := status;
                         data := Some {| detail := Some detail;
                                         body_message := None |} |};
     code := None;
     message := msg |}.

Definition createUser {C : Type} (h : Host) (name email : string)
  : Eff C AuthResponse.t :=
  perform (SetTimeout "createUser" 1000);;
  await
    (if includes email "exists" then
       inl (rejection "User already exists." 400
              "User with this email already exists. Please try logging in.")
     else
       inr {| AuthResponse.account_id := "acc_" ++ Z_to_string (Date_now h);
              AuthResponse.message := "Account created. Please verify your email." |}).

Definition login {C : Type} (h : Host) (email : string) : Eff C AuthResponse.t :=
  perform (SetTimeout "login" 1000);;
  await
    (if includes email "notfound" then
       inl (rejection "Account not found." 404
              "Account not found. Please sign up first.")
     else
       inr {| AuthResponse.account_id := "acc_" ++ Z_to_string (Date_now h);
              AuthResponse.message := "Login successful. Please enter OTP." |}).

(** [`${type}`] *)
Definition formType_value (type : formType) : string :=
  match type with signin => "signin" | signup => "signup" end.

(** [onSubmit] of the mock form; its state has the shape of the real
    form's. *)
Definition onSubmit (h : Host) (type : formType) (values : AuthForm.Values)
  : Eff AuthForm.State unit :=
  AuthForm.setIsLoading true;;
  AuthForm.setErrorMessage "";;
  try_finally
    (try_catch
       (user ←
          (if is_signup type && truthy_opt (AuthForm.FullName values) then
             createUser h (default "" (AuthForm.FullName values)) (AuthForm.Email values)
           else
             login h (AuthForm.Email values));
        AuthForm.setAccountData
          (Some {| AuthForm.accountId := AuthResponse.account_id user;
                   AuthForm.email := AuthForm.Email values;
                   AuthForm.fullName := AuthForm.FullName values |}))
       (fun error =>
          let detail := response_detail error in
          AuthForm.setErrorMessage
            (if truthy_opt detail then default "" detail
             else "Failed to " ++ formType_value type ++ ". Please try again.")))
    (AuthForm.setIsLoading false).

(** The mock [OTPModal]. *)
Record Props : Type := { Email : string; AccountId : string }.

Record State : Type := { otp : string; isVerifying : bool; error : string }.

Definition setOtp (v : string) : Eff State unit :=
  set_state (fun s => {| otp := v; isVerifying := isVerifying s; error := error s |}).

Definition setIsVerifying (v : bool) : Eff State unit :=
  set_state (fun s => {| otp := otp s; isVerifying := v; error := error s |}).

Definition setError (v : string) : Eff State unit :=
  set_state (fun s => {| otp := otp s; isVerifying := isVerifying s; error := v |}).

(** The callback [handleVerify] gives to [setTimeout]: it closes over the
    [otp] and the [AccountId] of the render the click belongs to. *)
Definition verifyTimer (props : Props) (otp : string) : Eff State unit :=
  (if String.eqb otp "123456" then
     perform (Callback "onSuccess" ["fake-jwt-token-for-" ++ AccountId props])
   else
     setError "Invalid OTP. Please try again.");;
  setIsVerifying false.

(** [handleVerify]; the result is the task it scheduled. *)
Definition handleVerify (props : Props) : Eff State (Eff State unit) :=
  st ← get_state;
  setIsVerifying true;;
  setError "";;
  perform (SetTimeout "verify" 1000);;
  mret (verifyTimer props (otp st)).

(** The verify button's [disabled] attribute. *)
Definition verify_disabled (st : State) : bool :=
  isVerifying st || Nat.ltb (String.length (otp st)) 6.

End MockAuth.

(* ================================================================== *)
(** * Facts about the host operations *)
(* ================================================================== *)

Section StringFacts.
Import JS.

Lemma truthy_true (s : string) : truthy s = true <-> s <> "".
Proof. destruct s; simpl; split; intros; congruence. Qed.

Lemma truthy_false (s : string) : truthy s = false <-> s = "".
Proof. destruct s; simpl; split; intros; congruence. Qed.

Lemma truthy_toLowerCase (s : string) : truthy (toLowerCase s) = truthy s.
Proof. destruct s; reflexivity. Qed.

Lemma prefix_app (sub s : string) :
  String.prefix sub s = true <-> exists post, s = sub ++ post.
Proof.
  revert s; induction sub as [|c sub IH]; intros s.
  - split; [intros _; exists s; reflexivity | intros _; now destruct s].
  - destruct s as [|d s]; simpl.
    + split; [discriminate | intros [post H]; discriminate].
    + destruct (Ascii.ascii_dec c d) as [->|Hne].
      * rewrite IH. split; intros [post H]; exists post.
        -- now rewrite H.
        -- now injection H.
      * split; [discriminate | intros [post H]; injection H; congruence].
Qed.

Lemma includes_unfold (s sub : string) :
  includes s sub =
  String.prefix sub s ||
  match s with
  | EmptyString => false
  | String _ s' => includes s' sub
  end.
Proof. destruct s; reflexivity. Qed.

(** [includes] decides "occurs somewhere in". *)
Lemma includes_occurs (s sub : string) :
  includes s sub = true <-> Claims.occurs_in sub s.
Proof.
  unfold Claims.occurs_in.
  induction s as [|c s IH]; rewrite includes_unfold.
  - rewrite orb_false_r, prefix_app. split.
    + intros [post H]. exists "", post. exact H.
    + intros [[|d pre] [post H]]; [exists post; exact H | discriminate].
  - rewrite orb_true_iff, prefix_app, IH. split.
    + intros [[post H] | [pre [post H]]].
      * exists "", post. exact H.
      * exists (String c pre), post. simpl. now rewrite H.
    + intros [[|d pre] [post H]].
      * left. exists post. exact H.
      * right. exists pre, post. simpl in H. now injection H.
Qed.

End StringFacts.

(** ** [sort]: a stable sort *)

Section SortFacts.
Import JS.
Context {A : Type}.

Lemma sort_insert_perm (cmp : A -> A -> number) (x : A) (l : list A) :
  Permutation (sort_insert cmp x l) (x :: l).
Proof.
  induction l as [|y l IH]; simpl.
  - apply Permutation_refl.
  - destruct (0 <? cmp_value (cmp x y)).
    + eapply Permutation_trans; [apply perm_skip, IH | apply perm_swap].
    + apply Permutation_refl.
Qed.

Lemma sort_perm (cmp : A -> A -> number) (l : list A) :
  Permutation (sort cmp l) l.
Proof.
  induction l as [|x l IH]; simpl.
  - apply perm_nil.
  - eapply Permutation_trans; [apply sort_insert_perm | apply perm_skip, IH].
Qed.

Lemma sort_In (cmp : A -> A -> number) (l : list A) (x : A) :
  In x (sort cmp l) <-> In x l.
Proof.
  split; apply Permutation_in; [|apply Permutation_sym]; apply sort_perm.
Qed.

(** Only the comparisons between elements of the list matter. *)
Lemma sort_insert_ext (cmp cmp' : A -> A -> number) (x : A) (l : list A) :
  (forall y, In y l -> cmp x y = cmp' x y) ->
  sort_insert cmp x l = sort_insert cmp' x l.
Proof.
  induction l as [|y l IH]; simpl; intros H; [reflexivity|].
  rewrite (H y) by (left; reflexivity).
  rewrite IH by (intros z Hz; apply H; right; exact Hz).
  reflexivity.
Qed.

Lemma sort_ext (cmp cmp' : A -> A -> number) (l : list A) :
  (forall x y, In x l -> In y l -> cmp x y = cmp' x y) ->
  sort cmp l = sort cmp' l.
Proof.
  induction l as [|x l IH]; simpl; intros H; [reflexivity|].
  rewrite IH by (intros a b Ha Hb; apply H; right; assumption).
  apply sort_insert_ext. intros y Hy. apply H.
  - left; reflexivity.
  - right. apply (sort_In cmp' l y). exact Hy.
Qed.

(** A comparator [(a, b) => key(b) - key(a)] sorts by descending [key]. *)
Section ByKey.
Variable key : A -> Z.

Lemma sort_insert_sorted (x : A) (l : list A) :
  StronglySorted (descending key) l ->
  StronglySorted (descending key) (sort_insert (by_key key) x l).
Proof.
  induction l as [|y l IH]; simpl; intros Hs.
  - constructor; constructor.
  - inversion Hs as [|? ? Hl Hy]; subst.
    destruct (0 <? key y - key x) eqn:E.
    + constructor; [apply IH, Hl|].
      apply List.Forall_forall. intros z Hz.
      apply (Permutation_in _ (sort_insert_perm (by_key key) x l)) in Hz.
      destruct Hz as [<-|Hz].
      * unfold descending. apply Z.ltb_lt in E. lia.
      * revert z Hz. apply List.Forall_forall. exact Hy.
    + constructor; [exact Hs|].
      apply Z.ltb_ge in E.
      constructor; [unfold descending; lia|].
      eapply List.Forall_impl; [|exact Hy].
      unfold descending. intros z Hz. lia.
Qed.

Lemma sort_sorted (l : list A) : StronglySorted (descending key) (sort (by_key key) l).
Proof.
  induction l as [|x l IH]; simpl.
  - constructor.
  - apply sort_insert_sorted, IH.
Qed.

(** Stability: elements with the same key keep their order. *)
Lemma sort_insert_stable (k : Z) (x : A) (l : list A) :
  List.filter (fun a => key a =? k) (sort_insert (by_key key) x l)
  = List.filter (fun a => key a =? k) (x :: l).
Proof.
  induction l as [|y l IH]; [reflexivity|].
  change (sort_insert (by_key key) x (y :: l))
    with (if 0 <? key y - key x
          then y :: sort_insert (by_key key) x l else x :: y :: l).
  destruct (0 <? key y - key x) eqn:E; [|reflexivity].
  apply Z.ltb_lt in E.
  cbn [List.filter] in *. rewrite IH.
  destruct (key x =? k) eqn:Ex, (key y =? k) eqn:Ey; try reflexivity.
  apply Z.eqb_eq in Ex, Ey. lia.
Qed.

Lemma sort_stable (k : Z) (l : list A) :
  List.filter (fun a => key a =? k) (sort (by_key key) l)
  = List.filter (fun a => key a =? k) l.
Proof.
  induction l as [|x l IH]; [reflexivity|].
  cbn [sort fold_right]. fold (sort (by_key key) l).
  rewrite sort_insert_stable. cbn [List.filter]. now rewrite IH.
Qed.

(** In a list sorted by descending key, a smaller key never comes first. *)
Lemma sorted_order (l1 l2 l3 : list A) (a b : A) :
  StronglySorted (descending key) (l1 ++ a :: l2 ++ b :: l3) -> key b <= key a.
Proof.
  induction l1 as [|x l1 IH]; simpl; intros Hs.
  - inversion Hs as [|? ? _ Hall]; subst.
    rewrite List.Forall_forall in Hall. apply Hall.
    apply in_or_app. right. left. reflexivity.
  - inversion Hs; subst. apply IH. assumption.
Qed.

End ByKey.
End SortFacts.

(** ** Dates *)

Section DateFacts.
Import JS.

Lemma MonthFromTime_range (t : Z) : 0 <= MonthFromTime t <= 11.
Proof.
  unfold MonthFromTime.
  repeat match goal with |- context [if ?b then _ else _] => destruct b end; lia.
Qed.

Lemma MakeDay_of_same_month (t dt : Z) :
  MakeDay (YearFromTime t) (MonthFromTime t) dt
  = Day t - DateFromTime t + dt.
Proof.
  pose proof (MonthFromTime_range t) as Hm.
  unfold MakeDay.
  rewrite (Z.div_small (MonthFromTime t) 12) by lia.
  rewrite (Z.mod_small (MonthFromTime t) 12) by lia.
  rewrite Z.add_0_r.
  unfold DateFromTime, DayWithinYear, InLeapYear. lia.
Qed.

Lemma TimeClip_in_range (t : Z) : Z.abs t <= maxTime -> TimeClip t = Some t.
Proof.
  intros H. unfold TimeClip.
  destruct (maxTime <? Z.abs t) eqn:E; [apply Z.ltb_lt in E; lia | reflexivity].
Qed.

(** [d.setDate(d.getDate() - days)] moves the local time back by [days]
    whole days: the result is the instant at which the local clock reads
    that time. *)
Lemma setDate_days_back (h : Host) (days : Z) :
  setDate h (new_Date h) (num_sub (getDate h (new_Date h)) (Some days))
  = TimeClip (UTC h (LocalTime h (Date_now h) - days * msPerDay)).
Proof.
  unfold setDate, new_Date, getDate, num_sub.
  cbv zeta. rewrite MakeDay_of_same_month.
  f_equal. f_equal. unfold MakeDate.
  set (t := LocalTime h (Date_now h)).
  assert (Ht : t = msPerDay * Day t + TimeWithinDay t).
  { unfold Day, TimeWithinDay. apply Z.div_mod. unfold msPerDay. lia. }
  lia.
Qed.

(** Going to local time, moving by [d] milliseconds and coming back moves
    an instant by [d], up to the difference of the two offsets. *)
Lemma UTC_of_LocalTime_near (h : Host) (t d v : Z) :
  offsets_vary_by h v ->
  Z.abs (UTC h (LocalTime h t + d) - (t + d)) <= v.
Proof.
  intros Hv. unfold UTC, LocalTime.
  replace (t + LocalTZA h t true + d - LocalTZA h (t + LocalTZA h t true + d) false
           - (t + d))
    with (LocalTZA h t true - LocalTZA h (t + LocalTZA h t true + d) false) by lia.
  apply Hv.
Qed.

Lemma offsets_vary_by_nonneg (h : Host) (v : Z) : offsets_vary_by h v -> 0 <= v.
Proof. intros Hv. pose proof (Hv 0 0 true true). lia. Qed.

Lemma offsets_vary_by_fixed (h : Host) :
  offsets_vary_by h 0 <-> forall t b, LocalTZA h t b = LocalTZA h 0 true.
Proof.
  split.
  - intros Hv t b. pose proof (Hv t 0 b true). lia.
  - intros Hc t t' b b'. rewrite (Hc t b), (Hc t' b'). lia.
Qed.

End DateFacts.

(* ================================================================== *)
(** * The dashboard *)
(* ================================================================== *)

Section DashboardFacts.
Import JS Dashboard Stages Claims.

(** Equalities between the code and its stages hold by unfolding the
    dashboard's own definitions; the host operations stay folded. *)
Ltac unfold_stages :=
  cbv beta iota zeta delta
    [DashboardV1.filteredRepositories DashboardV2.filteredRepositories
     DashboardV1.committedAfter DashboardV2.committedAfter Stages.committedAfter
     quickV1 quickV2 quickOrderV1 quickOrderV2 quickPredicate defaultSort
     advanced ordered when isTrending hasGoodFirstIssues isActiveToday
     isHiddenGem monthAgo cutoffDate byStars byCommitsLastMonth
     byGoodFirstIssues byUpdated commitTime matchesSearch matchesLanguage
     matchesMinStars].

Lemma filter_all {A : Type} (l : list A) : List.filter (fun _ => true) l = l.
Proof. induction l as [|x l IH]; simpl; [reflexivity | now rewrite IH]. Qed.

Lemma formatDate_variants : DashboardV1.formatDate = DashboardV2.formatDate.
Proof. reflexivity. Qed.

(** The first variant's body is stages 1-2, then stage 3 or stage 4. *)
Lemma V1_stages (h : Host) (st : State) :
  DashboardV1.filteredRepositories h st
  = if truthy (activeQuickFilter st)
    then quickV1 h (activeQuickFilter st) (advanced h st)
    else defaultSort h (sortBy (filters st)) (advanced h st).
Proof.
  unfold_stages.
  destruct (truthy (activeQuickFilter st)).
  - destruct (recentActivity (filters st));
      repeat match goal with
             | |- context [String.eqb ?a ?b] =>
                 destruct (String.eqb a b); cbv beta iota
             end;
      rewrite ?filter_all; reflexivity.
  - destruct (recentActivity (filters st)), (sortBy (filters st)); reflexivity.
Qed.

(** So is the second variant's. *)
Lemma V2_stages (h : Host) (st : State) :
  DashboardV2.filteredRepositories h st
  = if truthy (activeQuickFilter st)
    then quickV2 h (activeQuickFilter st) (advanced h st)
    else defaultSort h (sortBy (filters st)) (advanced h st).
Proof.
  unfold_stages.
  destruct (truthy (activeQuickFilter st)).
  - destruct (recentActivity (filters st));
      repeat match goal with
             | |- context [String.eqb ?a ?b] =>
                 destruct (String.eqb a b); cbv beta iota
             end;
      rewrite ?filter_all; reflexivity.
  - destruct (recentActivity (filters st)), (sortBy (filters st)); reflexivity.
Qed.

Lemma ordered_perm (o : option (Repository -> Repository -> number)) (l : list Repository) :
  Permutation (ordered o l) l.
Proof. destruct o; simpl; [apply sort_perm | apply Permutation_refl]. Qed.

Lemma ordered_In (o : option (Repository -> Repository -> number)) l p :
  In p (ordered o l) <-> In p l.
Proof.
  split; apply Permutation_in; [|apply Permutation_sym]; apply ordered_perm.
Qed.

Lemma defaultSort_perm (h : Host) (sb : SortBy) (l : list Repository) :
  Permutation (defaultSort h sb l) l.
Proof. destruct sb; apply sort_perm. Qed.

Lemma defaultSort_In (h : Host) (sb : SortBy) (l : list Repository) (p : Repository) :
  In p (defaultSort h sb l) <-> In p l.
Proof. destruct sb; apply sort_In. Qed.

Lemma when_In {A : Type} (b : bool) (f : A -> bool) (l : list A) (x : A) :
  In x (when b f l) <-> In x l /\ (b = true -> f x = true).
Proof.
  unfold when. destruct b.
  - rewrite filter_In. intuition.
  - intuition discriminate.
Qed.

(** *** The boolean tests against the claims' predicates *)

Lemma existsb_occurs (t : string) (l : list string) :
  existsb (fun x => includes (toLowerCase x) t) l = true
  <-> exists topic, In topic l /\ occurs_in t (toLowerCase topic).
Proof.
  rewrite existsb_exists.
  split; intros [x [Hin H]]; exists x; (split; [exact Hin|]);
    apply includes_occurs; exact H.
Qed.

(** A non-empty term does not occur in the empty string. *)
Lemma occurs_in_empty (t : string) : t <> "" -> ~ occurs_in t "".
Proof.
  intros Ht [pre [post H]].
  destruct pre; [destruct t; [congruence | discriminate] | discriminate].
Qed.

Lemma description_matches (t : string) (p : Repository) :
  t <> "" ->
  match description p with
  | Some d => truthy d && includes (toLowerCase d) t
  | None => false
  end = true
  <-> exists d, description p = Some d /\ occurs_in t (toLowerCase d).
Proof.
  intros Ht. destruct (description p) as [d|].
  - rewrite andb_true_iff, includes_occurs. split.
    + intros [_ H]. exists d. split; [reflexivity | exact H].
    + intros [d' [[= <-] H]]. split; [|exact H].
      destruct d; [|reflexivity].
      exfalso. exact (occurs_in_empty t Ht H).
  - split; [discriminate | intros [d [H _]]; discriminate].
Qed.

Lemma matchesSearch_spec (term : string) (p : Repository) :
  term <> "" ->
  matchesSearch (toLowerCase term) p = true <-> search_matches term p.
Proof.
  intros Hterm.
  assert (Ht : toLowerCase term <> "").
  { apply truthy_true. rewrite truthy_toLowerCase. apply truthy_true, Hterm. }
  unfold matchesSearch, search_matches. cbv zeta.
  rewrite !orb_true_iff, existsb_occurs, (description_matches _ p Ht).
  rewrite !includes_occurs. tauto.
Qed.

Lemma matchesLanguage_spec (lang : string) (p : Repository) :
  matchesLanguage lang p = true <-> language_matches lang p.
Proof.
  unfold matchesLanguage, language_matches, opt_is.
  destruct (primaryLanguage p) as [x|].
  - rewrite String.eqb_eq. split; congruence.
  - split; discriminate.
Qed.

Lemma matchesMinStars_spec (minStars : string) (p : Repository) :
  matchesMinStars minStars p = true <-> stars_at_least minStars p.
Proof.
  unfold matchesMinStars, stars_at_least, num_ge.
  destruct (parseInt minStars) as [m|].
  - rewrite Z.leb_le. split.
    + intros H. exists m. split; [reflexivity | exact H].
    + intros [m' [[= <-] H]]. exact H.
  - split; [discriminate | intros [m [H _]]; discriminate].
Qed.

Lemma same_time_days_ago_near (h : Host) (days v : Z) :
  offsets_vary_by h v ->
  Z.abs (same_time_days_ago h days - (Date_now h - days * msPerDay)) <= v.
Proof.
  intros Hv. unfold same_time_days_ago.
  pose proof (UTC_of_LocalTime_near h (Date_now h) (- (days * msPerDay)) v Hv) as H.
  replace (LocalTime h (Date_now h) + - (days * msPerDay))
    with (LocalTime h (Date_now h) - days * msPerDay) in H by lia.
  replace (Date_now h + - (days * msPerDay))
    with (Date_now h - days * msPerDay) in H by lia.
  exact H.
Qed.

Lemma cutoffDate_value (h : Host) (days : Z) :
  0 <= Date_now h <= maxTime -> offsets_vary_by h msPerDay -> 1 <= days <= 30 ->
  cutoffDate h days = Some (same_time_days_ago h days).
Proof.
  intros Hnow Hv Hdays. unfold cutoffDate. rewrite setDate_days_back.
  fold (same_time_days_ago h days).
  pose proof (same_time_days_ago_near h days msPerDay Hv) as Hnear.
  apply TimeClip_in_range. unfold maxTime, msPerDay in *. lia.
Qed.

(** Across a change of the clocks the cutoff is not a whole number of
    days of 24 hours before now.  On Berlin time, two days after the
    clocks went forward, the 7-day cutoff is an hour later than that: a
    repository last committed to 6 days and 23.5 hours ago is not kept. *)
Lemma cutoff_across_clock_change :
  offsets_vary_by Samples.berlin 3600000
  /\ cutoffDate Samples.berlin 7
     = Some (Date_now Samples.berlin - 7 * msPerDay + 3600000)
  /\ new_Date_of Samples.berlin "2024-03-26T12:30:00.000Z"
     = Some (Date_now Samples.berlin - 7 * msPerDay + 1800000)
  /\ committedAfter Samples.berlin (cutoffDate Samples.berlin 7)
       (Samples.mkRepo "Late" "late/late" "C" 1 1 1 (Some "2024-03-26T12:30:00.000Z"))
     = false.
Proof.
  split; [|split; [|split]]; [|vm_compute; reflexivity..].
  intros t t' b b'. unfold Samples.berlin. cbn [LocalTZA].
  destruct b, b';
    repeat match goal with
           | |- context [if ?c then _ else _] => destruct c
           end; discriminate.
Qed.

Lemma committedAfter_spec (h : Host) (days : Z) (p : Repository) :
  Date_parse h "" = NaN ->
  0 <= Date_now h <= maxTime -> offsets_vary_by h msPerDay -> 1 <= days <= 30 ->
  committedAfter h (cutoffDate h days) p = true <-> committed_within h days p.
Proof.
  intros Hparse Hnow Hv Hdays. rewrite cutoffDate_value by assumption.
  unfold committedAfter, committed_within.
  destruct (lastCommitDate (health p)) as [s|].
  - rewrite andb_true_iff. split.
    + intros [_ H]. destruct (new_Date_of h s) as [t|] eqn:Et; [|discriminate].
      exists s, t. simpl in H. apply Z.ltb_lt in H. auto.
    + intros [s' [t [[= <-] [Et H]]]]. rewrite Et. simpl. split.
      * destruct s; [|reflexivity].
        unfold new_Date_of in Et. rewrite Hparse in Et. discriminate.
      * apply Z.ltb_lt. exact H.
  - split; [discriminate | intros [s [t [H _]]]; discriminate].
Qed.

(** Membership in the result of stages 1 and 2, by the tests applied. *)
Lemma advanced_In (h : Host) (st : State) (p : Repository) :
  In p (advanced h st)
  <-> In p (repositories st)
      /\ (truthy (toLowerCase (searchTerm st)) = true ->
          matchesSearch (toLowerCase (searchTerm st)) p = true)
      /\ (truthy (language (filters st)) = true ->
          matchesLanguage (language (filters st)) p = true)
      /\ (truthy (minStars (filters st)) = true ->
          matchesMinStars (minStars (filters st)) p = true)
      /\ match recentActivity (filters st) with
         | any => True
         | week => committedAfter h (cutoffDate h 7) p = true
         | month => committedAfter h (cutoffDate h 30) p = true
         end.
Proof.
  unfold advanced.
  destruct (recentActivity (filters st)); rewrite ?filter_In, !when_In; tauto.
Qed.

(** Stages 1 and 2 keep exactly the repositories that satisfy every active
    predicate. *)
Lemma advanced_exactly_matching (h : Host) (st : State) :
  Date_parse h "" = NaN ->
  0 <= Date_now h <= maxTime ->
  offsets_vary_by h msPerDay ->
  exactly_the_matching h st (advanced h st).
Proof.
  intros Hparse Hnow Hv p. rewrite advanced_In. unfold active_predicates.
  rewrite truthy_toLowerCase, !truthy_true.
  rewrite <- matchesLanguage_spec, <- matchesMinStars_spec.
  rewrite <- (committedAfter_spec h 7 p Hparse Hnow Hv) by lia.
  rewrite <- (committedAfter_spec h 30 p Hparse Hnow Hv) by lia.
  pose proof (matchesSearch_spec (searchTerm st) p) as Hs.
  generalize dependent (matchesSearch (toLowerCase (searchTerm st)) p).
  generalize (committedAfter h (cutoffDate h 7) p)
             (committedAfter h (cutoffDate h 30) p)
             (matchesLanguage (language (filters st)) p)
             (matchesMinStars (minStars (filters st)) p).
  intros inWeek inMonth langOk starsOk searchOk Hs.
  assert (Hwm : week <> month) by discriminate.
  assert (Haw : any <> week) by discriminate.
  assert (Ham : any <> month) by discriminate.
  destruct (recentActivity (filters st)); split;
    intros (Hin & H1 & H2 & H3 & H4); (split; [exact Hin|]);
    repeat split; try tauto; try congruence; try (intros; apply Hs; tauto).
Qed.

End DashboardFacts.

Section DashboardClaims.
Import JS Dashboard Stages Claims.

Lemma quickPredicate_none (fd : Host -> option string -> string) (h : Host) (p : Repository) :
  quickPredicate fd h "" p = true.
Proof. reflexivity. Qed.

Lemma advanced_same_but_sortBy (h : Host) (st st' : State) :
  same_but_sortBy st st' -> advanced h st' = advanced h st.
Proof.
  intros (Hr & Hs & _ & Hl & Hm & Ha). unfold advanced.
  now rewrite Hr, Hs, Hl, Hm, Ha.
Qed.

Lemma filteredV1_In (h : Host) (st : State) (p : Repository) :
  In p (DashboardV1.filteredRepositories h st)
  <-> In p (advanced h st)
      /\ quickPredicate DashboardV1.formatDate h (activeQuickFilter st) p = true.
Proof.
  rewrite V1_stages. destruct (activeQuickFilter st) as [|c label] eqn:E.
  - cbn [truthy]. rewrite quickPredicate_none.
    rewrite defaultSort_In. tauto.
  - cbn [truthy]. unfold quickV1. rewrite ordered_In, filter_In. tauto.
Qed.

Lemma filteredV2_In (h : Host) (st : State) (p : Repository) :
  In p (DashboardV2.filteredRepositories h st)
  <-> In p (advanced h st)
      /\ quickPredicate DashboardV2.formatDate h (activeQuickFilter st) p = true.
Proof.
  rewrite V2_stages. destruct (activeQuickFilter st) as [|c label] eqn:E.
  - cbn [truthy]. rewrite quickPredicate_none.
    rewrite defaultSort_In. tauto.
  - cbn [truthy]. unfold quickV2. rewrite ordered_In, filter_In. tauto.
Qed.

(** C1 (as amended).  With no quick filter active, the filtered result of
    either variant contains exactly the repositories that satisfy every
    active predicate: the lowercased search term occurs in the lowercased
    name, description, full name or some topic; the primary language is
    the selected one; the stars are at least the parsed minimum; the last
    commit is non-null and strictly after the cutoff, the instant 7 or 30
    calendar days ago at which the local clock read what it reads now.
    With a quick filter active the result contains exactly those of them
    that also pass the quick filter's own test.  The cutoff is now minus 7
    or 30 days of 24 hours up to the difference between the local UTC
    offsets: exactly that where the offset is fixed, and up to an hour
    earlier or later across a daylight-saving change. *)
Theorem filtered_exactly_active_predicates (h : Host) (st : State) :
  Date_parse h "" = NaN ->
  0 <= Date_now h <= maxTime ->
  offsets_vary_by h msPerDay ->
  ((activeQuickFilter st = "" ->
    exactly_the_matching h st (DashboardV1.filteredRepositories h st)
    /\ exactly_the_matching h st (DashboardV2.filteredRepositories h st))
   /\ (forall p,
         In p (DashboardV1.filteredRepositories h st)
         <-> (In p (repositories st) /\ active_predicates h st p)
             /\ quickPredicate DashboardV1.formatDate h (activeQuickFilter st) p = true)
   /\ (forall p,
         In p (DashboardV2.filteredRepositories h st)
         <-> (In p (repositories st) /\ active_predicates h st p)
             /\ quickPredicate DashboardV2.formatDate h (activeQuickFilter st) p = true))
  /\ cutoffDate h 7 = Some (same_time_days_ago h 7)
  /\ cutoffDate h 30 = Some (same_time_days_ago h 30)
  /\ (forall days v,
        offsets_vary_by h v ->
        Z.abs (same_time_days_ago h days - (Date_now h - days * msPerDay)) <= v)
  /\ (offsets_vary_by h 0 ->
      forall days, same_time_days_ago h days = Date_now h - days * msPerDay).
Proof.
  intros Hparse Hnow Hv.
  pose proof (advanced_exactly_matching h st Hparse Hnow Hv) as Hadv.
  split; [split; [|split] | split; [|split; [|split]]].
  - intros Hq. split; intros p.
    + rewrite filteredV1_In, Hq, quickPredicate_none, (Hadv p). tauto.
    + rewrite filteredV2_In, Hq, quickPredicate_none, (Hadv p). tauto.
  - intros p. rewrite filteredV1_In, (Hadv p). tauto.
  - intros p. rewrite filteredV2_In, (Hadv p). tauto.
  - apply cutoffDate_value; [exact Hnow | exact Hv | lia].
  - apply cutoffDate_value; [exact Hnow | exact Hv | lia].
  - intros days v Hvary. apply same_time_days_ago_near. exact Hvary.
  - intros Hfixed days.
    pose proof (same_time_days_ago_near h days 0 Hfixed). lia.
Qed.

Lemma filtered_exactly_active_predicates_witness :
  Date_parse Samples.host "" = NaN
  /\ 0 <= Date_now Samples.host <= maxTime
  /\ offsets_vary_by Samples.host msPerDay
  /\ exactly_the_matching Samples.host Samples.searchState
       (DashboardV2.filteredRepositories Samples.host Samples.searchState).
Proof.
  assert (Hp : Date_parse Samples.host "" = NaN) by reflexivity.
  assert (Hn : 0 <= Date_now Samples.host <= maxTime) by (vm_compute; split; discriminate).
  assert (Hv : offsets_vary_by Samples.host msPerDay)
    by (intros t t' b b'; vm_compute; discriminate).
  split; [exact Hp | split; [exact Hn | split; [exact Hv|]]].
  exact (proj2 (proj1 (proj1 (filtered_exactly_active_predicates
                                Samples.host Samples.searchState Hp Hn Hv)) eq_refl)).
Defined.

(** C1 as stated fails with a quick filter on: "Lobsters" satisfies every
    active predicate (none is active) and is not in the result of the
    "Good First Issues" quick filter. *)
Lemma quick_filter_drops_matching_repository :
  ~ exactly_the_matching Samples.host Samples.goodFirstIssuesState
      (DashboardV2.filteredRepositories Samples.host Samples.goodFirstIssuesState).
Proof.
  intros H. destruct (H Samples.lobsters) as [_ Hin].
  assert (Hres : In Samples.lobsters
                   (DashboardV2.filteredRepositories Samples.host
                      Samples.goodFirstIssuesState)).
  { apply Hin. split.
    - right; left; reflexivity.
    - repeat split; simpl; intros E; congruence. }
  apply (in_map name) in Hres. vm_compute in Hres.
  destruct Hres as [E|[E|[]]]; discriminate E.
Qed.

(** C3.  With a quick filter active the result is that quick filter's own
    test and ordering applied to the repositories that passed the search
    and advanced filters, and it is the same whatever [sortBy] is; the
    [sortBy] ordering is applied when no quick filter is active, which is
    the state every change of an advanced filter leaves. *)
Theorem quick_filter_overrides_sortBy (h : Host) (st : State) :
  (activeQuickFilter st <> "" ->
   DashboardV2.filteredRepositories h st
   = quickV2 h (activeQuickFilter st) (advanced h st)
   /\ DashboardV1.filteredRepositories h st
      = quickV1 h (activeQuickFilter st) (advanced h st)
   /\ forall st', same_but_sortBy st st' ->
        DashboardV2.filteredRepositories h st' = DashboardV2.filteredRepositories h st
        /\ DashboardV1.filteredRepositories h st' = DashboardV1.filteredRepositories h st)
  /\ (activeQuickFilter st = "" ->
      DashboardV2.filteredRepositories h st
      = defaultSort h (sortBy (filters st)) (advanced h st)
      /\ DashboardV1.filteredRepositories h st
         = defaultSort h (sortBy (filters st)) (advanced h st))
  /\ (forall e, activeQuickFilter (DashboardV2.handleFilterChange e st) = ""
                /\ activeQuickFilter (DashboardV1.handleFilterChange e st) = "").
Proof.
  split; [|split].
  - intros Hq. apply truthy_true in Hq.
    rewrite V2_stages, V1_stages, Hq. split; [reflexivity | split; [reflexivity|]].
    intros st' Hsame. rewrite !V2_stages, !V1_stages.
    rewrite (advanced_same_but_sortBy h st st' Hsame).
    destruct Hsame as (_ & _ & -> & _). rewrite Hq. split; reflexivity.
  - intros Hq. rewrite V2_stages, V1_stages, Hq. split; reflexivity.
  - intros e. split; reflexivity.
Qed.

Lemma quick_filter_overrides_sortBy_witness :
  DashboardV2.filteredRepositories Samples.host Samples.goodFirstIssuesState
  = quickV2 Samples.host GoodFirstIssues
      (advanced Samples.host Samples.goodFirstIssuesState).
Proof.
  refine (proj1 (proj1 (quick_filter_overrides_sortBy
                          Samples.host Samples.goodFirstIssuesState) _)).
  discriminate.
Defined.

End DashboardClaims.

Section DashboardOrder.
Import JS Dashboard Stages Claims.

Lemma formatDate_of_date (h : Host) (s : string) (t : Z) :
  s <> "" -> new_Date_of h s = Some t ->
  let d := (Date_now h - t) / msPerDay in
  DashboardV2.formatDate h (Some s)
  = if d =? 0 then "Today"
    else if d =? 1 then "Yesterday"
    else if d <? 7 then Z_to_string d ++ " days ago"
    else if d <? 30 then Z_to_string (d / 7) ++ " weeks ago"
    else Z_to_string (d / 30) ++ " months ago".
Proof.
  intros Hs Ht d. unfold DashboardV2.formatDate.
  destruct s as [|c s]; [congruence|]. cbn [truthy negb].
  rewrite Ht. reflexivity.
Qed.

(** C5.  [formatDate] maps null to "N/A"; for an input that is a date, with
    [d] the whole days elapsed since it: 0 gives "Today", 1 "Yesterday",
    2 to 6 "d days ago", 7 to 29 "floor(d/7) weeks ago", 30 and more
    "floor(d/30) months ago".  Both variants have the same [formatDate]. *)
Theorem formatDate_buckets (h : Host) (s : string) (t : Z) :
  Date_parse h "" = NaN ->
  new_Date_of h s = Some t ->
  let d := (Date_now h - t) / msPerDay in
  DashboardV1.formatDate = DashboardV2.formatDate
  /\ DashboardV2.formatDate h None = "N/A"
  /\ (d = 0 -> DashboardV2.formatDate h (Some s) = "Today")
  /\ (d = 1 -> DashboardV2.formatDate h (Some s) = "Yesterday")
  /\ (2 <= d < 7 -> DashboardV2.formatDate h (Some s) = Z_to_string d ++ " days ago")
  /\ (7 <= d < 30 ->
      DashboardV2.formatDate h (Some s) = Z_to_string (d / 7) ++ " weeks ago")
  /\ (30 <= d ->
      DashboardV2.formatDate h (Some s) = Z_to_string (d / 30) ++ " months ago").
Proof.
  intros Hparse Ht d.
  assert (Hs : s <> "").
  { intros ->. unfold new_Date_of in Ht. rewrite Hparse in Ht. discriminate. }
  rewrite (formatDate_of_date h s t Hs Ht). fold d.
  split; [reflexivity | split; [reflexivity|]].
  repeat split; intros Hd.
  - rewrite Hd. reflexivity.
  - rewrite Hd. reflexivity.
  - destruct (d =? 0) eqn:E0; [apply Z.eqb_eq in E0; lia|].
    destruct (d =? 1) eqn:E1; [apply Z.eqb_eq in E1; lia|].
    destruct (d <? 7) eqn:E7; [reflexivity | apply Z.ltb_ge in E7; lia].
  - destruct (d =? 0) eqn:E0; [apply Z.eqb_eq in E0; lia|].
    destruct (d =? 1) eqn:E1; [apply Z.eqb_eq in E1; lia|].
    destruct (d <? 7) eqn:E7; [apply Z.ltb_lt in E7; lia|].
    destruct (d <? 30) eqn:E30; [reflexivity | apply Z.ltb_ge in E30; lia].
  - destruct (d =? 0) eqn:E0; [apply Z.eqb_eq in E0; lia|].
    destruct (d =? 1) eqn:E1; [apply Z.eqb_eq in E1; lia|].
    destruct (d <? 7) eqn:E7; [apply Z.ltb_lt in E7; lia|].
    destruct (d <? 30) eqn:E30; [apply Z.ltb_lt in E30; lia | reflexivity].
Qed.

Lemma formatDate_buckets_witness :
  DashboardV2.formatDate Samples.host (Some "2024-02-19T12:00:00.000Z")
  = Z_to_string (10 / 7) ++ " weeks ago".
Proof.
  assert (Hp : Date_parse Samples.host "" = NaN) by reflexivity.
  assert (Ht : new_Date_of Samples.host "2024-02-19T12:00:00.000Z" = Some 1708344000000)
    by (vm_compute; reflexivity).
  refine (proj1 (proj2 (proj2 (proj2 (proj2 (proj2
            (formatDate_buckets Samples.host _ _ Hp Ht)))))) _).
  vm_compute. split; [discriminate | reflexivity].
Defined.

(** Sorting by [byStars] is sorting by descending star count. *)
Lemma byStars_by_key : byStars = by_key starCount.
Proof. reflexivity. Qed.

(** On repositories whose dates are valid, [byUpdated] is the comparator of
    the commit time, 0 standing for "no commit". *)
Lemma byUpdated_by_key (h : Host) (a b : Repository) :
  commitTime h a <> NaN -> commitTime h b <> NaN ->
  byUpdated h a b = by_key (commitTimeOr0 h) a b.
Proof.
  unfold byUpdated, by_key, commitTimeOr0.
  destruct (commitTime h a), (commitTime h b); intros Ha Hb;
    try reflexivity; exfalso; auto.
Qed.

Lemma commitTimeOr0_null (h : Host) (p : Repository) :
  lastCommitDate (health p) = None -> commitTimeOr0 h p = 0.
Proof. unfold commitTimeOr0, commitTime. now intros ->. Qed.

(** C6 (as amended).  With no quick filter active both variants return the
    repositories that passed the filters, stably sorted by descending star
    count under ['stars'], and, when every non-empty [lastCommitDate] is a
    valid date, by descending last-commit time under ['updated'], where a
    null [lastCommitDate] counts as time 0: such a repository comes before
    no repository with a positive commit time. *)
Theorem default_sort_descending (h : Host) (st : State) :
  activeQuickFilter st = "" ->
  let result := DashboardV2.filteredRepositories h st in
  DashboardV1.filteredRepositories h st = result
  /\ Permutation result (advanced h st)
  /\ (sortBy (filters st) = by_stars ->
      StronglySorted (descending starCount) result
      /\ forall k, List.filter (fun p => starCount p =? k) result
                   = List.filter (fun p => starCount p =? k) (advanced h st))
  /\ (sortBy (filters st) = by_updated ->
      (forall p, In p (advanced h st) -> commitTime h p <> NaN) ->
      StronglySorted (descending (commitTimeOr0 h)) result
      /\ (forall k, List.filter (fun p => commitTimeOr0 h p =? k) result
                    = List.filter (fun p => commitTimeOr0 h p =? k) (advanced h st))
      /\ (forall p, lastCommitDate (health p) = None -> commitTimeOr0 h p = 0)
      /\ (forall (l1 l2 l3 : list Repository) a b,
            result = (l1 ++ a :: l2 ++ b :: l3)%list ->
            lastCommitDate (health a) = None -> commitTimeOr0 h b <= 0)).
Proof.
  intros Hq result. subst result. rewrite V1_stages, V2_stages, Hq. cbn [truthy].
  split; [reflexivity | split; [apply defaultSort_perm | split]].
  - intros ->. cbn [defaultSort]. rewrite byStars_by_key.
    split; [apply sort_sorted | intros k; apply sort_stable].
  - intros -> Hvalid. cbn [defaultSort].
    rewrite (sort_ext (byUpdated h) (by_key (commitTimeOr0 h)))
      by (intros a b Ha Hb; apply byUpdated_by_key; auto).
    pose proof (sort_sorted (commitTimeOr0 h) (advanced h st)) as Hsorted.
    split; [exact Hsorted | split; [intros k; apply sort_stable | split]].
    + apply commitTimeOr0_null.
    + intros l1 l2 l3 a b E Ha. rewrite E in Hsorted.
      apply sorted_order in Hsorted.
      rewrite (commitTimeOr0_null h a Ha) in Hsorted. exact Hsorted.
Qed.

Lemma default_sort_descending_witness :
  StronglySorted (descending (commitTimeOr0 Samples.host))
    (DashboardV2.filteredRepositories Samples.host Samples.updatedState).
Proof.
  refine (proj1 (proj2 (proj2 (proj2
            (default_sort_descending Samples.host Samples.updatedState eq_refl)))
            eq_refl _)).
  intros p Hp. vm_compute in Hp.
  destruct Hp as [<-|[<-|[<-|[]]]]; vm_compute; discriminate.
Defined.

(** C6 as stated fails: sorted by last update, the repository without a
    commit date comes before the one last committed in 1969. *)
Lemma null_date_not_ordered_last :
  sortBy (filters Samples.updatedState) = by_updated
  /\ activeQuickFilter Samples.updatedState = ""
  /\ ~ nulls_ordered_last
         (DashboardV2.filteredRepositories Samples.host Samples.updatedState).
Proof.
  split; [reflexivity | split; [reflexivity|]].
  intros H.
  assert (E : DashboardV2.filteredRepositories Samples.host Samples.updatedState
              = ([Samples.react] ++ Samples.undated :: [Samples.ancient])%list)
    by (vm_compute; reflexivity).
  specialize (H _ _ _ E eq_refl).
  inversion H as [|? ? Hnull _]. discriminate Hnull.
Qed.

(** C7 (as amended).  The two variants return the same repositories; the
    lists are equal unless the quick filter is "Trending", "Good First
    Issues" or "Hidden Gems", where only the order may differ. *)
Theorem variants_agree_up_to_order (h : Host) (st : State) :
  Permutation (DashboardV1.filteredRepositories h st)
              (DashboardV2.filteredRepositories h st)
  /\ (activeQuickFilter st <> Trending ->
      activeQuickFilter st <> GoodFirstIssues ->
      activeQuickFilter st <> HiddenGems ->
      DashboardV1.filteredRepositories h st = DashboardV2.filteredRepositories h st).
Proof.
  rewrite V1_stages, V2_stages.
  destruct (truthy (activeQuickFilter st)).
  - unfold quickV1, quickV2. rewrite formatDate_variants. split.
    + eapply Permutation_trans; [apply ordered_perm|].
      apply Permutation_sym, ordered_perm.
    + intros Ht Hg Hh. apply String.eqb_neq in Ht, Hg, Hh.
      unfold quickOrderV1, quickOrderV2. rewrite Ht, Hg, Hh.
      destruct (String.eqb (activeQuickFilter st) ActiveToday); reflexivity.
  - split; [apply Permutation_refl | reflexivity].
Qed.

Lemma variants_agree_up_to_order_witness :
  DashboardV1.filteredRepositories Samples.host Samples.searchState
  = DashboardV2.filteredRepositories Samples.host Samples.searchState.
Proof.
  refine (proj2 (variants_agree_up_to_order Samples.host Samples.searchState) _ _ _);
    discriminate.
Defined.

(** C7 as stated fails: under "Good First Issues" the first variant keeps
    the input order, the second sorts by the number of good first issues. *)
Lemma variants_differ_in_order :
  DashboardV1.filteredRepositories Samples.host Samples.goodFirstIssuesState
  <> DashboardV2.filteredRepositories Samples.host Samples.goodFirstIssuesState.
Proof.
  intros H. apply (f_equal (map name)) in H. vm_compute in H. discriminate H.
Qed.

End DashboardOrder.

(* ================================================================== *)
(** * The auth flow *)
(* ================================================================== *)

Section TraceFacts.
Import Axios Browser AuthClaims.

Lemma sent_app (t1 t2 : list Effect) (ls : gmap string string) :
  sent {| localStorage := ls; trace := t1 ++ t2 |}
  = (sent {| localStorage := ls; trace := t1 |}
     ++ flat_map (fun e => match e with Post r => [r] | _ => [] end) t2)%list.
Proof. unfold sent. cbn [trace]. apply flat_map_app. Qed.

Lemma sent_emit (e : Effect) (w : World) :
  sent (emit e w) = (sent w ++ match e with Post r => [r] | _ => [] end)%list.
Proof.
  unfold sent, emit. cbn [trace]. rewrite flat_map_app. cbn [flat_map].
  now rewrite app_nil_r.
Qed.

Lemma storage_writes_app (t1 t2 : list Effect) :
  storage_writes (t1 ++ t2) = (storage_writes t1 ++ storage_writes t2)%list.
Proof. apply flat_map_app. Qed.

End TraceFacts.

(** Running a handler: unfold the monad, the setters and the API calls. *)
Ltac run_handler :=
  cbv beta iota zeta delta
    [Browser.run mbind mret Browser.Eff_bind Browser.Eff_ret Browser.get_state
     Browser.set_state Browser.perform Browser.setItem Browser.navigate
     Browser.throw Browser.try_catch Browser.try_finally Browser.emit fst snd
     OTPModal.setIsOpen OTPModal.setPassword OTPModal.setIsLoading
     OTPModal.setIsResending OTPModal.setErrorMessage OTPModal.setSuccessMessage
     AuthForm.setIsLoading AuthForm.setErrorMessage AuthForm.setAccountData
     Api.post_AuthResponse Api.post_VerifyResponse Api.createUser Api.login
     Api.verifySignup Api.verifyLogin Api.resendOTP
     VerifyOTPRequest.to_json SignupRequest.to_json LoginRequest.to_json
     VerifyOTPRequest.email VerifyOTPRequest.otp SignupRequest.name
     SignupRequest.email LoginRequest.email
     Browser.localStorage Browser.trace
     OTPModal.isOpen OTPModal.password OTPModal.isLoading OTPModal.isResending
     OTPModal.errorMessage OTPModal.successMessage
     AuthForm.isLoading AuthForm.errorMessage AuthForm.accountData].

(** Replace a [catch] block by the one message it sets. *)
Ltac catch_message lemma :=
  match goal with
  | |- context [?catch ?error (?st, ?w)] =>
      let msg := fresh "msg" in
      let Hmsg := fresh "Hmsg" in
      let E := fresh "E" in
      destruct (lemma error st w) as (msg & Hmsg & E); rewrite E; clear E
  end.

Section OTPModalFacts.
Import JS Axios Browser Api AuthClaims.

Lemma first_truthy_nonempty (a : option string) (b c : string) :
  c <> "" -> OTPModal.first_truthy a b c <> "".
Proof.
  intros Hc. unfold OTPModal.first_truthy.
  destruct a as [x|]; [destruct (truthy x) eqn:Ex; [now apply truthy_true|]|];
    (destruct (truthy b) eqn:Eb; [now apply truthy_true | exact Hc]).
Qed.

(** The guard of [handleSubmit] lets through exactly the submittable
    inputs. *)
Lemma guard_submittable (props : OTPModal.Props) (st : OTPModal.State) :
  negb (truthy_opt (OTPModal.Email props)) || negb (truthy (OTPModal.password st))
  || negb (Nat.eqb (String.length (OTPModal.password st)) 6) = false
  <-> submittable props st.
Proof.
  unfold submittable. rewrite !orb_false_iff, !negb_false_iff, Nat.eqb_eq.
  split.
  - intros [[He _] Hl]. split; [|exact Hl].
    destruct (OTPModal.Email props) as [e|]; [|discriminate].
    exists e. split; [reflexivity | now apply truthy_true].
  - intros [[e [He Hne]] Hl]. rewrite He. cbn [truthy_opt].
    repeat split; [now apply truthy_true | | exact Hl].
    destruct (OTPModal.password st); [discriminate | reflexivity].
Qed.

(** The [catch] block only sets a non-empty error message. *)
Lemma handleSubmit_catch_sets_message (error : AxiosError) (st : OTPModal.State) (w : World) :
  exists msg, msg <> ""
    /\ OTPModal.handleSubmit_catch error (st, w)
       = OTPModal.setErrorMessage msg (st, w).
Proof.
  unfold OTPModal.handleSubmit_catch.
  destruct (truthy_opt (response_detail error)) eqn:Ed.
  { exists (default "" (response_detail error)). split; [|reflexivity].
    destruct (response_detail error) as [d|]; [|discriminate].
    now apply truthy_true. }
  repeat match goal with
         | |- context [if ?b then _ else _] =>
             destruct b; [eexists; split; [|reflexivity]; discriminate|]
         end.
  eexists. split; [|reflexivity]. now apply first_truthy_nonempty.
Qed.

(** What [handleSubmit] leaves behind, in its three cases. *)
Lemma handleSubmit_refused (api : Backend) (props : OTPModal.Props)
  (st : OTPModal.State) (w : World) :
  ~ submittable props st ->
  run (OTPModal.handleSubmit api props) st w
  = run (OTPModal.setErrorMessage "Please enter a valid 6-digit OTP") st w.
Proof.
  intros H. rewrite <- guard_submittable in H. apply not_false_is_true in H.
  unfold run, OTPModal.handleSubmit.
  unfold mbind at 1, Eff_bind at 1, get_state. cbv beta iota. cbn [fst].
  rewrite H. reflexivity.
Qed.

Lemma handleSubmit_verified (api : Backend) (props : OTPModal.Props)
  (st : OTPModal.State) (w : World) (v : VerifyResponse.t) :
  verified api props st w v ->
  run (OTPModal.handleSubmit api props) st w
  = ({| OTPModal.isOpen := OTPModal.isOpen st;
        OTPModal.password := OTPModal.password st;
        OTPModal.isLoading := false;
        OTPModal.isResending := OTPModal.isResending st;
        OTPModal.errorMessage := "";
        OTPModal.successMessage := "Verification successful! Redirecting..." |},
     {| localStorage :=
          <["token_type" := VerifyResponse.token_type v]>
            (<["access_token" := VerifyResponse.access_token v]> (localStorage w));
        trace :=
          (trace w
           ++ [Post (verification_request props st);
               SetItem "access_token" (VerifyResponse.access_token v);
               SetItem "token_type" (VerifyResponse.token_type v)]
           ++ (if OTPModal.onSuccess props
               then [Callback "onSuccess" [VerifyResponse.access_token v]] else [])
           ++ [SetTimeout "closeModal" 1500])%list |}).
Proof.
  intros [Hs Hv]. rewrite <- guard_submittable in Hs.
  unfold OTPModal.handleSubmit, verification_request in *.
  unfold run, mbind at 1, Eff_bind at 1, get_state. cbv beta iota. cbn [fst].
  rewrite Hs. clear Hs.
  destruct st as [o pw l r e s], w as [ls tr].
  cbn [OTPModal.password] in Hv.
  destruct (OTPModal.formtype props) as [[|]|]; run_handler; rewrite Hv;
    destruct (OTPModal.onSuccess props); cbv beta iota;
    rewrite <- ?app_assoc; reflexivity.
Qed.

Lemma handleSubmit_failed (api : Backend) (props : OTPModal.Props)
  (st : OTPModal.State) (w : World) (error : AxiosError) :
  submittable props st ->
  verify_reply api (sent w) (verification_request props st) = inl error ->
  exists msg, msg <> ""
    /\ run (OTPModal.handleSubmit api props) st w
       = ({| OTPModal.isOpen := OTPModal.isOpen st;
             OTPModal.password := OTPModal.password st;
             OTPModal.isLoading := false;
             OTPModal.isResending := OTPModal.isResending st;
             OTPModal.errorMessage := msg;
             OTPModal.successMessage := "" |},
          emit (Post (verification_request props st)) w).
Proof.
  intros Hs Hv. rewrite <- guard_submittable in Hs.
  unfold OTPModal.handleSubmit, verification_request in *.
  unfold run, mbind at 1, Eff_bind at 1, get_state. cbv beta iota. cbn [fst].
  rewrite Hs. clear Hs.
  destruct st as [o pw l r e s], w as [ls tr].
  cbn [OTPModal.password] in Hv.
  destruct (OTPModal.formtype props) as [[|]|]; run_handler; rewrite Hv;
    cbv beta iota; catch_message handleSubmit_catch_sets_message;
    exists msg; (split; [exact Hmsg | reflexivity]).
Qed.
Lemma submittable_dec (props : OTPModal.Props) (st : OTPModal.State) :
  submittable props st \/ ~ submittable props st.
Proof.
  rewrite <- guard_submittable.
  destruct (negb (truthy_opt (OTPModal.Email props))
            || negb (truthy (OTPModal.password st))
            || negb (Nat.eqb (String.length (OTPModal.password st)) 6));
    [right; discriminate | left; reflexivity].
Qed.

Lemma not_extended {A : Type} (l : list A) (a b : A) : l <> (l ++ [a; b])%list.
Proof.
  intros E. apply (f_equal (@length A)) in E.
  rewrite length_app in E. cbn [length] in E. lia.
Qed.

(** What [handleSubmit] does, by the outcome of the verification. *)
Lemma handleSubmit_cases (api : Backend) (props : OTPModal.Props)
  (st : OTPModal.State) (w : World) :
  let st' := fst (run (OTPModal.handleSubmit api props) st w) in
  let w' := snd (run (OTPModal.handleSubmit api props) st w) in
  (exists v, verified api props st w v /\ tokens_written w w' v
             /\ sent w' = (sent w ++ [verification_request props st])%list)
  \/ ((forall v, ~ verified api props st w v)
      /\ localStorage w' = localStorage w
      /\ storage_writes (trace w') = storage_writes (trace w)
      /\ OTPModal.errorMessage st' <> ""
      /\ (submittable props st ->
          sent w' = (sent w ++ [verification_request props st])%list)
      /\ (~ submittable props st ->
          trace w' = trace w
          /\ OTPModal.errorMessage st' = "Please enter a valid 6-digit OTP")).
Proof.
  intros st' w'. subst st' w'.
  destruct (submittable_dec props st) as [Hs|Hs].
  - destruct (verify_reply api (sent w) (verification_request props st))
      as [error|v] eqn:Hv.
    + right. destruct (handleSubmit_failed api props st w error Hs Hv)
        as (msg & Hmsg & ->).
      cbn [fst snd OTPModal.errorMessage]. rewrite sent_emit.
      unfold emit. cbn [localStorage trace].
      rewrite storage_writes_app. cbn [storage_writes flat_map].
      rewrite app_nil_r.
      split; [intros v [_ Hv']; rewrite Hv in Hv'; discriminate Hv'|].
      repeat split; try assumption; try reflexivity; tauto.
    + left. exists v. assert (Hver : verified api props st w v) by (split; assumption).
      rewrite (handleSubmit_verified api props st w v Hver). cbn [fst snd].
      split; [exact Hver | split; [split|]].
      * cbn [trace]. rewrite !storage_writes_app.
        destruct (OTPModal.onSuccess props); reflexivity.
      * reflexivity.
      * destruct w as [ls tr]. rewrite sent_app. cbn [trace].
        destruct (OTPModal.onSuccess props); reflexivity.
  - right. rewrite (handleSubmit_refused api props st w Hs).
    unfold run, OTPModal.setErrorMessage, set_state.
    cbn [fst snd OTPModal.errorMessage].
    split; [intros v [Hs' _]; tauto|].
    repeat split; try reflexivity; try discriminate; tauto.
Qed.

(** C2.  In the OTP step the access token and the token type are written
    to storage if and only if the verification request ([verifySignup] for
    signup, [verifyLogin] otherwise) returns successfully; when it fails
    nothing is written, the storage is unchanged and an error message is
    set. *)
Theorem tokens_written_iff_verified (api : Backend) (props : OTPModal.Props)
  (st : OTPModal.State) (w : World) :
  let st' := fst (run (OTPModal.handleSubmit api props) st w) in
  let w' := snd (run (OTPModal.handleSubmit api props) st w) in
  ((exists v, tokens_written w w' v) <-> (exists v, verified api props st w v))
  /\ (forall v, verified api props st w v -> tokens_written w w' v)
  /\ (forall error,
        submittable props st ->
        verify_reply api (sent w) (verification_request props st) = inl error ->
        storage_writes (trace w') = storage_writes (trace w)
        /\ localStorage w' = localStorage w
        /\ OTPModal.errorMessage st' <> "").
Proof.
  intros st' w'.
  destruct (handleSubmit_cases api props st w)
    as [(v & Hver & Hw & _) | (Hnot & Hls & Hsw & Hmsg & _)];
    fold st' in Hmsg || idtac; fold w' in Hw, Hls, Hsw || idtac.
  - split; [split; intros _; exists v; assumption | split].
    + intros v' [_ Hv']. destruct Hver as [_ Hv].
      rewrite Hv in Hv'. injection Hv' as <-. exact Hw.
    + intros error _ Herr. destruct Hver as [_ Hv].
      rewrite Hv in Herr. discriminate Herr.
  - split; [split | split].
    + intros [v [Hw _]]. fold w' in Hsw. rewrite Hsw in Hw.
      exfalso. exact (not_extended _ _ _ Hw).
    + intros [v Hv]. exfalso. exact (Hnot v Hv).
    + intros v Hv. exfalso. exact (Hnot v Hv).
    + intros error _ _. fold w' in Hsw, Hls. fold st' in Hmsg. auto.
Qed.

Lemma tokens_written_iff_verified_witness :
  tokens_written AuthSamples.world
    (snd (run (OTPModal.handleSubmit AuthSamples.backend AuthSamples.props)
            (AuthSamples.typed "123456") AuthSamples.world))
    {| VerifyResponse.access_token := "jwt-1"; VerifyResponse.token_type := "bearer" |}.
Proof.
  refine (proj1 (proj2 (tokens_written_iff_verified AuthSamples.backend
                          AuthSamples.props (AuthSamples.typed "123456")
                          AuthSamples.world)) _ _).
  split; [split; [exists "ada@example.org"; split; [reflexivity | discriminate]
                 | reflexivity]
         | reflexivity].
Defined.

(** C8.  [handleSubmit] sends a verification request only when the email
    is present and the passcode has length 6; otherwise it sends nothing,
    leaves the storage as it is and sets the error message "Please enter a
    valid 6-digit OTP".  The submit button is disabled while the passcode
    does not have length 6. *)
Theorem handleSubmit_guard (api : Backend) (props : OTPModal.Props)
  (st : OTPModal.State) (w : World) :
  let st' := fst (run (OTPModal.handleSubmit api props) st w) in
  let w' := snd (run (OTPModal.handleSubmit api props) st w) in
  (sent w' <> sent w -> submittable props st)
  /\ (~ submittable props st ->
      trace w' = trace w
      /\ sent w' = sent w
      /\ localStorage w' = localStorage w
      /\ OTPModal.errorMessage st' = "Please enter a valid 6-digit OTP")
  /\ (String.length (OTPModal.password st) <> 6%nat ->
      OTPModal.submit_disabled st = true).
Proof.
  intros st' w'.
  assert (Hrefused : ~ submittable props st ->
            trace w' = trace w /\ sent w' = sent w
            /\ localStorage w' = localStorage w
            /\ OTPModal.errorMessage st' = "Please enter a valid 6-digit OTP").
  { intros Hs. subst st' w'. rewrite (handleSubmit_refused api props st w Hs).
    repeat split. }
  split; [|split; [exact Hrefused|]].
  - intros Hsent. destruct (submittable_dec props st) as [Hs|Hs]; [exact Hs|].
    exfalso. apply Hsent. apply Hrefused, Hs.
  - intros Hlen. unfold OTPModal.submit_disabled.
    apply Nat.eqb_neq in Hlen. rewrite Hlen. apply orb_true_r.
Qed.

Lemma handleSubmit_guard_witness :
  OTPModal.errorMessage
    (fst (run (OTPModal.handleSubmit AuthSamples.backend AuthSamples.props)
            (AuthSamples.typed "0000") AuthSamples.world))
  = "Please enter a valid 6-digit OTP".
Proof.
  refine (proj2 (proj2 (proj2 (proj1 (proj2
            (handleSubmit_guard AuthSamples.backend AuthSamples.props
               (AuthSamples.typed "0000") AuthSamples.world)) _)))).
  intros [_ Hlen]. discriminate Hlen.
Defined.

(** C10.  A resend from the signup flow posts to [/signup] a body whose
    name is the constant "Resend", whatever full name was entered, with
    the email; from the login flow it posts the email alone to [/login].
    Without an email nothing is sent. *)
Theorem resend_sends_placeholder_name (api : Backend) (props : OTPModal.Props)
  (st : OTPModal.State) (w : World) :
  let w' := snd (run (OTPModal.handleResendOtp api props) st w) in
  (forall e, OTPModal.Email props = Some e -> e <> "" ->
     sent w' = (sent w ++ [resend_request (OTPModal.formtype props) e])%list
     /\ storage_writes (trace w') = storage_writes (trace w))
  /\ (truthy_opt (OTPModal.Email props) = false -> w' = w).
Proof.
  intros w'. subst w'. unfold run, OTPModal.handleResendOtp. split.
  - intros e He Hne. rewrite He. apply truthy_true in Hne.
    cbn [truthy_opt default id]. rewrite Hne. cbn [negb].
    destruct st as [o pw l r em s], w as [ls tr].
    destruct (OTPModal.formtype props) as [[|]|]; run_handler;
      match goal with
      | |- context [auth_reply ?api ?hist ?req] => destruct (auth_reply api hist req)
      end; cbv beta iota; cbn [fst snd resend_request];
      rewrite sent_app, storage_writes_app, app_nil_r; split; reflexivity.
  - intros ->. reflexivity.
Qed.

Lemma resend_sends_placeholder_name_witness :
  sent (snd (run (OTPModal.handleResendOtp AuthSamples.backend AuthSamples.props)
               (AuthSamples.typed "") AuthSamples.world))
  = (sent AuthSamples.world
     ++ [{| url := "/signup";
            body := [("name", "Resend"); ("email", "ada@example.org")] |}])%list.
Proof.
  refine (proj1 (proj1 (resend_sends_placeholder_name AuthSamples.backend
                          AuthSamples.props (AuthSamples.typed "")
                          AuthSamples.world) "ada@example.org" eq_refl _)).
  discriminate.
Defined.

End OTPModalFacts.

Section AuthFormFacts.
Import JS Axios Browser Api AuthClaims.

(** The [catch] block of [onSubmit] only sets a non-empty error message. *)
Lemma onSubmit_catch_sets_message (type : formType) (error : AxiosError)
  (st : AuthForm.State) (w : World) :
  exists msg, msg <> ""
    /\ AuthForm.onSubmit_catch type error (st, w)
       = AuthForm.setErrorMessage msg (st, w).
Proof.
  unfold AuthForm.onSubmit_catch.
  destruct (truthy_opt (response_detail error)) eqn:Ed.
  { exists (default "" (response_detail error)). split; [|reflexivity].
    destruct (response_detail error) as [d|]; [|discriminate].
    now apply truthy_true. }
  repeat match goal with
         | |- context [if ?b then _ else _] =>
             destruct b; [eexists; split; [|reflexivity]; discriminate|]
         end.
  eexists. split; [|reflexivity]. discriminate.
Qed.

(** The request [onSubmit] sends is the credential request. *)
Lemma onSubmit_request (api : Backend) (type : formType) (values : AuthForm.Values) :
  (if is_signup type && truthy_opt (AuthForm.FullName values)
   then createUser (C := AuthForm.State) api
          {| SignupRequest.name := default "" (AuthForm.FullName values);
             SignupRequest.email := AuthForm.Email values |}
   else login api {| LoginRequest.email := AuthForm.Email values |})
  = post_AuthResponse api (url (credential_request type values))
      (body (credential_request type values))
    ≫= mret.
Proof.
  unfold credential_request.
  destruct type, (AuthForm.FullName values) as [[|c n]|]; reflexivity.
Qed.

Lemma onSubmit_accepted (api : Backend) (type : formType) (values : AuthForm.Values)
  (st : AuthForm.State) (w : World) (r : AuthResponse.t) :
  auth_reply api (sent w) (credential_request type values) = inr r ->
  run (AuthForm.onSubmit api type values) st w
  = ({| AuthForm.isLoading := false;
        AuthForm.errorMessage := "";
        AuthForm.accountData :=
          Some {| AuthForm.accountId := AuthResponse.account_id r;
                  AuthForm.email := AuthForm.Email values;
                  AuthForm.fullName := AuthForm.FullName values |} |},
     emit (Post (credential_request type values)) w).
Proof.
  intros Hr. unfold AuthForm.onSubmit. rewrite onSubmit_request.
  destruct st as [l e a], w as [ls tr], (credential_request type values) as [u b].
  run_handler. cbn [url body]. rewrite Hr. reflexivity.
Qed.

Lemma onSubmit_rejected (api : Backend) (type : formType) (values : AuthForm.Values)
  (st : AuthForm.State) (w : World) (error : AxiosError) :
  auth_reply api (sent w) (credential_request type values) = inl error ->
  exists msg, msg <> ""
    /\ run (AuthForm.onSubmit api type values) st w
       = ({| AuthForm.isLoading := false;
             AuthForm.errorMessage := msg;
             AuthForm.accountData := AuthForm.accountData st |},
          emit (Post (credential_request type values)) w).
Proof.
  intros Hr. unfold AuthForm.onSubmit. rewrite onSubmit_request.
  destruct st as [l e a], w as [ls tr], (credential_request type values) as [u b].
  run_handler. cbn [url body]. rewrite Hr. cbv beta iota.
  catch_message (onSubmit_catch_sets_message type).
  exists msg. split; [exact Hmsg | reflexivity].
Qed.

(** C4.  [onSubmit] sends one credential request: [createUser] with the
    name and the email for signup with a non-empty full name, [login] with
    the email otherwise.  When it succeeds the OTP modal is rendered with
    the [account_id] of the response; when it fails the modal state is left
    as it was and an error message is set.  So from a closed modal, the
    modal opens if and only if the credential request succeeds. *)
Theorem modal_opens_iff_credentials_accepted (api : Backend) (type : formType)
  (values : AuthForm.Values) (st : AuthForm.State) (w : World) :
  let req := credential_request type values in
  let st' := fst (run (AuthForm.onSubmit api type values) st w) in
  let w' := snd (run (AuthForm.onSubmit api type values) st w) in
  trace w' = (trace w ++ [Post req])%list
  /\ (forall r, auth_reply api (sent w) req = inr r ->
        AuthForm.renderedModal type st'
        = Some {| OTPModal.Email := Some (AuthForm.Email values);
                  OTPModal.AccountId := Some (AuthResponse.account_id r);
                  OTPModal.formtype := Some type;
                  OTPModal.fullName := AuthForm.FullName values;
                  OTPModal.onSuccess := true;
                  OTPModal.onClose := true |})
  /\ (forall error, auth_reply api (sent w) req = inl error ->
        AuthForm.accountData st' = AuthForm.accountData st
        /\ AuthForm.errorMessage st' <> "")
  /\ (AuthForm.accountData st = None ->
      (AuthForm.renderedModal type st' <> None
       <-> exists r, auth_reply api (sent w) req = inr r)).
Proof.
  intros req st' w'. subst req st' w'.
  destruct (auth_reply api (sent w) (credential_request type values))
    as [error|r] eqn:Hr.
  - destruct (onSubmit_rejected api type values st w error Hr) as (msg & Hmsg & ->).
    cbn [fst snd]. split; [reflexivity | split; [discriminate | split]].
    + intros error' _. split; [reflexivity | exact Hmsg].
    + intros Hclosed. unfold AuthForm.renderedModal. cbn [AuthForm.accountData].
      rewrite Hclosed. split; [congruence | intros [r' H]; discriminate H].
  - rewrite (onSubmit_accepted api type values st w r Hr).
    cbn [fst snd]. split; [reflexivity | split; [|split]].
    + intros r' [= <-]. reflexivity.
    + discriminate.
    + intros _. split; [intros _; exists r; reflexivity | discriminate].
Qed.

Lemma modal_opens_iff_credentials_accepted_witness :
  AuthForm.renderedModal signup
    (fst (run (AuthForm.onSubmit AuthSamples.backend signup AuthSamples.values)
            AuthForm.initialState AuthSamples.world))
  <> None.
Proof.
  refine (proj2 (proj2 (proj2 (proj2 (modal_opens_iff_credentials_accepted
            AuthSamples.backend signup AuthSamples.values AuthForm.initialState
            AuthSamples.world))) eq_refl) _).
  eexists. reflexivity.
Defined.

End AuthFormFacts.

Section PrivateRouteFacts.
Import JS Browser.

(** C9.  [PrivateRoute] renders the outlet, and the router shows the
    dashboard at [/dashboard], if and only if local storage holds a
    non-empty [access_token]; without a token it renders nothing and its
    effect navigates to [/signin], replacing the history entry. *)
Theorem private_route_guard (w : World) :
  (PrivateRoute.render w = PrivateRoute.Outlet
   <-> exists t, localStorage w !! "access_token" = Some t /\ t <> "")
  /\ (App.route "/dashboard" w = Some App.Hero
      <-> exists t, localStorage w !! "access_token" = Some t /\ t <> "")
  /\ (localStorage w !! "access_token" = None ->
      PrivateRoute.render w = PrivateRoute.null
      /\ App.route "/dashboard" w = None
      /\ run (PrivateRoute.effect w) tt w
         = (tt, emit (Navigate "/signin" true) w)).
Proof.
  assert (Hr : PrivateRoute.render w = PrivateRoute.Outlet
               <-> exists t, localStorage w !! "access_token" = Some t /\ t <> "").
  { unfold PrivateRoute.render, PrivateRoute.token.
    destruct (localStorage w !! "access_token") as [t|]; cbn [truthy_opt].
    - destruct (truthy t) eqn:Et.
      + split; [intros _; exists t; split; [reflexivity | now apply truthy_true]
               | reflexivity].
      + apply truthy_false in Et. subst t.
        split; [discriminate | intros [t [[= <-] Hne]]; congruence].
    - split; [discriminate | intros [t [H _]]; discriminate]. }
  split; [exact Hr | split].
  - rewrite <- Hr.
    change (App.route "/dashboard" w)
      with (match PrivateRoute.render w with
            | PrivateRoute.Outlet => Some App.Hero
            | PrivateRoute.null => None
            end).
    destruct (PrivateRoute.render w); split; congruence.
  - intros Hnone. unfold App.route, PrivateRoute.render, PrivateRoute.effect,
      PrivateRoute.token. rewrite Hnone. repeat split.
Qed.

Lemma private_route_guard_witness :
  PrivateRoute.render AuthSamples.world = PrivateRoute.null
  /\ App.route "/dashboard" AuthSamples.world = None
  /\ run (PrivateRoute.effect AuthSamples.world) tt AuthSamples.world
     = (tt, emit (Navigate "/signin" true) AuthSamples.world).
Proof.
  exact (proj2 (proj2 (private_route_guard AuthSamples.world)) eq_refl).
Defined.

End PrivateRouteFacts.

(* ================================================================== *)
(** * More about the dashboard *)
(* ================================================================== *)

Section DashboardMore.
Import JS Dashboard Stages Claims DashboardUI.

Lemma filter_twice {A : Type} (f g : A -> bool) (l : list A) :
  List.filter f (List.filter g l) = List.filter (fun x => g x && f x) l.
Proof.
  induction l as [|x l IH]; [reflexivity|].
  cbn [List.filter]. destruct (g x); cbn [List.filter andb]; now rewrite IH.
Qed.

Lemma when_as_filter {A : Type} (b : bool) (f : A -> bool) (l : list A) :
  when b f l = List.filter (fun x => implb b (f x)) l.
Proof. destruct b; cbn [when implb]; [reflexivity | now rewrite filter_all]. Qed.

(** Stages 1 and 2 are one filter over the loaded repositories. *)
Lemma advanced_as_filter (h : Host) (st : State) :
  exists keep : Repository -> bool,
    advanced h st = List.filter keep (repositories st).
Proof.
  unfold advanced. cbv zeta. rewrite !when_as_filter, !filter_twice.
  destruct (recentActivity (filters st)); rewrite ?filter_twice; eexists; reflexivity.
Qed.

Lemma filter_length_le {A : Type} (f : A -> bool) (l : list A) :
  (length (List.filter f l) <= length l)%nat.
Proof.
  induction l as [|x l IH]; [apply Nat.le_refl|].
  cbn [List.filter]. destruct (f x); cbn [length]; lia.
Qed.

Lemma filter_no_quick (fd : Host -> option string -> string) (h : Host)
  (l : list Repository) :
  List.filter (quickPredicate fd h "") l = l.
Proof.
  rewrite (List.filter_ext _ (fun _ => true) (quickPredicate_none fd h)).
  apply filter_all.
Qed.

(** Every list the dashboard shows is, up to order, a filter of the loaded
    repositories: nothing is invented or shown twice, and the counter
    "Showing n of m" has [n <= m]. *)
Theorem shown_is_a_selection_of_loaded (h : Host) (st : State) :
  exists keep : Repository -> bool,
    Permutation (DashboardV1.filteredRepositories h st)
                (List.filter keep (repositories st))
    /\ Permutation (DashboardV2.filteredRepositories h st)
                   (List.filter keep (repositories st))
    /\ 0 <= fst (counter (DashboardV2.filteredRepositories h st) (repositories st))
         <= snd (counter (DashboardV2.filteredRepositories h st) (repositories st)).
Proof.
  destruct (advanced_as_filter h st) as [keep Hkeep].
  exists (fun p => keep p
                   && quickPredicate DashboardV2.formatDate h (activeQuickFilter st) p).
  assert (H2 : Permutation (DashboardV2.filteredRepositories h st)
                 (List.filter
                    (fun p => keep p
                       && quickPredicate DashboardV2.formatDate h
                            (activeQuickFilter st) p)
                    (repositories st))).
  { rewrite V2_stages, <- filter_twice, <- Hkeep.
    destruct (activeQuickFilter st) as [|c label] eqn:E; cbn [truthy].
    - rewrite filter_no_quick. apply defaultSort_perm.
    - unfold quickV2. apply ordered_perm. }
  split; [|split; [exact H2|]].
  - rewrite V1_stages, <- filter_twice, <- Hkeep.
    destruct (activeQuickFilter st) as [|c label] eqn:E; cbn [truthy].
    + rewrite filter_no_quick. apply defaultSort_perm.
    + unfold quickV1. rewrite formatDate_variants. apply ordered_perm.
  - unfold counter. cbn [fst snd]. rewrite (Permutation_length H2).
    pose proof (filter_length_le
                  (fun p => keep p
                     && quickPredicate DashboardV2.formatDate h
                          (activeQuickFilter st) p) (repositories st)).
    lia.
Qed.

(** *** The pristine state *)

Lemma quoteChar_not_quote (c : ascii) (rest : string) :
  exists c' s, (quoteChar c ++ rest)%string = String c' s /\ c' <> dquote.
Proof.
  destruct c as [[] [] [] [] [] [] [] []];
    eexists; eexists; (split; [reflexivity | discriminate]).
Qed.

Lemma string_app_cons (x : ascii) (a b : string) :
  (String x a ++ b)%string = String x (a ++ b).
Proof. reflexivity. Qed.

Lemma string_app_assoc (a b c : string) :
  ((a ++ b) ++ c)%string = (a ++ (b ++ c))%string.
Proof.
  induction a as [|x a IH]; [reflexivity|].
  rewrite !string_app_cons. now rewrite IH.
Qed.

(** Where a closing quote is read, the quoted string has ended. *)
Lemma quoteChars_closed (s rest rest' : string) :
  (quoteChars s ++ String dquote rest)%string = String dquote rest' ->
  s = "" /\ rest = rest'.
Proof.
  destruct s as [|c s].
  - intros [= E]. split; [reflexivity | exact E].
  - intros E. exfalso.
    change (quoteChars (String c s)) with (quoteChar c ++ quoteChars s)%string in E.
    rewrite string_app_assoc in E.
    destruct (quoteChar_not_quote c (quoteChars s ++ String dquote rest))
      as (c' & s' & E' & Hc').
    rewrite E' in E. injection E as E1 _. contradiction.
Qed.

Lemma QuoteJSONString_empty (s rest rest' : string) :
  (QuoteJSONString s ++ rest)%string = (QuoteJSONString "" ++ rest')%string ->
  s = "" /\ rest = rest'.
Proof.
  unfold QuoteJSONString. rewrite !string_app_cons, !string_app_assoc.
  intros [= E]. exact (quoteChars_closed s rest rest' E).
Qed.

(** Only the initial filters stringify to what the initial filters do. *)
Lemma stringify_initial (f : Filters) :
  stringify f = stringify initialFilters <-> f = initialFilters.
Proof.
  split; [|now intros ->].
  destruct f as [lang minS ra sb]. unfold stringify, initialFilters.
  cbn [language minStars recentActivity sortBy].
  intros E.
  do 3 apply String.app_inj in E.
  apply QuoteJSONString_empty in E as [-> E].
  do 3 apply String.app_inj in E.
  apply QuoteJSONString_empty in E as [-> E].
  destruct ra, sb; vm_compute in E; try discriminate E; reflexivity.
Qed.

(** The "Clear All Filters" control is shown unless the state is pristine:
    no search term, no quick filter, the initial filters. *)
Lemma areFiltersActive_false (st : State) :
  areFiltersActive st = false
  <-> searchTerm st = "" /\ activeQuickFilter st = "" /\ filters st = initialFilters.
Proof.
  unfold areFiltersActive.
  rewrite !orb_false_iff, negb_false_iff, String.eqb_eq, stringify_initial,
    !truthy_false.
  tauto.
Qed.

Lemma advanced_pristine (h : Host) (st : State) :
  searchTerm st = "" -> filters st = initialFilters ->
  advanced h st = repositories st.
Proof. intros Hs Hf. unfold advanced. rewrite Hs, Hf. reflexivity. Qed.

(** When the "Clear All Filters" control is hidden, and so after every
    click on it, both variants show every loaded repository, sorted by
    descending stars: the list the first variant starts with, and a counter
    "Showing m of m". *)
Theorem pristine_state_shows_everything (h : Host) (st : State) :
  (areFiltersActive st = false ->
   DashboardV2.filteredRepositories h st = sort byStars (repositories st)
   /\ DashboardV1.filteredRepositories h st
      = initialFilteredRepositories (repositories st)
   /\ fst (counter (DashboardV2.filteredRepositories h st) (repositories st))
      = snd (counter (DashboardV2.filteredRepositories h st) (repositories st)))
  /\ areFiltersActive (DashboardV2.handleClearFilters st) = false
  /\ areFiltersActive (DashboardV1.handleClearFilters st) = false
  /\ repositories (DashboardV2.handleClearFilters st) = repositories st.
Proof.
  split; [|repeat split].
  intros Hp. apply areFiltersActive_false in Hp as (Hs & Hq & Hf).
  rewrite V1_stages, V2_stages, Hq, (advanced_pristine h st Hs Hf), Hf.
  cbn [truthy sortBy initialFilters defaultSort].
  split; [reflexivity | split; [reflexivity|]].
  unfold counter. cbn [fst snd].
  now rewrite (Permutation_length (sort_perm byStars (repositories st))).
Qed.

Lemma pristine_state_shows_everything_witness :
  DashboardV2.filteredRepositories Samples.host
    (DashboardV2.handleClearFilters Samples.searchState)
  = sort byStars (repositories (DashboardV2.handleClearFilters Samples.searchState)).
Proof.
  exact (proj1 (proj1 (pristine_state_shows_everything Samples.host
                         (DashboardV2.handleClearFilters Samples.searchState))
                  eq_refl)).
Defined.

End DashboardMore.

Section DashboardNarrowing.
Import JS Dashboard Stages Claims DashboardUI.

Lemma lower_char_idempotent (c : ascii) : lower_char (lower_char c) = lower_char c.
Proof. destruct c as [[] [] [] [] [] [] [] []]; reflexivity. Qed.

Lemma toLowerCase_idempotent (s : string) : toLowerCase (toLowerCase s) = toLowerCase s.
Proof.
  induction s as [|c s IH]; [reflexivity|].
  cbn [toLowerCase]. now rewrite lower_char_idempotent, IH.
Qed.

Lemma occurs_in_trans (a b c : string) :
  occurs_in a b -> occurs_in b c -> occurs_in a c.
Proof.
  intros (p1 & q1 & ->) (p2 & q2 & ->).
  exists (p2 ++ p1)%string, (q1 ++ q2)%string.
  now rewrite !string_app_assoc.
Qed.

Lemma includes_narrower (s a b : string) :
  occurs_in a b -> includes s b = true -> includes s a = true.
Proof.
  rewrite !includes_occurs. intros Hab Hb. exact (occurs_in_trans a b s Hab Hb).
Qed.

(** A repository found with a term is found with every part of the term. *)
Lemma matchesSearch_narrower (a b : string) (p : Repository) :
  occurs_in a b -> matchesSearch b p = true -> matchesSearch a p = true.
Proof.
  intros Hab. unfold matchesSearch. rewrite !orb_true_iff.
  intros [[[H|H]|H]|H].
  - left; left; left. exact (includes_narrower _ a b Hab H).
  - left; left; right. destruct (description p) as [d|]; [|discriminate].
    apply andb_true_iff in H as [Hd H]. rewrite Hd.
    exact (includes_narrower _ a b Hab H).
  - left; right. exact (includes_narrower _ a b Hab H).
  - right. apply existsb_exists in H as (t & Hin & H). apply existsb_exists.
    exists t. split; [exact Hin | exact (includes_narrower _ a b Hab H)].
Qed.

Lemma advanced_search_only_lowercased (h : Host) (st : State) (t t' : string) :
  toLowerCase t = toLowerCase t' ->
  advanced h (setSearchTerm t st) = advanced h (setSearchTerm t' st).
Proof.
  intros E. unfold advanced, setSearchTerm. cbn [searchTerm repositories filters].
  now rewrite E.
Qed.

(** The search ignores the case of the term, and extending the term never
    adds a repository to the list. *)
Theorem search_ignores_case_and_narrows (h : Host) (st : State) (t t' : string) :
  (toLowerCase t = toLowerCase t' ->
   DashboardV1.filteredRepositories h (setSearchTerm t st)
   = DashboardV1.filteredRepositories h (setSearchTerm t' st)
   /\ DashboardV2.filteredRepositories h (setSearchTerm t st)
      = DashboardV2.filteredRepositories h (setSearchTerm t' st))
  /\ DashboardV2.filteredRepositories h (setSearchTerm (toLowerCase t) st)
     = DashboardV2.filteredRepositories h (setSearchTerm t st)
  /\ (occurs_in (toLowerCase t) (toLowerCase t') ->
      forall p,
        (In p (DashboardV1.filteredRepositories h (setSearchTerm t' st)) ->
         In p (DashboardV1.filteredRepositories h (setSearchTerm t st)))
        /\ (In p (DashboardV2.filteredRepositories h (setSearchTerm t' st)) ->
            In p (DashboardV2.filteredRepositories h (setSearchTerm t st)))).
Proof.
  assert (Hcase : forall a b, toLowerCase a = toLowerCase b ->
            DashboardV1.filteredRepositories h (setSearchTerm a st)
            = DashboardV1.filteredRepositories h (setSearchTerm b st)
            /\ DashboardV2.filteredRepositories h (setSearchTerm a st)
               = DashboardV2.filteredRepositories h (setSearchTerm b st)).
  { intros a b E. rewrite !V1_stages, !V2_stages.
    rewrite (advanced_search_only_lowercased h st a b E). split; reflexivity. }
  split; [apply Hcase | split].
  - apply Hcase, toLowerCase_idempotent.
  - intros Hocc p.
    assert (Hadv : In p (advanced h (setSearchTerm t' st)) ->
                   In p (advanced h (setSearchTerm t st))).
    { rewrite !advanced_In. cbn [setSearchTerm searchTerm repositories filters].
      intros (Hin & Hs & Hrest). split; [exact Hin | split; [|exact Hrest]].
      intros Ht. apply (matchesSearch_narrower _ _ p Hocc). apply Hs.
      apply truthy_true. intros E. rewrite E in Hocc.
      apply truthy_true in Ht. exact (occurs_in_empty _ Ht Hocc). }
    rewrite !filteredV1_In, !filteredV2_In.
    cbn [setSearchTerm activeQuickFilter]. tauto.
Qed.

Lemma search_ignores_case_and_narrows_witness :
  DashboardV2.filteredRepositories Samples.host
    (setSearchTerm "REACT" Samples.searchState)
  = DashboardV2.filteredRepositories Samples.host
      (setSearchTerm "react" Samples.searchState).
Proof.
  exact (proj2 (proj1 (search_ignores_case_and_narrows Samples.host
                         Samples.searchState "REACT" "react") eq_refl)).
Defined.

(** *** Widening a filter *)

Lemma committedAfter_earlier (h : Host) (c c' : Z) (p : Repository) :
  c' <= c ->
  committedAfter h (Some c) p = true -> committedAfter h (Some c') p = true.
Proof.
  intros Hc. unfold committedAfter.
  destruct (lastCommitDate (health p)) as [s|]; [|discriminate].
  rewrite !andb_true_iff. intros [Hs H]. split; [exact Hs|].
  destruct (new_Date_of h s) as [t|]; [|discriminate].
  cbn [num_gt] in *. apply Z.ltb_lt in H. apply Z.ltb_lt. lia.
Qed.

(** Turning the quick filter off, widening the activity window and
    lowering or removing the star minimum never remove a repository from
    the list.  The 30-day cutoff lies before the 7-day cutoff in every
    time zone whose offsets differ by at most a day, a fixed offset
    included. *)
Theorem widening_never_removes (h : Host) (st : State) (p : Repository) :
  0 <= Date_now h <= maxTime ->
  offsets_vary_by h msPerDay ->
  In p (DashboardV2.filteredRepositories h st) ->
  In p (DashboardV2.filteredRepositories h
          (DashboardV2.handleQuickFilterClick (activeQuickFilter st) st))
  /\ (recentActivity (filters st) = week ->
      In p (DashboardV2.filteredRepositories h
              (DashboardV2.handleFilterChange (input_recentActivity month) st)))
  /\ In p (DashboardV2.filteredRepositories h
             (DashboardV2.handleFilterChange (input_recentActivity any) st))
  /\ In p (DashboardV2.filteredRepositories h
             (DashboardV2.handleFilterChange (input_minStars "") st))
  /\ (forall m a b,
        parseInt (minStars (filters st)) = Some a -> parseInt m = Some b -> b <= a ->
        In p (DashboardV2.filteredRepositories h
                (DashboardV2.handleFilterChange (input_minStars m) st))).
Proof.
  intros Hnow Hv. rewrite !filteredV2_In, !advanced_In.
  cbn [DashboardV2.handleQuickFilterClick DashboardV2.handleFilterChange set_filter
       repositories searchTerm filters activeQuickFilter language minStars
       recentActivity sortBy truthy].
  rewrite String.eqb_refl, !quickPredicate_none.
  intros [(Hin & Hs & Hl & Hm & Ha) Hq].
  repeat split; try assumption; try discriminate.
  - match goal with Hw : recentActivity _ = week |- _ => rewrite Hw in Ha end.
    rewrite (cutoffDate_value h 7 Hnow Hv) in Ha by lia.
    rewrite (cutoffDate_value h 30 Hnow Hv) by lia.
    apply (committedAfter_earlier h (same_time_days_ago h 7)); [|exact Ha].
    pose proof (same_time_days_ago_near h 7 msPerDay Hv).
    pose proof (same_time_days_ago_near h 30 msPerDay Hv).
    unfold msPerDay in *. lia.
  - intros m a b Hpa Hpb Hle. rewrite filteredV2_In, advanced_In.
    cbn [DashboardV2.handleFilterChange set_filter repositories searchTerm filters
         activeQuickFilter language minStars recentActivity sortBy].
    rewrite quickPredicate_none.
    repeat split; try assumption.
    intros _. unfold matchesMinStars in *.
    destruct (truthy (minStars (filters st))) eqn:Et.
    + specialize (Hm eq_refl). rewrite Hpa in Hm. rewrite Hpb.
      cbn [num_ge] in *. apply Z.leb_le in Hm. apply Z.leb_le. lia.
    + apply truthy_false in Et. rewrite Et in Hpa. discriminate Hpa.
Qed.

Lemma widening_never_removes_witness :
  In Samples.react
    (DashboardV2.filteredRepositories Samples.host
       (DashboardV2.handleFilterChange (input_recentActivity month) Samples.searchState)).
Proof.
  refine (proj1 (proj2 (widening_never_removes Samples.host Samples.searchState
                          Samples.react _ _ _)) eq_refl).
  - vm_compute. split; discriminate.
  - intros t t' b b'. vm_compute. discriminate.
  - vm_compute. left. reflexivity.
Defined.

(** A star minimum that does not begin with a number, as ".5" does not,
    hides every repository: the list view shows the "no results" panel. *)
Theorem unparsable_minimum_hides_everything (h : Host) (st : State) :
  minStars (filters st) <> "" ->
  parseInt (minStars (filters st)) = NaN ->
  DashboardV1.filteredRepositories h st = []
  /\ DashboardV2.filteredRepositories h st = []
  /\ listView false (DashboardV2.filteredRepositories h st) = NoResults.
Proof.
  intros Hset Hnan.
  cut (DashboardV1.filteredRepositories h st = []
       /\ DashboardV2.filteredRepositories h st = []).
  { intros [H1 H2]. rewrite H1, H2. repeat split. }
  assert (Hadv : advanced h st = []).
  { destruct (advanced h st) as [|p l] eqn:E; [reflexivity|].
    assert (Hin : In p (advanced h st)) by (rewrite E; left; reflexivity).
    apply advanced_In in Hin as (_ & _ & _ & Hm & _).
    apply truthy_true in Hset. specialize (Hm Hset).
    unfold matchesMinStars in Hm. rewrite Hnan in Hm. discriminate Hm. }
  assert (H1 : forall l, Permutation l [] -> l = [] :> list Repository).
  { intros l Hl. apply Permutation_sym, Permutation_nil in Hl. exact Hl. }
  split; apply H1.
  - rewrite V1_stages, Hadv. destruct (truthy (activeQuickFilter st)).
    + unfold quickV1. cbn [List.filter]. apply ordered_perm.
    + apply defaultSort_perm.
  - rewrite V2_stages, Hadv. destruct (truthy (activeQuickFilter st)).
    + unfold quickV2. cbn [List.filter]. apply ordered_perm.
    + apply defaultSort_perm.
Qed.

Lemma unparsable_minimum_hides_everything_witness :
  DashboardV2.filteredRepositories Samples.host
    (DashboardV2.handleFilterChange (input_minStars ".5") Samples.searchState) = [].
Proof.
  refine (proj1 (proj2 (unparsable_minimum_hides_everything Samples.host
                   (DashboardV2.handleFilterChange (input_minStars ".5")
                      Samples.searchState) _ eq_refl))).
  discriminate.
Defined.

End DashboardNarrowing.

Section DashboardDates.
Import JS Dashboard Stages Claims DashboardUI.

Lemma string_length_app (a b : string) :
  String.length (a ++ b) = (String.length a + String.length b)%nat.
Proof.
  induction a as [|x a IH]; [reflexivity|].
  rewrite string_app_cons. cbn [String.length]. now rewrite IH.
Qed.

(** None of the "... ago" texts is "Today". *)
Lemma ago_not_today (n : string) (unit : string) :
  (6 <= String.length unit)%nat -> (n ++ unit)%string <> "Today".
Proof.
  intros Hlen E. apply (f_equal String.length) in E.
  rewrite string_length_app in E. cbn [String.length] in E. lia.
Qed.

Lemma formatDate_today (h : Host) (s : string) :
  s <> "" ->
  DashboardV2.formatDate h (Some s) = "Today"
  <-> exists t, new_Date_of h s = Some t /\ (Date_now h - t) / msPerDay = 0.
Proof.
  intros Hs. destruct (new_Date_of h s) as [t|] eqn:Et.
  - rewrite (formatDate_of_date h s t Hs Et). cbv zeta.
    destruct ((Date_now h - t) / msPerDay =? 0) eqn:E0.
    + apply Z.eqb_eq in E0. split; [intros _; exists t; auto | reflexivity].
    + apply Z.eqb_neq in E0. split.
      * intros H. exfalso. revert H.
        repeat match goal with
               | |- context [if ?b then _ else _] => destruct b
               end; try discriminate; apply ago_not_today; cbn; lia.
      * intros [t' [[= <-] H]]. contradiction.
  - split; [|intros [t [H _]]; discriminate H].
    unfold DashboardV2.formatDate. destruct s; [congruence|].
    cbn [truthy negb]. rewrite Et. discriminate.
Qed.

Lemma whole_days_zero (x : Z) : x / msPerDay = 0 <-> 0 <= x < msPerDay.
Proof.
  unfold msPerDay. split; intros H.
  - pose proof (Z.div_mod x 86400000 ltac:(lia)).
    pose proof (Z.mod_pos_bound x 86400000 ltac:(lia)). lia.
  - apply Z.div_small. exact H.
Qed.

(** The quick filter "Active Today" keeps the repositories whose last
    commit lies in the 24 hours before now (not: on today's date). *)
Theorem active_today_is_last_24_hours (h : Host) (st : State) (p : Repository) :
  Date_parse h "" = NaN ->
  activeQuickFilter st = ActiveToday ->
  In p (DashboardV2.filteredRepositories h st)
  <-> In p (advanced h st)
      /\ exists s t, lastCommitDate (health p) = Some s
                     /\ new_Date_of h s = Some t
                     /\ 0 <= Date_now h - t < msPerDay.
Proof.
  intros Hparse Hq. rewrite filteredV2_In, Hq.
  change (quickPredicate DashboardV2.formatDate h ActiveToday p)
    with (isActiveToday DashboardV2.formatDate h p).
  unfold isActiveToday. rewrite andb_true_iff, String.eqb_eq.
  destruct (lastCommitDate (health p)) as [s|]; cbn [truthy_opt].
  - destruct s as [|c s].
    + split; [intros [_ [H _]]; discriminate H|].
      intros [_ (s & t & [= <-] & Ht & _)].
      unfold new_Date_of in Ht. rewrite Hparse in Ht. discriminate Ht.
    + rewrite formatDate_today by discriminate. cbn [truthy].
      split.
      * intros [Hin [_ (t & Ht & Hd)]]. split; [exact Hin|].
        exists (String c s), t. apply whole_days_zero in Hd. auto.
      * intros [Hin (s' & t & [= <-] & Ht & Hd)]. split; [exact Hin|].
        split; [reflexivity|]. exists t. split; [exact Ht|].
        apply whole_days_zero. exact Hd.
  - split; [intros [_ [H _]]; discriminate H|].
    intros [_ (s & t & H & _)]. discriminate H.
Qed.

Lemma active_today_is_last_24_hours_witness :
  In Samples.react
    (DashboardV2.filteredRepositories Samples.host
       (Samples.state [Samples.react; Samples.lobsters] "" initialFilters ActiveToday)).
Proof.
  refine (proj2 (active_today_is_last_24_hours Samples.host
                   (Samples.state [Samples.react; Samples.lobsters] ""
                      initialFilters ActiveToday)
                   Samples.react eq_refl eq_refl) _).
  split; [left; reflexivity|].
  exists "2024-02-29T07:30:00.000Z", 1709191800000.
  split; [reflexivity | split; [vm_compute; reflexivity|]].
  vm_compute. split; [discriminate | reflexivity].
Defined.

(** [formatDate] off the beaten track: the empty string reads "N/A"; a
    string that is not a date reads "NaN months ago"; a date in the future
    reads as a negative number of "days ago". *)
Theorem formatDate_edge_cases (h : Host) (s : string) :
  s <> "" ->
  DashboardV2.formatDate h (Some "") = "N/A"
  /\ (new_Date_of h s = NaN ->
      DashboardV2.formatDate h (Some s) = "NaN months ago")
  /\ (forall t, new_Date_of h s = Some t -> Date_now h < t ->
      (Date_now h - t) / msPerDay < 0
      /\ DashboardV2.formatDate h (Some s)
         = (Z_to_string ((Date_now h - t) / msPerDay) ++ " days ago")%string).
Proof.
  intros Hs. split; [reflexivity | split].
  - intros Hnan. unfold DashboardV2.formatDate.
    destruct s; [congruence|]. cbn [truthy negb]. rewrite Hnan. reflexivity.
  - intros t Ht Hlt.
    assert (Hd : (Date_now h - t) / msPerDay < 0).
    { apply Z.div_lt_upper_bound; unfold msPerDay; lia. }
    split; [exact Hd|].
    rewrite (formatDate_of_date h s t Hs Ht). cbv zeta.
    destruct (_ =? 0) eqn:E0; [apply Z.eqb_eq in E0; lia|].
    destruct (_ =? 1) eqn:E1; [apply Z.eqb_eq in E1; lia|].
    destruct (_ <? 7) eqn:E7; [reflexivity | apply Z.ltb_ge in E7; lia].
Qed.

Lemma formatDate_edge_cases_witness :
  DashboardV2.formatDate Samples.host (Some "2024-03-02T12:34:56.789Z")
  = (Z_to_string ((Date_now Samples.host - 1709382896789) / msPerDay)
     ++ " days ago")%string.
Proof.
  refine (proj2 (proj2 (proj2 (formatDate_edge_cases Samples.host
            "2024-03-02T12:34:56.789Z" _)) 1709382896789 _ _)).
  - discriminate.
  - vm_compute. reflexivity.
  - vm_compute. reflexivity.
Defined.

End DashboardDates.

Section TrendingCutoff.
Import JS Dashboard Stages Claims DashboardUI.

Lemma DayFromYear_step (y : Z) : DayFromYear (y + 1) - DayFromYear y = DaysInYear y.
Proof.
  unfold DayFromYear, DaysInYear.
  destruct (y mod 4 =? 0) eqn:E4; destruct (y mod 100 =? 0) eqn:E100;
    destruct (y mod 400 =? 0) eqn:E400; cbn [negb];
    rewrite ?Z.eqb_eq, ?Z.eqb_neq in *;
    Z.div_mod_to_equations; lia.
Qed.

Lemma InLeapYear_bit (t : Z) : InLeapYear t = 0 \/ InLeapYear t = 1.
Proof. unfold InLeapYear. destruct (_ =? 366); auto. Qed.

Lemma DaysInYear_leap (y : Z) :
  DaysInYear y = 365 + (if DaysInYear y =? 366 then 1 else 0).
Proof.
  unfold DaysInYear.
  destruct (negb (y mod 4 =? 0)), (negb (y mod 100 =? 0)), (negb (y mod 400 =? 0));
    reflexivity.
Qed.

(** [setMonth(getMonth() - 1)] keeps the time of day and goes back by the
    length of a month: 28 to 31 days. *)
Lemma MakeDay_previous_month (t : Z) :
  exists k, 28 <= k <= 31
    /\ MakeDay (YearFromTime t) (MonthFromTime t - 1) (DateFromTime t) = Day t - k.
Proof.
  pose proof (MonthFromTime_range t) as Hm.
  pose proof (InLeapYear_bit t) as Hl.
  unfold MakeDay, DateFromTime, DayWithinYear.
  assert (Hcases : MonthFromTime t = 0 \/ 1 <= MonthFromTime t <= 11) by lia.
  destruct Hcases as [E0 | Hpos].
  - rewrite E0. change ((0 - 1) / 12) with (-1). change ((0 - 1) mod 12) with 11.
    cbn [monthStart].
    pose proof (DayFromYear_step (YearFromTime t + -1)) as Hstep.
    replace (YearFromTime t + -1 + 1) with (YearFromTime t) in Hstep by lia.
    rewrite (DaysInYear_leap (YearFromTime t + -1)) in Hstep.
    exists 31. split; [lia|].
    destruct (DaysInYear (YearFromTime t + -1) =? 366); lia.
  - rewrite (Z.div_small (MonthFromTime t - 1) 12) by lia.
    rewrite (Z.mod_small (MonthFromTime t - 1) 12) by lia.
    rewrite Z.add_0_r. fold (InLeapYear t).
    exists (monthStart (MonthFromTime t) (InLeapYear t)
            - monthStart (MonthFromTime t - 1) (InLeapYear t)).
    split; [|lia].
    assert (Hval : MonthFromTime t = 1 \/ MonthFromTime t = 2 \/ MonthFromTime t = 3
                   \/ MonthFromTime t = 4 \/ MonthFromTime t = 5 \/ MonthFromTime t = 6
                   \/ MonthFromTime t = 7 \/ MonthFromTime t = 8 \/ MonthFromTime t = 9
                   \/ MonthFromTime t = 10 \/ MonthFromTime t = 11) by lia.
    repeat destruct Hval as [Hval|Hval]; rewrite Hval;
      destruct Hl as [-> | ->]; vm_compute; split; discriminate.
Qed.

(** "Trending" looks back one calendar month: its cutoff is the instant,
    28 to 31 calendar days ago, at which the local clock read what it reads
    now.  Where the offsets of the time zone differ by at most [v] (0 for a
    fixed offset, an hour for a daylight-saving change) the cutoff is
    within [v] of that many days of 24 hours before now; so both variants
    keep every repository that passed the filters and was committed to
    after now minus 28 days plus [v], and none whose last commit is 31 days
    plus [v] old or older. *)
Theorem trending_looks_back_a_calendar_month (h : Host) (st : State) (p : Repository)
  (v : Z) :
  0 <= Date_now h <= maxTime ->
  offsets_vary_by h v -> v <= msPerDay ->
  activeQuickFilter st = Trending ->
  (exists k, 28 <= k <= 31
     /\ monthAgo h = Some (same_time_days_ago h k)
     /\ Z.abs (same_time_days_ago h k - (Date_now h - k * msPerDay)) <= v)
  /\ (In p (advanced h st) ->
      committedAfter h (Some (Date_now h - 28 * msPerDay + v)) p = true ->
      In p (DashboardV2.filteredRepositories h st)
      /\ In p (DashboardV1.filteredRepositories h st))
  /\ (In p (DashboardV2.filteredRepositories h st)
      \/ In p (DashboardV1.filteredRepositories h st) ->
      committedAfter h (Some (Date_now h - 31 * msPerDay - v)) p = true).
Proof.
  intros Hnow Hv Hle Hq.
  assert (Hk : exists k, 28 <= k <= 31
                 /\ monthAgo h = Some (same_time_days_ago h k)
                 /\ Z.abs (same_time_days_ago h k - (Date_now h - k * msPerDay)) <= v).
  { unfold monthAgo, setMonth, new_Date, getMonth, num_sub. cbv zeta.
    destruct (MakeDay_previous_month (LocalTime h (Date_now h))) as (k & Hk & E).
    rewrite E. exists k.
    pose proof (same_time_days_ago_near h k v Hv) as Hnear.
    split; [exact Hk | split; [|exact Hnear]].
    rewrite <- (TimeClip_in_range (same_time_days_ago h k))
      by (unfold maxTime, msPerDay in *; lia).
    f_equal. unfold same_time_days_ago. f_equal. unfold MakeDate.
    set (t := LocalTime h (Date_now h)).
    assert (Ht : t = msPerDay * Day t + TimeWithinDay t).
    { unfold Day, TimeWithinDay. apply Z.div_mod. unfold msPerDay. lia. }
    lia. }
  split; [exact Hk|].
  destruct Hk as (k & Hk & Ek & Hnear).
  rewrite filteredV1_In, filteredV2_In, Hq.
  change (quickPredicate DashboardV2.formatDate h Trending p) with (isTrending h p).
  change (quickPredicate DashboardV1.formatDate h Trending p) with (isTrending h p).
  unfold isTrending. rewrite Ek. split.
  - intros Hin H28.
    assert (committedAfter h (Some (same_time_days_ago h k)) p = true).
    { apply (committedAfter_earlier h (Date_now h - 28 * msPerDay + v)); [|exact H28].
      unfold msPerDay in *. lia. }
    tauto.
  - intros H.
    assert (Hc : committedAfter h (Some (same_time_days_ago h k)) p = true) by tauto.
    apply (committedAfter_earlier h (same_time_days_ago h k)); [|exact Hc].
    unfold msPerDay in *. lia.
Qed.

Lemma trending_looks_back_a_calendar_month_witness :
  exists k, 28 <= k <= 31
    /\ monthAgo Samples.host = Some (same_time_days_ago Samples.host k)
    /\ Z.abs (same_time_days_ago Samples.host k
              - (Date_now Samples.host - k * msPerDay)) <= 0.
Proof.
  refine (proj1 (trending_looks_back_a_calendar_month Samples.host
                   (Samples.state [Samples.react] "" initialFilters Trending)
                   Samples.react 0 _ _ _ eq_refl)).
  - vm_compute. split; discriminate.
  - intros t t' b b'. vm_compute. discriminate.
  - vm_compute. discriminate.
Defined.

End TrendingCutoff.

Section DashboardControls.
Import JS Dashboard Stages Claims DashboardUI.

(** Choosing another sort order, with no quick filter on, only reorders
    the list; no repository appears or disappears. *)
Theorem sort_choice_only_reorders (h : Host) (st : State) (sb : SortBy) :
  activeQuickFilter st = "" ->
  Permutation
    (DashboardV2.filteredRepositories h (DashboardV2.handleFilterChange (input_sortBy sb) st))
    (DashboardV2.filteredRepositories h st)
  /\ Permutation
       (DashboardV1.filteredRepositories h
          (DashboardV1.handleFilterChange (input_sortBy sb) st))
       (DashboardV1.filteredRepositories h st).
Proof.
  intros Hq.
  assert (Hadv : advanced h (DashboardV2.handleFilterChange (input_sortBy sb) st)
                 = advanced h st) by reflexivity.
  rewrite !V2_stages, !V1_stages, Hq.
  change (DashboardV1.handleFilterChange (input_sortBy sb) st)
    with (DashboardV2.handleFilterChange (input_sortBy sb) st).
  rewrite Hadv. cbn [DashboardV2.handleFilterChange activeQuickFilter truthy].
  split; (eapply Permutation_trans;
          [apply defaultSort_perm | apply Permutation_sym, defaultSort_perm]).
Qed.

Lemma sort_choice_only_reorders_witness :
  Permutation
    (DashboardV2.filteredRepositories Samples.host
       (DashboardV2.handleFilterChange (input_sortBy by_updated) Samples.searchState))
    (DashboardV2.filteredRepositories Samples.host Samples.searchState).
Proof.
  exact (proj1 (sort_choice_only_reorders Samples.host Samples.searchState
                  by_updated eq_refl)).
Defined.

(** A quick-filter button is a toggle: from no quick filter, one click
    applies the label's quick filter and a second click restores the state;
    clicking another label switches to it; the search term, the advanced
    filters and the loaded repositories are never touched. *)
Theorem quick_filter_button_toggles (h : Host) (st : State) (label : string) :
  label <> "" ->
  (activeQuickFilter st = "" ->
   DashboardV2.filteredRepositories h (DashboardV2.handleQuickFilterClick label st)
   = quickV2 h label (advanced h st)
   /\ DashboardV2.handleQuickFilterClick label
        (DashboardV2.handleQuickFilterClick label st) = st)
  /\ (activeQuickFilter st = label ->
      DashboardV2.filteredRepositories h (DashboardV2.handleQuickFilterClick label st)
      = defaultSort h (sortBy (filters st)) (advanced h st))
  /\ (activeQuickFilter st <> label ->
      activeQuickFilter (DashboardV2.handleQuickFilterClick label st) = label)
  /\ advanced h (DashboardV2.handleQuickFilterClick label st) = advanced h st.
Proof.
  intros Hl. pose proof (proj2 (truthy_true label) Hl) as Ht.
  assert (Hne : String.eqb "" label = false).
  { apply String.eqb_neq. congruence. }
  split; [intros Hq; split | split; [intros Hq | split; [intros Hq|]]].
  - rewrite V2_stages. unfold DashboardV2.handleQuickFilterClick.
    cbn [activeQuickFilter]. rewrite Hq, Hne, Ht. reflexivity.
  - destruct st as [r s f q]. cbn [activeQuickFilter] in *. subst q.
    unfold DashboardV2.handleQuickFilterClick.
    cbn [activeQuickFilter repositories searchTerm filters].
    rewrite Hne, String.eqb_refl. reflexivity.
  - rewrite V2_stages. unfold DashboardV2.handleQuickFilterClick.
    cbn [activeQuickFilter]. rewrite Hq, String.eqb_refl. reflexivity.
  - unfold DashboardV2.handleQuickFilterClick. cbn [activeQuickFilter].
    apply String.eqb_neq in Hq. now rewrite Hq.
  - reflexivity.
Qed.

Lemma quick_filter_button_toggles_witness :
  DashboardV2.handleQuickFilterClick GoodFirstIssues
    (DashboardV2.handleQuickFilterClick GoodFirstIssues Samples.searchState)
  = Samples.searchState.
Proof.
  refine (proj2 (proj1 (quick_filter_button_toggles Samples.host Samples.searchState
                          GoodFirstIssues _) eq_refl)).
  discriminate.
Defined.

End DashboardControls.

(* ================================================================== *)
(** * More about the auth flow *)
(* ================================================================== *)

Section OTPModalMore.
Import JS Axios Browser Api AuthClaims.

(** A submitted passcode never leaves the modal loading and never changes
    the passcode typed.  When the verification succeeds the modal writes
    the two storage entries, then calls the parent's [onSuccess] (when
    given) once, with the stored token, and schedules its own closing;
    when it fails the request is all that happened. *)
Theorem handleSubmit_outcome (api : Backend) (props : OTPModal.Props)
  (st : OTPModal.State) (w : World) :
  submittable props st ->
  let st' := fst (run (OTPModal.handleSubmit api props) st w) in
  let w' := snd (run (OTPModal.handleSubmit api props) st w) in
  OTPModal.isLoading st' = false
  /\ OTPModal.password st' = OTPModal.password st
  /\ OTPModal.isOpen st' = OTPModal.isOpen st
  /\ (forall v,
        verify_reply api (sent w) (verification_request props st) = inr v ->
        OTPModal.errorMessage st' = ""
        /\ OTPModal.successMessage st' = "Verification successful! Redirecting..."
        /\ trace w'
           = (trace w
              ++ [Post (verification_request props st);
                  SetItem "access_token" (VerifyResponse.access_token v);
                  SetItem "token_type" (VerifyResponse.token_type v)]
              ++ (if OTPModal.onSuccess props
                  then [Callback "onSuccess" [VerifyResponse.access_token v]] else [])
              ++ [SetTimeout "closeModal" 1500])%list)
  /\ (forall error,
        verify_reply api (sent w) (verification_request props st) = inl error ->
        OTPModal.successMessage st' = ""
        /\ trace w' = (trace w ++ [Post (verification_request props st)])%list).
Proof.
  intros Hs st' w'. subst st' w'.
  destruct (verify_reply api (sent w) (verification_request props st))
    as [error|v] eqn:Hv.
  - destruct (handleSubmit_failed api props st w error Hs Hv) as (msg & _ & ->).
    cbn [fst snd OTPModal.isLoading OTPModal.password OTPModal.isOpen
         OTPModal.successMessage].
    split; [reflexivity | split; [reflexivity | split; [reflexivity | split]]].
    + intros v Hv'. discriminate Hv'.
    + intros error' _. split; reflexivity.
  - rewrite (handleSubmit_verified api props st w v (conj Hs Hv)).
    cbn [fst snd OTPModal.isLoading OTPModal.password OTPModal.isOpen
         OTPModal.successMessage OTPModal.errorMessage trace].
    split; [reflexivity | split; [reflexivity | split; [reflexivity | split]]].
    + intros v' [= <-]. repeat split.
    + intros error Herr. discriminate Herr.
Qed.

Lemma handleSubmit_outcome_witness :
  OTPModal.isLoading
    (fst (run (OTPModal.handleSubmit AuthSamples.backend AuthSamples.props)
            (AuthSamples.typed "000000") AuthSamples.world)) = false.
Proof.
  refine (proj1 (handleSubmit_outcome AuthSamples.backend AuthSamples.props
                   (AuthSamples.typed "000000") AuthSamples.world _)).
  split; [exists "ada@example.org"; split; [reflexivity | discriminate] | reflexivity].
Defined.

(** What the [catch] block of [handleSubmit] shows. *)
Lemma handleSubmit_catch_message (error : AxiosError) (st : OTPModal.State) (w : World) :
  exists msg,
    OTPModal.handleSubmit_catch error (st, w) = OTPModal.setErrorMessage msg (st, w)
    /\ (forall d, response_detail error = Some d -> d <> "" -> msg = d)
    /\ (truthy_opt (response_detail error) = false -> status_is error 401 = true ->
        msg = "Invalid OTP. Please try again.")
    /\ (response error = None -> code error = Some "ERR_NETWORK" ->
        msg = "Network error. Please check your connection.").
Proof.
  destruct (handleSubmit_catch_sets_message error st w) as (msg & _ & E).
  exists msg. split; [exact E|].
  assert (Hmsg : OTPModal.errorMessage
                   (fst (snd (OTPModal.handleSubmit_catch error (st, w)))) = msg)
    by (rewrite E; reflexivity).
  clear E. unfold OTPModal.handleSubmit_catch in Hmsg. split; [|split].
  - intros d Hd Hne. rewrite Hd in Hmsg. cbn [truthy_opt] in Hmsg.
    apply truthy_true in Hne. rewrite Hne in Hmsg. symmetry. exact Hmsg.
  - intros Hd H401. rewrite Hd, H401 in Hmsg. symmetry. exact Hmsg.
  - intros Hr Hc. unfold response_detail, status_is in Hmsg.
    rewrite Hr, Hc in Hmsg. symmetry. exact Hmsg.
Qed.

Lemma handleSubmit_failed_message (api : Backend) (props : OTPModal.Props)
  (st : OTPModal.State) (w : World) (error : AxiosError) :
  submittable props st ->
  verify_reply api (sent w) (verification_request props st) = inl error ->
  exists msg,
    OTPModal.errorMessage (fst (run (OTPModal.handleSubmit api props) st w)) = msg
    /\ (forall d, response_detail error = Some d -> d <> "" -> msg = d)
    /\ (truthy_opt (response_detail error) = false -> status_is error 401 = true ->
        msg = "Invalid OTP. Please try again.")
    /\ (response error = None -> code error = Some "ERR_NETWORK" ->
        msg = "Network error. Please check your connection.").
Proof.
  intros Hs Hv. rewrite <- guard_submittable in Hs.
  unfold OTPModal.handleSubmit, verification_request in *.
  unfold run, mbind at 1, Eff_bind at 1, get_state. cbv beta iota. cbn [fst].
  rewrite Hs. clear Hs.
  destruct st as [o pw l r e s], w as [ls tr].
  cbn [OTPModal.password] in Hv.
  destruct (OTPModal.formtype props) as [[|]|]; run_handler; rewrite Hv;
    cbv beta iota;
    match goal with
    | |- context [OTPModal.handleSubmit_catch error (?s0, ?w0)] =>
        destruct (handleSubmit_catch_message error s0 w0) as (msg & E & Hmsg);
        rewrite E
    end; exists msg; (split; [reflexivity | exact Hmsg]).
Qed.

(** The message shown for a failed verification: the backend's [detail]
    when it sent one, whatever the status; without one, "Invalid OTP" for
    401, and the network message when no response came at all. *)
Theorem verification_error_message (api : Backend) (props : OTPModal.Props)
  (st : OTPModal.State) (w : World) (error : AxiosError) :
  submittable props st ->
  verify_reply api (sent w) (verification_request props st) = inl error ->
  let shown := OTPModal.errorMessage
                 (fst (run (OTPModal.handleSubmit api props) st w)) in
  (forall d, response_detail error = Some d -> d <> "" -> shown = d)
  /\ (truthy_opt (response_detail error) = false -> status_is error 401 = true ->
      shown = "Invalid OTP. Please try again.")
  /\ (response error = None -> code error = Some "ERR_NETWORK" ->
      shown = "Network error. Please check your connection.").
Proof.
  intros Hs Hv shown.
  destruct (handleSubmit_failed_message api props st w error Hs Hv) as (msg & E & Hmsg).
  subst shown. rewrite E. exact Hmsg.
Qed.

Lemma verification_error_message_witness :
  OTPModal.errorMessage
    (fst (run (OTPModal.handleSubmit AuthSamples.backend AuthSamples.props)
            (AuthSamples.typed "000000") AuthSamples.world)) = "Invalid OTP".
Proof.
  refine (proj1 (verification_error_message AuthSamples.backend AuthSamples.props
                   (AuthSamples.typed "000000") AuthSamples.world _ _ eq_refl)
            "Invalid OTP" eq_refl _).
  - split; [exists "ada@example.org"; split; [reflexivity | discriminate] | reflexivity].
  - discriminate.
Defined.

End OTPModalMore.

Section ResendFacts.
Import JS Axios Browser Api AuthClaims.

Lemma handleResendOtp_accepted (api : Backend) (props : OTPModal.Props)
  (st : OTPModal.State) (w : World) (e : string) (r : AuthResponse.t) :
  OTPModal.Email props = Some e -> e <> "" ->
  auth_reply api (sent w) (resend_request (OTPModal.formtype props) e) = inr r ->
  run (OTPModal.handleResendOtp api props) st w
  = ({| OTPModal.isOpen := OTPModal.isOpen st;
        OTPModal.password := "";
        OTPModal.isLoading := OTPModal.isLoading st;
        OTPModal.isResending := false;
        OTPModal.errorMessage := "";
        OTPModal.successMessage := "OTP resent successfully!" |},
     emit (Post (resend_request (OTPModal.formtype props) e)) w).
Proof.
  intros He Hne Hr. unfold run, OTPModal.handleResendOtp.
  rewrite He. apply truthy_true in Hne.
  cbn [truthy_opt default id]. rewrite Hne. cbn [negb].
  destruct st as [o pw l rs em s], w as [ls tr].
  destruct (OTPModal.formtype props) as [[|]|]; cbn [resend_request] in Hr |- *;
    run_handler; rewrite Hr; reflexivity.
Qed.

Lemma handleResendOtp_rejected (api : Backend) (props : OTPModal.Props)
  (st : OTPModal.State) (w : World) (e : string) (error : AxiosError) :
  OTPModal.Email props = Some e -> e <> "" ->
  auth_reply api (sent w) (resend_request (OTPModal.formtype props) e) = inl error ->
  run (OTPModal.handleResendOtp api props) st w
  = ({| OTPModal.isOpen := OTPModal.isOpen st;
        OTPModal.password := OTPModal.password st;
        OTPModal.isLoading := OTPModal.isLoading st;
        OTPModal.isResending := false;
        OTPModal.errorMessage :=
          OTPModal.first_truthy (response_detail error) (message error)
            "Failed to resend OTP. Please try again.";
        OTPModal.successMessage := "" |},
     emit (Post (resend_request (OTPModal.formtype props) e)) w).
Proof.
  intros He Hne Hr. unfold run, OTPModal.handleResendOtp.
  rewrite He. apply truthy_true in Hne.
  cbn [truthy_opt default id]. rewrite Hne. cbn [negb].
  destruct st as [o pw l rs em s], w as [ls tr].
  destruct (OTPModal.formtype props) as [[|]|]; cbn [resend_request] in Hr |- *;
    run_handler; rewrite Hr; reflexivity.
Qed.

(** A resend never touches local storage, the loading flag or the open
    flag, and always ends with [isResending] off.  When the backend accepts
    it the typed passcode is cleared, so the submit button is disabled
    again; when the backend rejects it the passcode is kept and a non-empty
    error is shown: the backend's [detail], else the error's message, else
    a fixed text, in this order. *)
Theorem handleResendOtp_outcome (api : Backend) (props : OTPModal.Props)
  (st : OTPModal.State) (w : World) (e : string) :
  OTPModal.Email props = Some e -> e <> "" ->
  let req := resend_request (OTPModal.formtype props) e in
  let st' := fst (run (OTPModal.handleResendOtp api props) st w) in
  let w' := snd (run (OTPModal.handleResendOtp api props) st w) in
  OTPModal.isResending st' = false
  /\ OTPModal.isLoading st' = OTPModal.isLoading st
  /\ OTPModal.isOpen st' = OTPModal.isOpen st
  /\ localStorage w' = localStorage w
  /\ (forall r, auth_reply api (sent w) req = inr r ->
        OTPModal.password st' = ""
        /\ OTPModal.errorMessage st' = ""
        /\ OTPModal.successMessage st' = "OTP resent successfully!"
        /\ OTPModal.submit_disabled st' = true)
  /\ (forall error, auth_reply api (sent w) req = inl error ->
        OTPModal.password st' = OTPModal.password st
        /\ OTPModal.successMessage st' = ""
        /\ OTPModal.errorMessage st' <> ""
        /\ (forall d, response_detail error = Some d -> d <> "" ->
              OTPModal.errorMessage st' = d)
        /\ (truthy_opt (response_detail error) = false -> message error <> "" ->
              OTPModal.errorMessage st' = message error)
        /\ (truthy_opt (response_detail error) = false -> message error = "" ->
              OTPModal.errorMessage st' = "Failed to resend OTP. Please try again.")).
Proof.
  intros He Hne req st' w'. subst req st' w'.
  destruct (auth_reply api (sent w) (resend_request (OTPModal.formtype props) e))
    as [error|r] eqn:Hr.
  - rewrite (handleResendOtp_rejected api props st w e error He Hne Hr).
    cbn [fst snd OTPModal.isResending OTPModal.isLoading OTPModal.isOpen
         OTPModal.password OTPModal.errorMessage OTPModal.successMessage].
    split; [reflexivity | split; [reflexivity | split; [reflexivity | split;
      [reflexivity | split]]]].
    + intros r Hr'. discriminate Hr'.
    + intros error' [= <-].
      split; [reflexivity | split; [reflexivity | split; [|split; [|split]]]].
      * apply first_truthy_nonempty. discriminate.
      * intros d Hd Hd'. rewrite Hd. unfold OTPModal.first_truthy.
        apply truthy_true in Hd'. rewrite Hd'. reflexivity.
      * intros Hd Hm. apply truthy_true in Hm. unfold OTPModal.first_truthy.
        destruct (response_detail error) as [d|]; cbn [truthy_opt] in Hd;
          [rewrite Hd|]; rewrite Hm; reflexivity.
      * intros Hd Hm. rewrite Hm. unfold OTPModal.first_truthy.
        destruct (response_detail error) as [d|]; cbn [truthy_opt] in Hd;
          [rewrite Hd|]; reflexivity.
  - rewrite (handleResendOtp_accepted api props st w e r He Hne Hr).
    cbn [fst snd OTPModal.isResending OTPModal.isLoading OTPModal.isOpen
         OTPModal.password OTPModal.errorMessage OTPModal.successMessage].
    split; [reflexivity | split; [reflexivity | split; [reflexivity | split;
      [reflexivity | split]]]].
    + intros r' _. split; [reflexivity | split; [reflexivity | split; [reflexivity|]]].
      unfold OTPModal.submit_disabled. cbn [OTPModal.isLoading OTPModal.password].
      apply orb_true_r.
    + intros error Herr. discriminate Herr.
Qed.

Lemma handleResendOtp_outcome_witness :
  OTPModal.password
    (fst (run (OTPModal.handleResendOtp AuthSamples.backend AuthSamples.props)
            (AuthSamples.typed "123456") AuthSamples.world)) = "".
Proof.
  refine (proj1 (proj1 (proj2 (proj2 (proj2 (proj2
            (handleResendOtp_outcome AuthSamples.backend AuthSamples.props
               (AuthSamples.typed "123456") AuthSamples.world "ada@example.org"
               eq_refl _)))))
            {| AuthResponse.message := "OTP sent"; AuthResponse.status := 200;
               AuthResponse.account_id := "acc_1" |} eq_refl)).
  discriminate.
Defined.

(** After a resend the backend accepted, submitting without typing a new
    passcode sends nothing: the passcode typed before the resend is gone,
    and the submission is refused with the length message. *)
Theorem submit_after_resend_is_refused (api : Backend) (props : OTPModal.Props)
  (st : OTPModal.State) (w : World) (e : string) (r : AuthResponse.t) :
  OTPModal.Email props = Some e -> e <> "" ->
  auth_reply api (sent w) (resend_request (OTPModal.formtype props) e) = inr r ->
  let resent := run (OTPModal.handleResendOtp api props) st w in
  let after := run (OTPModal.handleSubmit api props) (fst resent) (snd resent) in
  snd after = snd resent
  /\ sent (snd after) = (sent w ++ [resend_request (OTPModal.formtype props) e])%list
  /\ OTPModal.errorMessage (fst after) = "Please enter a valid 6-digit OTP"
  /\ OTPModal.password (fst after) = "".
Proof.
  intros He Hne Hr resent after. subst after resent.
  rewrite (handleResendOtp_accepted api props st w e r He Hne Hr).
  cbn [fst snd]. rewrite handleSubmit_refused.
  - unfold run, OTPModal.setErrorMessage, set_state.
    cbn [fst snd OTPModal.errorMessage OTPModal.password].
    split; [reflexivity | split; [|split; reflexivity]].
    rewrite sent_emit. reflexivity.
  - intros [_ Hlen]. discriminate Hlen.
Qed.

Lemma submit_after_resend_is_refused_witness :
  sent (snd (run (OTPModal.handleSubmit AuthSamples.backend AuthSamples.props)
               (fst (run (OTPModal.handleResendOtp AuthSamples.backend AuthSamples.props)
                       (AuthSamples.typed "123456") AuthSamples.world))
               (snd (run (OTPModal.handleResendOtp AuthSamples.backend AuthSamples.props)
                       (AuthSamples.typed "123456") AuthSamples.world))))
  = (sent AuthSamples.world
     ++ [resend_request (OTPModal.formtype AuthSamples.props) "ada@example.org"])%list.
Proof.
  refine (proj1 (proj2 (submit_after_resend_is_refused AuthSamples.backend
            AuthSamples.props (AuthSamples.typed "123456") AuthSamples.world
            "ada@example.org"
            {| AuthResponse.message := "OTP sent"; AuthResponse.status := 200;
               AuthResponse.account_id := "acc_1" |} eq_refl _ eq_refl))).
  discriminate.
Defined.

End ResendFacts.

Section AuthFlow.
Import JS Axios Browser Api AuthClaims.

Lemma render_with_token (w : World) (t : string) :
  localStorage w !! "access_token" = Some t ->
  PrivateRoute.render w = if truthy t then PrivateRoute.Outlet else PrivateRoute.null.
Proof.
  intros H. unfold PrivateRoute.render, PrivateRoute.token. rewrite H. reflexivity.
Qed.

Lemma route_dashboard (w : World) :
  App.route "/dashboard" w
  = match PrivateRoute.render w with
    | PrivateRoute.Outlet => Some App.Hero
    | PrivateRoute.null => None
    end.
Proof. reflexivity. Qed.

(** The effect of [PrivateRoute] navigates exactly when the render shows
    nothing, an empty stored token included; the page it navigates to is
    never guarded, so the redirect ends there.  With the outlet rendered
    the effect does nothing. *)
Theorem private_route_redirects_when_blank (w : World) :
  (PrivateRoute.render w = PrivateRoute.Outlet ->
   run (PrivateRoute.effect w) tt w = (tt, w))
  /\ (PrivateRoute.render w = PrivateRoute.null ->
      run (PrivateRoute.effect w) tt w = (tt, emit (Navigate "/signin" true) w)
      /\ App.route "/signin" (emit (Navigate "/signin" true) w) = Some App.SignIn)
  /\ (localStorage w !! "access_token" = Some "" ->
      PrivateRoute.render w = PrivateRoute.null).
Proof.
  unfold PrivateRoute.render, PrivateRoute.effect.
  split; [|split].
  - destruct (truthy_opt (PrivateRoute.token w)); [reflexivity | discriminate].
  - destruct (truthy_opt (PrivateRoute.token w)); [discriminate|].
    intros _. split; reflexivity.
  - intros H. unfold PrivateRoute.token. rewrite H. reflexivity.
Qed.

Lemma private_route_redirects_when_blank_witness :
  run (PrivateRoute.effect AuthSamples.loggedIn) tt AuthSamples.loggedIn
  = (tt, AuthSamples.loggedIn).
Proof.
  exact (proj1 (private_route_redirects_when_blank AuthSamples.loggedIn) eq_refl).
Defined.

(** *** The spellings of a path *)

Lemma Canonicalize_lower_char (c : ascii) :
  App.Canonicalize (lower_char c) = App.Canonicalize c.
Proof. destruct c as [[] [] [] [] [] [] [] []]; reflexivity. Qed.

Lemma slash_lower_char (c : ascii) :
  Ascii.eqb (lower_char c) "/" = Ascii.eqb c "/".
Proof. destruct c as [[] [] [] [] [] [] [] []]; reflexivity. Qed.

Lemma only_slashes_case (s s' : string) :
  toLowerCase s = toLowerCase s' -> App.only_slashes s = App.only_slashes s'.
Proof.
  revert s'. induction s as [|c s IH]; intros [|d s'] E; try discriminate E.
  - reflexivity.
  - cbn [toLowerCase] in E. injection E as Ec Es.
    cbn [App.only_slashes]. rewrite (IH s' Es).
    now rewrite <- (slash_lower_char c), <- (slash_lower_char d), Ec.
Qed.

Lemma matchPath_case (path s s' : string) :
  toLowerCase s = toLowerCase s' -> App.matchPath path s = App.matchPath path s'.
Proof.
  revert s s'. induction path as [|c path IH]; intros s s' E.
  - cbn [App.matchPath]. destruct s, s'; try discriminate E; try reflexivity.
    apply only_slashes_case. exact E.
  - destruct s as [|d s], s' as [|d' s']; try discriminate E; [reflexivity|].
    cbn [toLowerCase] in E. injection E as Ec Es.
    cbn [App.matchPath]. rewrite (IH s s' Es).
    now rewrite <- (Canonicalize_lower_char d), <- (Canonicalize_lower_char d'), Ec.
Qed.

Lemma only_slashes_slash (s : string) :
  App.only_slashes (s ++ "/") = App.only_slashes s.
Proof.
  induction s as [|c s IH]; [reflexivity|].
  rewrite string_app_cons. cbn [App.only_slashes]. now rewrite IH.
Qed.

Lemma Canonicalize_slash (c : ascii) :
  Ascii.eqb (App.Canonicalize c) (App.Canonicalize "/") = Ascii.eqb c "/".
Proof. destruct c as [[] [] [] [] [] [] [] []]; reflexivity. Qed.

(** One more slash at the end changes no match with a path that does not
    itself end in a slash. *)
Lemma matchPath_slash (path s : string) :
  (forall q, path <> q ++ "/") ->
  App.matchPath path (s ++ "/") = App.matchPath path s.
Proof.
  revert s. induction path as [|c path IH]; intros s Hend.
  - destruct s; [reflexivity | apply only_slashes_slash].
  - destruct s as [|d s].
    + change (App.matchPath (String c path) ("" ++ "/"))
        with (Ascii.eqb (App.Canonicalize c) (App.Canonicalize "/")
              && App.matchPath path "").
      destruct path as [|c' path]; [|apply andb_false_r].
      rewrite Canonicalize_slash.
      destruct (Ascii.eqb c "/") eqn:E; [|reflexivity].
      apply Ascii.eqb_eq in E. subst c. destruct (Hend ""). reflexivity.
    + rewrite string_app_cons. cbn [App.matchPath]. f_equal. apply IH.
      intros q E. apply (Hend (String c q)). rewrite string_app_cons, E.
      reflexivity.
Qed.

Ltac no_final_slash :=
  let q := fresh "q" in
  let E := fresh "E" in
  intros q E;
  repeat (destruct q as [|? q];
          [discriminate E | rewrite string_app_cons in E; injection E as _ E]);
  destruct q; discriminate E.

Lemma dashboard_is_not_feature (s : string) :
  App.matchPath "/dashboard" s = true -> App.matchPath "/feature" s = false.
Proof.
  destruct s as [|c1 s]; [discriminate|].
  destruct s as [|c2 s].
  { cbn [App.matchPath]. rewrite andb_false_r. discriminate. }
  change (App.matchPath "/dashboard" (String c1 (String c2 s)))
    with (Ascii.eqb (App.Canonicalize "/") (App.Canonicalize c1)
          && (Ascii.eqb (App.Canonicalize "d") (App.Canonicalize c2)
              && App.matchPath "ashboard" s)).
  change (App.matchPath "/feature" (String c1 (String c2 s)))
    with (Ascii.eqb (App.Canonicalize "/") (App.Canonicalize c1)
          && (Ascii.eqb (App.Canonicalize "f") (App.Canonicalize c2)
              && App.matchPath "eature" s)).
  rewrite !andb_true_iff. intros [_ [H _]].
  apply Ascii.eqb_eq in H. rewrite <- H.
  apply andb_false_r.
Qed.

Lemma render_Outlet_iff (w : World) :
  PrivateRoute.render w = PrivateRoute.Outlet
  <-> exists t, localStorage w !! "access_token" = Some t /\ t <> "".
Proof.
  unfold PrivateRoute.render, PrivateRoute.token.
  destruct (localStorage w !! "access_token") as [t|]; cbn [truthy_opt].
  - destruct (truthy t) eqn:Et.
    + split; [intros _; exists t; split; [reflexivity | now apply truthy_true]
             | reflexivity].
    + apply truthy_false in Et. subst t.
      split; [discriminate | intros [t [[= <-] Hne]]; congruence].
  - split; [discriminate | intros [t [H _]]; discriminate].
Qed.

(** Only the dashboard route is guarded, under every spelling the router
    accepts.  At a pathname that does not match [/dashboard] the page shown
    does not depend on the browser's storage or history; at one that does,
    the dashboard is shown exactly when a non-empty token is stored, and
    nothing without a token.  A slash added at the end and the case of the
    letters never change the page. *)
Theorem only_dashboard_is_guarded (pathname : string) (w w' : World) :
  (App.matchPath "/dashboard" pathname = false ->
   App.route pathname w = App.route pathname w')
  /\ (App.matchPath "/dashboard" pathname = true ->
      (App.route pathname w = Some App.Hero
       <-> exists t, localStorage w !! "access_token" = Some t /\ t <> "")
      /\ (localStorage w !! "access_token" = None -> App.route pathname w = None))
  /\ App.route (pathname ++ "/") w = App.route pathname w
  /\ (forall pathname',
        toLowerCase pathname' = toLowerCase pathname ->
        App.route pathname' w = App.route pathname w).
Proof.
  split; [|split; [|split]].
  - intros Hp. unfold App.route. rewrite Hp. reflexivity.
  - intros Hp. unfold App.route.
    rewrite (dashboard_is_not_feature pathname Hp), Hp. split.
    + rewrite <- render_Outlet_iff.
      destruct (PrivateRoute.render w); split; congruence.
    + intros Hnone. unfold PrivateRoute.render, PrivateRoute.token.
      rewrite Hnone. reflexivity.
  - unfold App.route. rewrite !matchPath_slash by no_final_slash. reflexivity.
  - intros pathname' E. unfold App.route.
    now rewrite !(matchPath_case _ pathname' pathname E).
Qed.

Lemma only_dashboard_is_guarded_witness :
  App.route "/Dashboard/" AuthSamples.world = None.
Proof.
  exact (proj2 (proj1 (proj2 (only_dashboard_is_guarded "/Dashboard/"
                                AuthSamples.world AuthSamples.world)) eq_refl)
           eq_refl).
Defined.

(** The two steps composed, as [AuthForm] wires them: accepted
    credentials open the modal; a verified six-character passcode stores
    the token and calls [onSuccess], which navigates to [/dashboard].  The
    dashboard is then shown exactly when the token received is not empty;
    with an empty token the guard sends the user back to [/signin]. *)
Theorem verified_flow_reaches_dashboard (api : Backend) (type : formType)
  (values : AuthForm.Values) (w : World) (otp : string)
  (r : AuthResponse.t) (v : VerifyResponse.t) :
  AuthForm.Email values <> "" ->
  String.length otp = 6%nat ->
  auth_reply api (sent w) (credential_request type values) = inr r ->
  let form := run (AuthForm.onSubmit api type values) AuthForm.initialState w in
  verify_reply api (sent (snd form))
    {| url := if is_signup type then "/verify-signup" else "/verify-login";
       body := [("email", AuthForm.Email values); ("otp", otp)] |} = inr v ->
  exists props,
    AuthForm.renderedModal type (fst form) = Some props
    /\ let typed := run (OTPModal.setPassword otp) OTPModal.initialState (snd form) in
       let modal := run (OTPModal.handleSubmit api props) (fst typed) (snd typed) in
       let final := snd (run (AuthForm.onOTPSuccess (VerifyResponse.access_token v))
                           (fst form) (snd modal)) in
       In (Callback "onSuccess" [VerifyResponse.access_token v]) (trace (snd modal))
       /\ trace final = (trace (snd modal) ++ [Navigate "/dashboard" false])%list
       /\ localStorage final !! "access_token" = Some (VerifyResponse.access_token v)
       /\ (App.route "/dashboard" final = Some App.Hero
           <-> VerifyResponse.access_token v <> "")
       /\ (VerifyResponse.access_token v = "" ->
           run (PrivateRoute.effect final) tt final
           = (tt, emit (Navigate "/signin" true) final)).
Proof.
  intros He Hlen Hr form. subst form.
  rewrite (onSubmit_accepted api type values AuthForm.initialState w r Hr).
  intros Hv. cbn [snd] in Hv.
  exists {| OTPModal.Email := Some (AuthForm.Email values);
            OTPModal.AccountId := Some (AuthResponse.account_id r);
            OTPModal.formtype := Some type;
            OTPModal.fullName := AuthForm.FullName values;
            OTPModal.onSuccess := true;
            OTPModal.onClose := true |}.
  split; [reflexivity|].
  intros typed.
  assert (Ht : typed
               = ({| OTPModal.isOpen := true; OTPModal.password := otp;
                     OTPModal.isLoading := false; OTPModal.isResending := false;
                     OTPModal.errorMessage := ""; OTPModal.successMessage := "" |},
                  emit (Post (credential_request type values)) w))
    by reflexivity.
  clearbody typed. subst typed. intros modal.
  match type of modal with
  | _ => match eval unfold modal in modal with
         | run (OTPModal.handleSubmit api ?p) ?s ?w0 =>
             assert (Hverified : verified api p s w0 v)
         end
  end.
  { split.
    - split; [exists (AuthForm.Email values); split; [reflexivity | exact He]
             | exact Hlen].
    - unfold verification_request. destruct type; exact Hv. }
  pose proof (handleSubmit_verified _ _ _ _ _ Hverified) as Hm.
  fold modal in Hm. clearbody modal. subst modal. clear Hverified.
  intros final.
  assert (Hf : final
               = {| localStorage :=
                      <["token_type" := VerifyResponse.token_type v]>
                        (<["access_token" := VerifyResponse.access_token v]>
                           (localStorage w));
                    trace :=
                      ((trace (emit (Post (credential_request type values)) w)
                        ++ [Post {| url := if is_signup type then "/verify-signup"
                                           else "/verify-login";
                                    body := [("email", AuthForm.Email values);
                                             ("otp", otp)] |};
                            SetItem "access_token" (VerifyResponse.access_token v);
                            SetItem "token_type" (VerifyResponse.token_type v)]
                        ++ [Callback "onSuccess" [VerifyResponse.access_token v]]
                        ++ [SetTimeout "closeModal" 1500])
                       ++ [Navigate "/dashboard" false])%list |}).
  { subst final. unfold verification_request. destruct type; reflexivity. }
  clearbody final.
  assert (Htok : localStorage final !! "access_token"
                 = Some (VerifyResponse.access_token v)).
  { rewrite Hf. cbn [localStorage].
    rewrite lookup_insert_ne by discriminate. apply lookup_insert_eq. }
  split; [|split; [|split; [exact Htok | split]]].
  - cbn [snd trace OTPModal.onSuccess].
    rewrite !in_app_iff. right. right. left. left. reflexivity.
  - rewrite Hf. unfold verification_request. destruct type; reflexivity.
  - rewrite route_dashboard, (render_with_token _ _ Htok).
    destruct (truthy (VerifyResponse.access_token v)) eqn:Et.
    + apply truthy_true in Et. split; [intros _; exact Et | reflexivity].
    + apply truthy_false in Et. split; [discriminate | intros H; contradiction].
  - intros Hempty. unfold PrivateRoute.effect, PrivateRoute.token.
    rewrite Htok, Hempty. reflexivity.
Qed.

Lemma verified_flow_reaches_dashboard_witness :
  exists props,
    AuthForm.renderedModal signup
      (fst (run (AuthForm.onSubmit AuthSamples.backend signup AuthSamples.values)
              AuthForm.initialState AuthSamples.world)) = Some props
    /\ let typed := run (OTPModal.setPassword "123456") OTPModal.initialState
                      (snd (run (AuthForm.onSubmit AuthSamples.backend signup
                                   AuthSamples.values)
                              AuthForm.initialState AuthSamples.world)) in
       let modal := run (OTPModal.handleSubmit AuthSamples.backend props)
                      (fst typed) (snd typed) in
       let final := snd (run (AuthForm.onOTPSuccess "jwt-1")
                           (fst (run (AuthForm.onSubmit AuthSamples.backend signup
                                        AuthSamples.values)
                                   AuthForm.initialState AuthSamples.world))
                           (snd modal)) in
       In (Callback "onSuccess" ["jwt-1"]) (trace (snd modal))
       /\ trace final = (trace (snd modal) ++ [Navigate "/dashboard" false])%list
       /\ localStorage final !! "access_token" = Some "jwt-1"
       /\ (App.route "/dashboard" final = Some App.Hero <-> "jwt-1" <> "")
       /\ ("jwt-1" = "" ->
           run (PrivateRoute.effect final) tt final
           = (tt, emit (Navigate "/signin" true) final)).
Proof.
  refine (verified_flow_reaches_dashboard AuthSamples.backend signup
            AuthSamples.values AuthSamples.world "123456"
            {| AuthResponse.message := "OTP sent"; AuthResponse.status := 200;
               AuthResponse.account_id := "acc_1" |}
            {| VerifyResponse.access_token := "jwt-1";
               VerifyResponse.token_type := "bearer" |} _ eq_refl eq_refl eq_refl).
  discriminate.
Defined.

(** Closing the modal: [handleClose] hides it and calls [onClose], which
    the form always passes; the form's [handleOTPClose] then forgets the
    account, so the modal is no longer rendered.  Neither touches the
    network, the storage or the form's error message. *)
Theorem closing_unmounts_the_modal (type : formType) (fs : AuthForm.State)
  (props : OTPModal.Props) (ms : OTPModal.State) (w : World) :
  AuthForm.renderedModal type fs = Some props ->
  let closed := run (OTPModal.handleClose props) ms w in
  let parent := run AuthForm.handleOTPClose fs (snd closed) in
  OTPModal.isOpen (fst closed) = false
  /\ OTPModal.password (fst closed) = OTPModal.password ms
  /\ snd closed = emit (Callback "onClose" []) w
  /\ AuthForm.renderedModal type (fst parent) = None
  /\ snd parent = snd closed
  /\ AuthForm.errorMessage (fst parent) = AuthForm.errorMessage fs.
Proof.
  intros H closed parent. subst parent closed.
  unfold AuthForm.renderedModal in H |- *.
  destruct fs as [fl fe [a|]]; cbn [AuthForm.accountData] in H; [|discriminate].
  injection H as <-.
  destruct ms as [o pw l rs em s], w as [ls tr].
  unfold OTPModal.handleClose, AuthForm.handleOTPClose. cbn [OTPModal.onClose].
  run_handler. repeat split.
Qed.

Lemma closing_unmounts_the_modal_witness :
  AuthForm.renderedModal signup
    (fst (run AuthForm.handleOTPClose
            {| AuthForm.isLoading := false; AuthForm.errorMessage := "";
               AuthForm.accountData :=
                 Some {| AuthForm.accountId := "acc_1";
                         AuthForm.email := "ada@example.org";
                         AuthForm.fullName := Some "Ada" |} |}
            (snd (run (OTPModal.handleClose AuthSamples.props)
                    (AuthSamples.typed "123456") AuthSamples.world))))
  = None.
Proof.
  exact (proj1 (proj2 (proj2 (proj2
           (closing_unmounts_the_modal signup
              {| AuthForm.isLoading := false; AuthForm.errorMessage := "";
                 AuthForm.accountData :=
                   Some {| AuthForm.accountId := "acc_1";
                           AuthForm.email := "ada@example.org";
                           AuthForm.fullName := Some "Ada" |} |}
              AuthSamples.props (AuthSamples.typed "123456") AuthSamples.world
              eq_refl))))).
Defined.

End AuthFlow.

Section AuthFormMore.
Import JS Axios Browser Api AuthClaims.

Lemma status_is_unique (error : AxiosError) (j k : Z) :
  status_is error j = true -> j <> k -> status_is error k = false.
Proof.
  unfold status_is. destruct (response error) as [r|]; [|discriminate].
  intros Hj Hne. apply Z.eqb_eq in Hj. apply Z.eqb_neq. congruence.
Qed.

Lemma onSubmit_catch_message (type : formType) (error : AxiosError)
  (st : AuthForm.State) (w : World) :
  exists msg,
    ((forall d, response_detail error = Some d -> d <> "" -> msg = d)
     /\ (truthy_opt (response_detail error) = false -> status_is error 404 = true ->
         msg = match type with
               | signin => "Account not found. Please sign up first."
               | signup => "Failed to create account. Please try again."
                           ++ Axios.to_string error
               end)
     /\ (response error = None ->
         msg = "Failed to " ++ (if is_signup type then "create account" else "sign in")
               ++ ". Please try again." ++ Axios.to_string error))
    /\ AuthForm.onSubmit_catch type error (st, w)
       = AuthForm.setErrorMessage msg (st, w).
Proof.
  destruct (onSubmit_catch_sets_message type error st w) as (msg & _ & E).
  exists msg. split; [|exact E].
  assert (Hmsg : AuthForm.errorMessage
                   (fst (snd (AuthForm.onSubmit_catch type error (st, w)))) = msg)
    by (rewrite E; reflexivity).
  clear E. unfold AuthForm.onSubmit_catch in Hmsg. split; [|split].
  - intros d Hd Hne. rewrite Hd in Hmsg. cbn [truthy_opt] in Hmsg.
    apply truthy_true in Hne. rewrite Hne in Hmsg. symmetry. exact Hmsg.
  - intros Hd H404. rewrite Hd, H404 in Hmsg.
    destruct type; cbn [is_signup negb andb] in Hmsg.
    + symmetry. exact Hmsg.
    + rewrite (status_is_unique error 404 403 H404),
        (status_is_unique error 404 400 H404) in Hmsg by discriminate.
      symmetry. exact Hmsg.
  - intros Hr. unfold response_detail, status_is in Hmsg.
    rewrite Hr in Hmsg. symmetry. exact Hmsg.
Qed.

Lemma onSubmit_rejected_message (api : Backend) (type : formType)
  (values : AuthForm.Values) (st : AuthForm.State) (w : World) (error : AxiosError) :
  auth_reply api (sent w) (credential_request type values) = inl error ->
  exists msg,
    ((forall d, response_detail error = Some d -> d <> "" -> msg = d)
     /\ (truthy_opt (response_detail error) = false -> status_is error 404 = true ->
         msg = match type with
               | signin => "Account not found. Please sign up first."
               | signup => "Failed to create account. Please try again."
                           ++ Axios.to_string error
               end)
     /\ (response error = None ->
         msg = "Failed to " ++ (if is_signup type then "create account" else "sign in")
               ++ ". Please try again." ++ Axios.to_string error))
    /\ AuthForm.errorMessage (fst (run (AuthForm.onSubmit api type values) st w)) = msg.
Proof.
  intros Hr. unfold AuthForm.onSubmit. rewrite onSubmit_request.
  destruct st as [l e a], w as [ls tr], (credential_request type values) as [u b].
  run_handler. cbn [url body]. rewrite Hr. cbv beta iota.
  catch_message (onSubmit_catch_message type).
  exists msg. split; [exact Hmsg | reflexivity].
Qed.

(** The message shown when the credential request is rejected: the
    backend's [detail] when it sent one; without one, a 404 tells a
    sign-in that the account was not found, but falls through to the
    generic text for a sign-up; and the generic text carries the error's
    own string glued onto its end. *)
Theorem credential_error_message (api : Backend) (type : formType)
  (values : AuthForm.Values) (st : AuthForm.State) (w : World) (error : AxiosError) :
  auth_reply api (sent w) (credential_request type values) = inl error ->
  let shown := AuthForm.errorMessage
                 (fst (run (AuthForm.onSubmit api type values) st w)) in
  (forall d, response_detail error = Some d -> d <> "" -> shown = d)
  /\ (truthy_opt (response_detail error) = false -> status_is error 404 = true ->
      shown = match type with
              | signin => "Account not found. Please sign up first."
              | signup => "Failed to create account. Please try again."
                          ++ Axios.to_string error
              end)
  /\ (response error = None ->
      shown = "Failed to " ++ (if is_signup type then "create account" else "sign in")
              ++ ". Please try again." ++ Axios.to_string error).
Proof.
  intros Hr shown.
  destruct (onSubmit_rejected_message api type values st w error Hr) as (msg & Hmsg & E).
  subst shown. rewrite E. exact Hmsg.
Qed.

Lemma credential_error_message_witness :
  AuthForm.errorMessage
    (fst (run (AuthForm.onSubmit AuthSamples.backend signin AuthSamples.strangerValues)
            AuthForm.initialState AuthSamples.world))
  = "Account not found. Please sign up first.".
Proof.
  exact (proj1 (proj2 (credential_error_message AuthSamples.backend signin
                         AuthSamples.strangerValues AuthForm.initialState
                         AuthSamples.world _ eq_refl)) eq_refl eq_refl).
Defined.

Lemma validated_signup_has_name (isEmail : string -> bool) (values : AuthForm.Values) :
  AuthFormSchema.safeParse isEmail signup values = true ->
  exists c n, AuthForm.FullName values = Some (String c n).
Proof.
  unfold AuthFormSchema.safeParse, AuthFormSchema.FullName_ok.
  destruct (AuthForm.FullName values) as [[|c n]|]; try discriminate.
  intros _. exists c, n. reflexivity.
Qed.

Lemma onSubmit_sent (api : Backend) (type : formType) (values : AuthForm.Values)
  (st : AuthForm.State) (w : World) :
  sent (snd (run (AuthForm.onSubmit api type values) st w))
  = (sent w ++ [credential_request type values])%list.
Proof.
  destruct (auth_reply api (sent w) (credential_request type values))
    as [error|r] eqn:Hr.
  - destruct (onSubmit_rejected api type values st w error Hr) as (msg & _ & ->).
    cbn [snd]. apply sent_emit.
  - rewrite (onSubmit_accepted api type values st w r Hr).
    cbn [snd]. apply sent_emit.
Qed.

(** Through [form.handleSubmit], values that fail the schema never reach
    the backend and change nothing.  Values that pass it send one request
    with a well-formed email: a sign-up always posts its name to [/signup]
    and a sign-in posts the email alone to [/login], so the modal the form
    opens verifies against the matching endpoint. *)
Theorem validated_submit_pairs_endpoints (isEmail : string -> bool) (api : Backend)
  (type : formType) (values : AuthForm.Values) (st : AuthForm.State) (w : World) :
  let out := run (AuthFormSchema.handleSubmit isEmail api type values) st w in
  (AuthFormSchema.safeParse isEmail type values = false -> out = (st, w))
  /\ (AuthFormSchema.safeParse isEmail type values = true ->
      isEmail (AuthForm.Email values) = true
      /\ sent (snd out)
         = (sent w
            ++ [match type with
                | signup =>
                    {| url := "/signup";
                       body := [("name", default "" (AuthForm.FullName values));
                                ("email", AuthForm.Email values)] |}
                | signin =>
                    {| url := "/login"; body := [("email", AuthForm.Email values)] |}
                end])%list
      /\ forall props ms,
           AuthForm.renderedModal type (fst out) = Some props ->
           url (verification_request props ms)
           = match type with
             | signup => "/verify-signup"
             | signin => "/verify-login"
             end).
Proof.
  intros out. subst out. unfold AuthFormSchema.handleSubmit.
  split.
  - intros ->. reflexivity.
  - intros Hok. rewrite Hok. split; [|split].
    + unfold AuthFormSchema.safeParse in Hok.
      apply andb_true_iff in Hok. exact (proj2 Hok).
    + rewrite onSubmit_sent. f_equal. f_equal. unfold credential_request.
      destruct type.
      * destruct (AuthForm.FullName values) as [[|c n]|]; reflexivity.
      * destruct (validated_signup_has_name isEmail values Hok) as (c & n & ->).
        reflexivity.
    + intros props ms. unfold AuthForm.renderedModal.
      destruct (AuthForm.accountData _) as [a|]; [|discriminate].
      intros [= <-]. unfold verification_request. cbn [OTPModal.formtype url].
      destruct type; reflexivity.
Qed.

Lemma validated_submit_pairs_endpoints_witness :
  sent (snd (run (AuthFormSchema.handleSubmit (fun s => includes s "@")
                    AuthSamples.backend signup AuthSamples.values)
               AuthForm.initialState AuthSamples.world))
  = (sent AuthSamples.world
     ++ [{| url := "/signup";
            body := [("name", "Ada"); ("email", "ada@example.org")] |}])%list.
Proof.
  exact (proj1 (proj2 (proj2 (validated_submit_pairs_endpoints
                                (fun s => includes s "@") AuthSamples.backend signup
                                AuthSamples.values AuthForm.initialState
                                AuthSamples.world) eq_refl))).
Defined.

End AuthFormMore.

Section MockAuthFacts.
Import JS Axios Browser AuthClaims.

Ltac run_mock :=
  unfold MockAuth.onSubmit, MockAuth.createUser, MockAuth.login, MockAuth.await,
    MockAuth.rejection, MockAuth.handleVerify, MockAuth.verifyTimer,
    MockAuth.setOtp, MockAuth.setIsVerifying, MockAuth.setError.

(** The mock form never sends a request and never writes storage.  It
    opens the modal unless the email contains "exists" (a sign-up with a
    name) or "notfound" (anything else), and then it shows the detail of
    the mock's rejection: the generic text of its [catch] is never shown. *)
Theorem mock_submit_outcome (h : Host) (type : formType) (values : AuthForm.Values)
  (st : AuthForm.State) (w : World) :
  let creating := is_signup type && truthy_opt (AuthForm.FullName values) in
  let rejected := if creating then includes (AuthForm.Email values) "exists"
                  else includes (AuthForm.Email values) "notfound" in
  let out := run (MockAuth.onSubmit h type values) st w in
  AuthForm.isLoading (fst out) = false
  /\ sent (snd out) = sent w
  /\ storage_writes (trace (snd out)) = storage_writes (trace w)
  /\ localStorage (snd out) = localStorage w
  /\ (rejected = false ->
      AuthForm.errorMessage (fst out) = ""
      /\ AuthForm.accountData (fst out)
         = Some {| AuthForm.accountId := "acc_" ++ Z_to_string (Date_now h);
                   AuthForm.email := AuthForm.Email values;
                   AuthForm.fullName := AuthForm.FullName values |})
  /\ (rejected = true ->
      AuthForm.accountData (fst out) = AuthForm.accountData st
      /\ AuthForm.errorMessage (fst out)
         = if creating
           then "User with this email already exists. Please try logging in."
           else "Account not found. Please sign up first.").
Proof.
  intros creating rejected out. subst creating rejected out.
  destruct st as [l e a], w as [ls tr]. run_mock.
  destruct (is_signup type && truthy_opt (AuthForm.FullName values));
    match goal with
    | |- context [includes ?s ?t] => destruct (includes s t)
    end;
    run_handler; rewrite sent_app, storage_writes_app, !app_nil_r;
    (split; [reflexivity | split; [reflexivity | split; [reflexivity | split;
       [reflexivity | split; intros H; try discriminate H; split; reflexivity]]]]).
Qed.

Lemma mock_submit_outcome_witness :
  AuthForm.errorMessage
    (fst (run (MockAuth.onSubmit Samples.host signin
                 {| AuthForm.FullName := Some "";
                    AuthForm.Email := "notfound@example.org" |})
            AuthForm.initialState AuthSamples.world))
  = "Account not found. Please sign up first.".
Proof.
  exact (proj2 (proj2 (proj2 (proj2 (proj2 (proj2
           (mock_submit_outcome Samples.host signin
              {| AuthForm.FullName := Some "";
                 AuthForm.Email := "notfound@example.org" |}
              AuthForm.initialState AuthSamples.world))))) eq_refl)).
Defined.

(** The mock passcode check.  A click disables the button and schedules
    one task; when the task runs, whatever was typed meanwhile, it judges
    the passcode of the click: "123456" calls [onSuccess] with a token made
    from the account id, anything else sets the error.  Either way the
    button is released, and nothing is sent or stored. *)
Theorem mock_verify_outcome (props : MockAuth.Props) (st later : MockAuth.State)
  (w w1 : World) :
  let click := MockAuth.handleVerify props (st, w) in
  (snd click
   = ({| MockAuth.otp := MockAuth.otp st; MockAuth.isVerifying := true;
         MockAuth.error := "" |},
      emit (SetTimeout "verify" 1000) w)
   /\ MockAuth.verify_disabled (fst (snd click)) = true)
  /\ exists task,
       fst click = Returned task
       /\ (MockAuth.otp st = "123456" ->
           run task later w1
           = ({| MockAuth.otp := MockAuth.otp later; MockAuth.isVerifying := false;
                 MockAuth.error := MockAuth.error later |},
              emit (Callback "onSuccess"
                      ["fake-jwt-token-for-" ++ MockAuth.AccountId props]) w1))
       /\ (MockAuth.otp st <> "123456" ->
           run task later w1
           = ({| MockAuth.otp := MockAuth.otp later; MockAuth.isVerifying := false;
                 MockAuth.error := "Invalid OTP. Please try again." |}, w1)).
Proof.
  intros click. subst click. destruct st as [o v e], later as [o1 v1 e1].
  run_mock. run_handler. cbn [MockAuth.otp MockAuth.isVerifying MockAuth.error].
  split; [split; reflexivity|].
  eexists. split; [reflexivity|]. split.
  - intros ->. reflexivity.
  - intros Hne. apply String.eqb_neq in Hne. rewrite Hne. reflexivity.
Qed.

Lemma mock_verify_outcome_witness :
  exists task,
    fst (MockAuth.handleVerify
           {| MockAuth.Email := "ada@example.org"; MockAuth.AccountId := "acc_1" |}
           ({| MockAuth.otp := "123456"; MockAuth.isVerifying := false;
               MockAuth.error := "" |}, AuthSamples.world)) = Returned task
    /\ run task {| MockAuth.otp := ""; MockAuth.isVerifying := true;
                   MockAuth.error := "" |} AuthSamples.world
       = ({| MockAuth.otp := ""; MockAuth.isVerifying := false; MockAuth.error := "" |},
          emit (Callback "onSuccess" ["fake-jwt-token-for-acc_1"]) AuthSamples.world).
Proof.
  destruct (proj2 (mock_verify_outcome
                     {| MockAuth.Email := "ada@example.org";
                        MockAuth.AccountId := "acc_1" |}
                     {| MockAuth.otp := "123456"; MockAuth.isVerifying := false;
                        MockAuth.error := "" |}
                     {| MockAuth.otp := ""; MockAuth.isVerifying := true;
                        MockAuth.error := "" |}
                     AuthSamples.world AuthSamples.world))
    as (task & Ht & Hok & _).
  exists task. split; [exact Ht | exact (Hok eq_refl)].
Defined.

End MockAuthFacts.
